(** * cursor-os: the system information gatherer

    A shallow embedding of [scripts/utilities/system-info-gatherer.py] and
    the properties of its probes and of its Markdown report writer.

    The script is a sequence of probes.  Each probe creates one dictionary,
    queries the host (executable search path, child processes, pseudo-files,
    the file system) and fills the dictionary in.  The host is modelled by a
    record of oracles ([world]); a probe is a computation in a small monad
    that threads the dictionary under construction and the log of host
    queries, and that can raise a Python exception. *)

From Stdlib Require Import ZArith List String Ascii Bool Lia.
From Stdlib Require Import DecimalString.
Import ListNotations.
Local Open Scope string_scope.
Local Open Scope Z_scope.

(** ** Python strings

    A [string] is read as a sequence of code points below 256.  The
    functions below are the [str] methods the script calls, on that range. *)

Module PyStr.

(** [str.isspace] on one code point: TAB..CR, FS..US, space, NEL, NBSP. *)
Definition is_space (c : ascii) : bool :=
let n := nat_of_ascii c in
((9 <=? n) && (n <=? 13))%nat || ((28 <=? n) && (n <=? 32))%nat
|| (n =? 133)%nat || (n =? 160)%nat.

Definition is_digit (c : ascii) : bool :=
let n := nat_of_ascii c in ((48 <=? n) && (n <=? 57))%nat.

Definition digit_val (c : ascii) : Z := Z.of_nat (nat_of_ascii c) - 48.

Definition is_upper (c : ascii) : bool :=
let n := nat_of_ascii c in ((65 <=? n) && (n <=? 90))%nat.

Definition is_lower (c : ascii) : bool :=
let n := nat_of_ascii c in ((97 <=? n) && (n <=? 122))%nat.

Definition to_upper (c : ascii) : ascii :=
if is_lower c then ascii_of_nat (nat_of_ascii c - 32) else c.

Definition to_lower (c : ascii) : ascii :=
if is_upper c then ascii_of_nat (nat_of_ascii c + 32) else c.

Definition nl : ascii := ascii_of_nat 10.
Definition NL : string := String nl "".

Definition is_empty (s : string) : bool :=
match s with EmptyString => true | String _ _ => false end.

(** [s.lstrip()], [s.rstrip()], [s.strip()] *)
Fixpoint lstrip (s : string) : string :=
match s with
| EmptyString => EmptyString
| String c r => if is_space c then lstrip r else s
end.

Fixpoint rstrip (s : string) : string :=
match s with
| EmptyString => EmptyString
| String c r =>
    let r' := rstrip r in
    if is_space c && is_empty r' then EmptyString else String c r'
end.

Definition strip (s : string) : string := rstrip (lstrip s).

(** Put a character in front of the first piece of a split. *)
Definition cons_head (c : ascii) (l : list string) : list string :=
match l with
| h :: t => String c h :: t
| [] => [String c EmptyString]
end.

(** [s.split(sep)] for a non-empty separator: the pieces between the
  non-overlapping occurrences of [sep], found left to right.  [skip]
  counts the characters of a matched separator still to be passed. *)
Fixpoint split_aux (sep : string) (skip : nat) (s : string) : list string :=
match s with
| EmptyString => [EmptyString]
| String c r =>
    match skip with
    | S k => split_aux sep k r
    | O =>
        if prefix sep s
        then EmptyString :: split_aux sep (Nat.pred (String.length sep)) r
        else cons_head c (split_aux sep 0 r)
    end
end.

Definition split (sep s : string) : list string := split_aux sep 0 s.

(** [s.split()]: the maximal runs of non-space characters. *)
Fixpoint split_ws (s : string) : list string :=
match s with
| EmptyString => []
| String c r =>
    if is_space c then split_ws r
    else match r with
         | EmptyString => [String c EmptyString]
         | String d _ =>
             if is_space d then String c EmptyString :: split_ws r
             else cons_head c (split_ws r)
         end
end.

(** [needle in hay] *)
Fixpoint contains (needle hay : string) : bool :=
prefix needle hay
|| match hay with
   | EmptyString => false
   | String _ r => contains needle r
   end.

(** Iterating over a text file: the lines, each with its newline. *)
Fixpoint lines (s : string) : list string :=
match s with
| EmptyString => []
| String c r =>
    if Ascii.eqb c nl then NL :: lines r else cons_head c (lines r)
end.

(** [s.replace(a, b)] for one-character [a] and [b]. *)
Fixpoint replace_char (a b : ascii) (s : string) : string :=
match s with
| EmptyString => EmptyString
| String c r => String (if Ascii.eqb c a then b else c) (replace_char a b r)
end.

(** [s.title()] for a string of ASCII characters, as the keys of the
  probes are: a letter that follows a letter is lowered, any other letter
  is raised.  Letters beyond ASCII are not cased here. *)
Fixpoint title_aux (prev_cased : bool) (s : string) : string :=
match s with
| EmptyString => EmptyString
| String c r =>
    let cased := is_upper c || is_lower c in
    String (if cased then (if prev_cased then to_lower c else to_upper c) else c)
           (title_aux cased r)
end.

Definition title (s : string) : string := title_aux false s.

(** The digits of [int(s)]: digits, single underscores between digits. *)
Fixpoint digits_aux (acc : Z) (prev_digit : bool) (s : string) : option Z :=
match s with
| EmptyString => if prev_digit then Some acc else None
| String c r =>
    if is_digit c then digits_aux (10 * acc + digit_val c) true r
    else if Ascii.eqb c "_"%char then
      match r with
      | String d _ =>
          if prev_digit && is_digit d then digits_aux acc false r else None
      | EmptyString => None
      end
    else None
end.

(** The white space that [int] passes over at both ends of a literal:
  TAB..CR, space, NEL, NBSP.  FS..US, which [str.strip] takes off, are
  not part of it. *)
Definition is_int_space (c : ascii) : bool :=
let n := nat_of_ascii c in
((9 <=? n) && (n <=? 13))%nat || (n =? 32)%nat || (n =? 133)%nat || (n =? 160)%nat.

Fixpoint skip_int_space (s : string) : string :=
match s with
| EmptyString => EmptyString
| String c r => if is_int_space c then skip_int_space r else s
end.

(** The digits and underscores that [s] starts with, and what follows
  them. *)
Fixpoint span_digits (s : string) : string * string :=
match s with
| EmptyString => (EmptyString, EmptyString)
| String c r =>
    if is_digit c || Ascii.eqb c "_"%char
    then let (run, rest) := span_digits r in (String c run, rest)
    else (EmptyString, s)
end.

Fixpoint count_digits (s : string) : Z :=
match s with
| EmptyString => 0
| String c r => (if is_digit c then 1 else 0) + count_digits r
end.

(** [sys.get_int_max_str_digits()], as the interpreter starts. *)
Definition max_str_digits : Z := 4300.

(** How [int(s)] reads [s] in base 10: white space, a sign, the digits,
  white space.  The number of digits is checked once the digits are
  read and before what follows them is looked at. *)
Inductive literal : Type :=
| Int (n : Z)
| Invalid
| TooLong (digits : Z).

Definition scan_int (s : string) : literal :=
let t := skip_int_space s in
let '(neg, u) := match t with
                 | String "-"%char r => (true, r)
                 | String "+"%char r => (false, r)
                 | _ => (false, t)
                 end in
let '(run, rest) := span_digits u in
match digits_aux 0 false run with
| None => Invalid
| Some n =>
    if max_str_digits <? count_digits run then TooLong (count_digits run)
    else if is_empty (skip_int_space rest)
    then Int (if neg then - n else n)
    else Invalid
end.

(** [int(s)] in base 10; [None] where Python raises [ValueError]. *)
Definition parse_int (s : string) : option Z :=
match scan_int s with
| Int n => Some n
| Invalid | TooLong _ => None
end.

(** [repr(s)]: between single quotes, or between double quotes when [s]
  has a single quote and no double quote; the quote in use and the
  backslash are escaped, TAB, LF and CR are written with their letter,
  and any other character that is not printable with its code in
  hexadecimal. *)
Definition squote : ascii := ascii_of_nat 39.
Definition dquote : ascii := ascii_of_nat 34.
Definition backslash : ascii := ascii_of_nat 92.

Fixpoint has_char (a : ascii) (s : string) : bool :=
match s with
| EmptyString => false
| String c r => Ascii.eqb c a || has_char a r
end.

(** [str.isprintable] on one code point *)
Definition is_printable (c : ascii) : bool :=
let n := nat_of_ascii c in
((32 <=? n) && (n <=? 126))%nat || ((161 <=? n) && negb (n =? 173))%nat.

Definition hex_digit (n : nat) : ascii :=
match get n "0123456789abcdef" with
| Some c => c
| None => "0"%char
end.

Definition repr_char (quote c : ascii) : string :=
let n := nat_of_ascii c in
if Ascii.eqb c quote || Ascii.eqb c backslash
then String backslash (String c EmptyString)
else if (n =? 9)%nat then String backslash "t"
else if (n =? 10)%nat then String backslash "n"
else if (n =? 13)%nat then String backslash "r"
else if is_printable c then String c EmptyString
else String backslash
       (String "x"%char
          (String (hex_digit (n / 16)) (String (hex_digit (n mod 16)) EmptyString))).

Fixpoint repr_body (quote : ascii) (s : string) : string :=
match s with
| EmptyString => EmptyString
| String c r => repr_char quote c ++ repr_body quote r
end.

Definition repr (s : string) : string :=
let quote :=
  if has_char squote s && negb (has_char dquote s) then dquote else squote in
String quote (repr_body quote s ++ String quote EmptyString).

(** [s.isascii()] *)
Fixpoint isascii (s : string) : bool :=
match s with
| EmptyString => true
| String c r => (nat_of_ascii c <? 128)%nat && isascii r
end.

(** [str(n)] for an integer. *)
Definition of_Z (n : Z) : string := NilZero.string_of_int (Z.to_int n).

End PyStr.

(** ** Python values, dictionaries and exceptions *)

(** A float that the script produces with [round(n / d, 1)], [d] a power of
    two.  For [|n| < 2^53] the quotient is a float exactly, and [round]
    gives the float nearest to the quotient rounded half-to-even to one
    decimal: [Tenths neg t] stands for it, of magnitude [t/10] and negative
    when [neg] (so that [-0.0] is told from [0.0]).  Beyond that range the
    float is left uncomputed as [Inexact n d]. *)
Inductive pyfloat : Type :=
| Tenths (neg : bool) (t : Z)
| Inexact (n d : Z).

Inductive value : Type :=
| VStr (s : string)
| VBool (b : bool)
| VFloat (x : pyfloat).

(** Rounding [a / d] half-to-even to an integer, for [0 <= a], [0 < d]. *)
Definition round_half_even (a d : Z) : Z :=
  let q := a / d in
  let r := a mod d in
  if 2 * r <? d then q
  else if d <? 2 * r then q + 1
  else if Z.even q then q else q + 1.

(** [round(x, 1)] for the float [x] that [n / d] is, [d] a power of two as
    the divisors of the script are: the quotient of an [n] below [2^53] in
    magnitude is then [x] itself. *)
Definition round1 (n d : Z) : pyfloat :=
  if Z.abs n <? 2 ^ 53
  then Tenths (n <? 0) (round_half_even (Z.abs n * 10) d)
  else Inexact n d.

(** A dictionary keeps its keys in insertion order; assigning to a key it
    has keeps the key's place. *)
Definition pydict : Type := list (string * value).

Fixpoint dict_get (k : string) (d : pydict) : option value :=
  match d with
  | [] => None
  | (k', v) :: r => if String.eqb k k' then Some v else dict_get k r
  end.

Fixpoint dict_set (k : string) (v : value) (d : pydict) : pydict :=
  match d with
  | [] => [(k, v)]
  | (k', v') :: r =>
      if String.eqb k k' then (k', v) :: r else (k', v') :: dict_set k v r
  end.

Definition dict_keys (d : pydict) : list string := map fst d.

(** The exception classes the script tells apart: [TimeoutExpired] has a
    handler of its own, [KeyboardInterrupt] is the one class here that does
    not derive from [Exception]. *)
Inductive exn_class : Type :=
| TimeoutExpired
| IndexError
| ValueError
| OSError
| OtherException
| KeyboardInterrupt.

Record exn : Type := Exn { exn_cls : exn_class; exn_text : string }.

Definition is_TimeoutExpired (e : exn) : bool :=
  match exn_cls e with TimeoutExpired => true | _ => false end.

(** [isinstance(e, Exception)] *)
Definition is_Exception (e : exn) : bool :=
  match exn_cls e with KeyboardInterrupt => false | _ => true end.

Inductive result (A : Type) : Type :=
| Ok (a : A)
| Raise (e : exn).
Arguments Ok {A} a.
Arguments Raise {A} e.

(** ** The host *)

Record CompletedProcess : Type :=
  Completed { returncode : Z; stdout : string; stderr : string }.

(** What a probe can ask the host. *)
Inductive call : Type :=
| CallWhich (exe : string)
| CallRun (command : list string) (timeout : option Z)
| CallOpen (path : string)
| CallExists (path : string).

(** The host as the script sees it during one run.  [subprocess_run c t] is
    the outcome of [subprocess.run(c, capture_output=True, text=True,
    timeout=t)]; [open_text p] is the text that reading the file [p] in text
    mode yields, line ends already translated to newlines, or the exception
    of [open].  An outcome can be any exception, [KeyboardInterrupt]
    included. *)
Record world : Type := World {
  platform_system : string;
  shutil_which : string -> option string;
  subprocess_run : list string -> option Z -> result CompletedProcess;
  open_text : string -> result string;
  os_path_exists : string -> bool
}.

(** ** The probe monad

    A frame holds the dictionary the running probe fills in and the log of
    the host queries made so far, latest first.  Both survive an exception:
    an assignment made before a [raise] is still there in the handler. *)

Record frame : Type := Frame { dict : pydict; calls : list call }.

Definition M (A : Type) : Type := frame -> result A * frame.

Definition ret {A} (a : A) : M A := fun fr => (Ok a, fr).

Definition bind {A B} (m : M A) (k : A -> M B) : M B :=
  fun fr =>
    match m fr with
    | (Ok a, fr') => k a fr'
    | (Raise e, fr') => (Raise e, fr')
    end.

Definition raise {A} (e : exn) : M A := fun fr => (Raise e, fr).

Notation "x <- c1 ;; c2" := (bind c1 (fun x => c2))
  (at level 61, c1 at next level, right associativity).
Notation "c1 ;; c2" := (bind c1 (fun _ => c2))
  (at level 61, right associativity).

(** [try: body / except ...]: [handlers e] is the body of the first clause
    that matches [e], if one does. *)
Definition try_except {A} (body : M A) (handlers : exn -> option (M A)) : M A :=
  fun fr =>
    match body fr with
    | (Ok a, fr') => (Ok a, fr')
    | (Raise e, fr') =>
        match handlers e with
        | Some h => h fr'
        | None => (Raise e, fr')
        end
    end.

Definition lift {A} (r : result A) : M A := fun fr => (r, fr).

Definition log (c : call) : M unit :=
  fun fr => (Ok tt, {| dict := dict fr; calls := c :: calls fr |}).

(** [d[k] = v] on the probe's dictionary *)
Definition setitem (k : string) (v : value) : M unit :=
  fun fr => (Ok tt, {| dict := dict_set k v (dict fr); calls := calls fr |}).

(** [return d] *)
Definition return_dict : M pydict := fun fr => (Ok (dict fr), fr).

(** [l[i]] *)
Definition getitem (l : list string) (i : nat) : M string :=
  match nth_error l i with
  | Some x => ret x
  | None => raise (Exn IndexError "list index out of range")
  end.

(** The [ValueError] of [int(s)]: the literal is quoted with [repr], cut
    after 200 characters (["%.200R"]). *)
Definition int_error (s : string) : exn :=
  Exn ValueError
    match PyStr.scan_int s with
    | PyStr.TooLong digits =>
        "Exceeds the limit (" ++ PyStr.of_Z PyStr.max_str_digits
        ++ " digits) for integer string conversion: value has "
        ++ PyStr.of_Z digits
        ++ " digits; use sys.set_int_max_str_digits() to increase the limit"
    | _ =>
        "invalid literal for int() with base 10: "
        ++ substring 0 200 (PyStr.repr s)
    end.

(** [int(s)] *)
Definition int (s : string) : M Z :=
  match PyStr.parse_int s with
  | Some n => ret n
  | None => raise (int_error s)
  end.

(** [n / d] for integers, [0 < d], is too large for a float: it rounds
    to [2^1024] or beyond. *)
Definition overflows (n d : Z) : bool :=
  (2 ^ 1024 - 2 ^ 970) * d <=? Z.abs n.

Definition overflow_error : exn :=
  Exn OtherException "integer division result too large for a float".

(** [round(n / d, 1)]: the division raises [OverflowError] when the
    quotient is too large for a float. *)
Definition round_quotient (n d : Z) : M pyfloat :=
  if overflows n d then raise overflow_error else ret (round1 n d).

Section Host.
Variable w : world.

Definition which (exe : string) : M (option string) :=
  log (CallWhich exe) ;; ret (shutil_which w exe).

Definition run (command : list string) (timeout : option Z)
  : M CompletedProcess :=
  log (CallRun command timeout) ;; lift (subprocess_run w command timeout).

Definition open_read (path : string) : M string :=
  log (CallOpen path) ;; lift (open_text w path).

Definition path_exists (path : string) : M bool :=
  log (CallExists path) ;; ret (os_path_exists w path).
End Host.

(** [for x in xs: body(x)] without [break] *)
Fixpoint for_each {A} (xs : list A) (body : A -> M unit) : M unit :=
  match xs with
  | [] => ret tt
  | x :: r => body x ;; for_each r body
  end.

(** A probe starts with an empty dictionary and an empty log. *)
Definition init : frame := {| dict := []; calls := [] |}.

Definition exec {A} (m : M A) : result A * frame := m init.

(** What the probe returns, and the host queries it made, in order. *)
Definition returned {A} (m : M A) : result A := fst (exec m).
Definition queries {A} (m : M A) : list call := rev (calls (snd (exec m))).

(** Truth value of [shutil.which(...)]: [None] and the empty string are
    false. *)
Definition truthy (p : option string) : bool :=
  match p with
  | Some s => negb (PyStr.is_empty s)
  | None => false
  end.

(** ** The probes *)

Section Probes.
Variable w : world.

(** *** [get_hardware_info] *)

(** [for line in f: if 'MemTotal:' in line: ...; break] *)
Fixpoint scan_meminfo (ls : list string) : M unit :=
  match ls with
  | [] => ret tt
  | line :: rest =>
      if PyStr.contains "MemTotal:" line then
        field <- getitem (PyStr.split_ws line) 1 ;;
        memory_kb <- int field ;;
        ram_gb <- round_quotient memory_kb (1024 ^ 2) ;;
        setitem "ram_gb" (VFloat ram_gb)
      else scan_meminfo rest
  end.

(** [for line in f: if 'model name' in line: ...; break] *)
Fixpoint scan_cpuinfo (ls : list string) : M unit :=
  match ls with
  | [] => ret tt
  | line :: rest =>
      if PyStr.contains "model name" line then
        field <- getitem (PyStr.split ": " line) 1 ;;
        setitem "cpu" (VStr (PyStr.strip field))
      else scan_cpuinfo rest
  end.

Definition hardware_windows : M unit :=
  result <- run w ["wmic"; "computersystem"; "get"; "TotalPhysicalMemory"] None ;;
  (if returncode result =? 0 then
     let lines := PyStr.split PyStr.NL (PyStr.strip (stdout result)) in
     if (1 <? List.length lines)%nat then
       l1 <- getitem lines 1 ;;
       memory_bytes <- int (PyStr.strip l1) ;;
       ram_gb <- round_quotient memory_bytes (1024 ^ 3) ;;
       setitem "ram_gb" (VFloat ram_gb)
     else ret tt
   else ret tt) ;;
  result <- run w ["wmic"; "cpu"; "get"; "Name"] None ;;
  if returncode result =? 0 then
    let lines := PyStr.split PyStr.NL (PyStr.strip (stdout result)) in
    if (1 <? List.length lines)%nat then
      l1 <- getitem lines 1 ;;
      setitem "cpu" (VStr (PyStr.strip l1))
    else ret tt
  else ret tt.

Definition hardware_darwin : M unit :=
  result <- run w ["sysctl"; "hw.memsize"] None ;;
  (if returncode result =? 0 then
     field <- getitem (PyStr.split ": " (stdout result)) 1 ;;
     memory_bytes <- int field ;;
     ram_gb <- round_quotient memory_bytes (1024 ^ 3) ;;
     setitem "ram_gb" (VFloat ram_gb)
   else ret tt) ;;
  result <- run w ["sysctl"; "-n"; "machdep.cpu.brand_string"] None ;;
  if returncode result =? 0 then
    setitem "cpu" (VStr (PyStr.strip (stdout result)))
  else ret tt.

Definition hardware_linux : M unit :=
  f <- open_read w "/proc/meminfo" ;;
  scan_meminfo (PyStr.lines f) ;;
  f <- open_read w "/proc/cpuinfo" ;;
  scan_cpuinfo (PyStr.lines f).

(** The body of the [try]. *)
Definition hardware_try : M unit :=
  if (platform_system w =? "Windows")%string then hardware_windows
  else if (platform_system w =? "Darwin")%string then hardware_darwin
  else if (platform_system w =? "Linux")%string then hardware_linux
  else ret tt.

(** [except Exception as e: hardware["error"] = ...] *)
Definition hardware_except (e : exn) : option (M unit) :=
  if is_Exception e
  then Some (setitem "error"
               (VStr ("Could not gather hardware info: " ++ exn_text e)))
  else None.

Definition get_hardware_info : M pydict :=
  try_except hardware_try hardware_except ;;
  return_dict.

(** *** [check_installed_software] *)

Definition check_commands : list (string * list string) :=
  [ ("git", ["git"; "--version"]);
    ("node", ["node"; "--version"]);
    ("npm", ["npm"; "--version"]);
    ("python", ["python"; "--version"]);
    ("python3", ["python3"; "--version"]);
    ("pip", ["pip"; "--version"]);
    ("docker", ["docker"; "--version"]);
    ("code", ["code"; "--version"]);
    ("curl", ["curl"; "--version"]);
    ("wget", ["wget"; "--version"]);
    ("rust", ["rustc"; "--version"]);
    ("cargo", ["cargo"; "--version"]);
    ("go", ["go"; "version"]);
    ("java", ["java"; "-version"]);
    ("mvn", ["mvn"; "--version"]);
    ("gradle", ["gradle"; "--version"]);
    ("yarn", ["yarn"; "--version"]);
    ("composer", ["composer"; "--version"]);
    ("php", ["php"; "--version"]);
    ("ruby", ["ruby"; "--version"]);
    ("gem", ["gem"; "--version"]);
    ("terraform", ["terraform"; "--version"]);
    ("kubectl", ["kubectl"; "version"; "--client"]);
    ("ansible", ["ansible"; "--version"]);
    ("vagrant", ["vagrant"; "--version"]) ].

(** The body of the [try] for one tool. *)
Definition check_tool_try (tool : string) (command : list string) : M unit :=
  result <- run w command (Some 5) ;;
  if returncode result =? 0 then
    l0 <- getitem (PyStr.split PyStr.NL (stdout result)) 0 ;;
    let version := PyStr.strip l0 in
    if negb (PyStr.is_empty (stderr result)) then
      e0 <- getitem (PyStr.split PyStr.NL (stderr result)) 0 ;;
      let version := PyStr.strip e0 in
      setitem tool (VStr version)
    else setitem tool (VStr version)
  else setitem tool (VStr "installed (version check failed)").

(** [except subprocess.TimeoutExpired: ... / except Exception: ...] *)
Definition check_tool_except (tool : string) (e : exn) : option (M unit) :=
  if is_TimeoutExpired e
  then Some (setitem tool (VStr "installed (timeout)"))
  else if is_Exception e
  then Some (setitem tool (VStr "installed (error checking version)"))
  else None.

(** One turn of the loop over the table. *)
Definition check_tool (entry : string * list string) : M unit :=
  let '(tool, command) := entry in
  exe <- getitem command 0 ;;
  found <- which w exe ;;
  if truthy found
  then try_except (check_tool_try tool command) (check_tool_except tool)
  else ret tt.

Definition check_installed_software : M pydict :=
  for_each check_commands check_tool ;;
  return_dict.

(** *** [detect_development_environments] *)

Definition windows_common_paths : list (string * string) :=
  [ ("Visual Studio Code", "Microsoft VS Code");
    ("Visual Studio", "Microsoft Visual Studio");
    ("IntelliJ IDEA", "JetBrains");
    ("PyCharm", "JetBrains");
    ("WebStorm", "JetBrains");
    ("Sublime Text", "Sublime HQ");
    ("Atom", "GitHub");
    ("Notepad++", "Notepad++") ].

Definition darwin_common_paths : list (string * string) :=
  [ ("/Applications/Visual Studio Code.app", "VS Code");
    ("/Applications/Xcode.app", "Xcode");
    ("/Applications/IntelliJ IDEA.app", "IntelliJ IDEA");
    ("/Applications/PyCharm.app", "PyCharm");
    ("/Applications/WebStorm.app", "WebStorm");
    ("/Applications/Sublime Text.app", "Sublime Text");
    ("/Applications/Atom.app", "Atom") ].

Definition check_path (entry : string * string) : M unit :=
  let '(path, name) := entry in
  present <- path_exists w path ;;
  if present then setitem name (VStr "installed") else ret tt.

(** On Windows the list is bound and the loop, which belongs to the
    Darwin branch, is not reached. *)
Definition detect_development_environments : M pydict :=
  (if (platform_system w =? "Windows")%string then
     let common_paths := windows_common_paths in
     ret tt
   else if (platform_system w =? "Darwin")%string then
     let common_paths := darwin_common_paths in
     for_each common_paths check_path
   else ret tt) ;;
  return_dict.

(** *** [get_network_info] *)

Definition ping_command : list string :=
  if negb (platform_system w =? "Windows")%string
  then ["ping"; "-c"; "1"; "8.8.8.8"]
  else ["ping"; "-n"; "1"; "8.8.8.8"].

Definition network_try : M unit :=
  result <- run w ping_command (Some 5) ;;
  setitem "internet_connected" (VBool (returncode result =? 0)).

(** A bare [except:] takes every exception. *)
Definition network_except (e : exn) : option (M unit) :=
  Some (setitem "internet_connected" (VStr "unknown")).

Definition get_network_info : M pydict :=
  try_except network_try network_except ;;
  return_dict.

End Probes.

(** ** The report and its Markdown rendering *)

(** [data]: the dictionary with the six fixed keys that [main] builds. *)
Record Report : Type := {
  system : pydict;
  hardware : pydict;
  software : pydict;
  environments : pydict;
  shell : pydict;
  network : pydict
}.

Section Markdown.
(** [repr] of the float [round(n / d, 1)] where [n] is out of the range
    that [round1] computes. *)
Variable repr_inexact : Z -> Z -> string.

(** The time of the run, as [strftime('%Y-%m-%d %H:%M:%S')] prints it. *)
Variable now : string.

Definition float_str (x : pyfloat) : string :=
  match x with
  | Tenths neg t =>
      (if neg then "-" else "") ++ PyStr.of_Z (t / 10) ++ "." ++ PyStr.of_Z (t mod 10)
  | Inexact n d => repr_inexact n d
  end.

(** [f"{value}"] *)
Definition value_str (v : value) : string :=
  match v with
  | VStr s => s
  | VBool true => "True"
  | VBool false => "False"
  | VFloat x => float_str x
  end.

(** [key.replace('_', ' ').title()] *)
Definition humanize (key : string) : string :=
  PyStr.title (PyStr.replace_char "_" " " key).

(** [f"- **{key.replace('_', ' ').title()}**: {value}\n"] *)
Definition humanized_bullet (kv : string * value) : string :=
  "- **" ++ humanize (fst kv) ++ "**: " ++ value_str (snd kv) ++ PyStr.NL.

(** [f"- **{tool}**: {version}\n"] *)
Definition plain_bullet (kv : string * value) : string :=
  "- **" ++ fst kv ++ "**: " ++ value_str (snd kv) ++ PyStr.NL.

Definition title_line : string := "# Computer Information" ++ PyStr.NL ++ PyStr.NL.
Definition generated_line : string :=
  "*Generated on " ++ now ++ "*" ++ PyStr.NL ++ PyStr.NL.
Definition system_header : string := "## System Information" ++ PyStr.NL.
Definition hardware_header : string := "## Hardware" ++ PyStr.NL.
Definition software_header : string := "## Installed Development Tools" ++ PyStr.NL.
Definition environments_header : string := "## Development Environments" ++ PyStr.NL.
Definition shell_header : string := "## Shell Information" ++ PyStr.NL.
Definition network_header : string := "## Network" ++ PyStr.NL.

(** [if data["environments"]: ...] *)
Definition environments_writes (d : pydict) : list string :=
  match d with
  | [] => []
  | _ :: _ => [environments_header] ++ map plain_bullet d ++ [PyStr.NL]
  end.

(** The arguments of the calls of [f.write], in order. *)
Definition save_to_markdown_writes (data : Report) : list string :=
  [title_line] ++ [generated_line]
  ++ [system_header] ++ map humanized_bullet (system data) ++ [PyStr.NL]
  ++ [hardware_header] ++ map humanized_bullet (hardware data) ++ [PyStr.NL]
  ++ [software_header] ++ map plain_bullet (software data) ++ [PyStr.NL]
  ++ environments_writes (environments data)
  ++ [shell_header] ++ map humanized_bullet (shell data) ++ [PyStr.NL]
  ++ [network_header] ++ map humanized_bullet (network data).

(** The content of the file once it is closed. *)
Definition save_to_markdown (data : Report) : string :=
  String.concat "" (save_to_markdown_writes data).

(** Reading a section back from the writes: the ones that follow the
    first occurrence of [header], up to the blank line that ends the
    section or to the end of the document. *)
Fixpoint section_body (ws : list string) : list string :=
  match ws with
  | [] => []
  | x :: r => if String.eqb x PyStr.NL then [] else x :: section_body r
  end.

Fixpoint section_of (header : string) (ws : list string) : option (list string) :=
  match ws with
  | [] => None
  | x :: r =>
      if String.eqb x header then Some (section_body r) else section_of header r
  end.

End Markdown.

(** ** The rest of the script *)

(** What the script reads of the host besides [world], and what the host
    answers when the script writes: [os_makedirs p] is the outcome of
    [os.makedirs(p, exist_ok=True)], [open_write p] that of [open(p, 'w')],
    [datetime_now] the time as [strftime('%Y-%m-%d %H:%M:%S')] prints it. *)
Record runtime : Type := Runtime {
  platform_version : string;
  platform_release : string;
  platform_architecture : string * string;
  platform_machine : string;
  platform_processor : string;
  platform_python_version : string;
  platform_node : string;
  os_environ : string -> option string;
  datetime_now : string;
  os_makedirs : string -> result unit;
  open_write : string -> result unit
}.

Section Script.
Variable w : world.
Variable rt : runtime.

(** *** [get_system_info] *)

Definition get_system_info : M pydict :=
  ret [ ("os", VStr (platform_system w));
        ("os_version", VStr (platform_version rt));
        ("os_release", VStr (platform_release rt));
        ("architecture", VStr (fst (platform_architecture rt)));
        ("machine", VStr (platform_machine rt));
        ("processor", VStr (platform_processor rt));
        ("python_version", VStr (platform_python_version rt));
        ("hostname", VStr (platform_node rt)) ].

(** *** [get_shell_info] *)

(** [os.environ.get(name, default)] *)
Definition environ_get (name default : string) : string :=
  match os_environ rt name with
  | Some v => v
  | None => default
  end.

Definition powershell_command : list string :=
  ["powershell"; "-Command"; "$PSVersionTable.PSVersion"].

Definition shell_try : M unit :=
  result <- run w powershell_command None ;;
  if returncode result =? 0
  then setitem "powershell_version" (VStr (PyStr.strip (stdout result)))
  else ret tt.

(** [except: pass] *)
Definition shell_except (e : exn) : option (M unit) := Some (ret tt).

Definition get_shell_info : M pydict :=
  setitem "current_shell" (VStr (environ_get "SHELL" "unknown")) ;;
  (if (platform_system w =? "Windows")%string
   then try_except shell_try shell_except
   else ret tt) ;;
  return_dict.

(** *** [main] and the entry point *)

(** What a run does that can be seen from outside, in order: the lines it
    prints, the queries of its probes, the directory it asks for and the
    files it writes, each with its content once closed. *)
Inductive event : Type :=
| Print (line : string)
| Ask (q : call)
| Makedirs (path : string)
| Write (path : string) (text : string).

Definition IO (A : Type) : Type := list event -> result A * list event.

Definition io_ret {A} (a : A) : IO A := fun evs => (Ok a, evs).

Definition io_bind {A B} (m : IO A) (k : A -> IO B) : IO B :=
  fun evs =>
    match m evs with
    | (Ok a, evs') => k a evs'
    | (Raise e, evs') => (Raise e, evs')
    end.

Declare Scope io_scope.
Notation "x <- c1 ;; c2" := (io_bind c1 (fun x => c2))
  (at level 61, c1 at next level, right associativity) : io_scope.
Notation "c1 ;; c2" := (io_bind c1 (fun _ => c2))
  (at level 61, right associativity) : io_scope.

(** [print(line)]; the console is taken to accept every line.  Where it
    does not, [print] raises and the run ends with status 1: what is said
    below of the lines of the summary is said of runs that end with
    status 0. *)
Definition print (line : string) : IO unit :=
  fun evs => (Ok tt, (evs ++ [Print line])%list).

(** A probe is run from an empty dictionary; its queries join the events,
    also when it raises. *)
Definition probe (m : M pydict) : IO pydict :=
  fun evs => (returned m, (evs ++ map Ask (queries m))%list).

Definition makedirs (path : string) : IO unit :=
  fun evs => (os_makedirs rt path, (evs ++ [Makedirs path])%list).

(** [with open(path, 'w') as f: ...], the writes of the body making up
    [text]: nothing is written when the file does not open.  Once the file
    is open the writes are taken to succeed; where one does not, the run
    ends with status 1, and what is said below of the two files together
    is said of runs that end with status 0. *)
Definition write_file (path text : string) : IO unit :=
  fun evs =>
    match open_write rt path with
    | Ok _ => (Ok tt, (evs ++ [Write path text])%list)
    | Raise e => (Raise e, evs)
    end.

(** [d[k]] for a dictionary of the report *)
Definition item (d : pydict) (k : string) : IO value :=
  fun evs =>
    match dict_get k d with
    | Some v => (Ok v, evs)
    | None => (Raise (Exn OtherException ("'" ++ k ++ "'")), evs)
    end.

(** [k in d] *)
Definition has_key (k : string) (d : pydict) : bool :=
  match dict_get k d with Some _ => true | None => false end.

Section Main.
(** [json.dumps(data, indent=2)], the text that [json.dump] writes, and
    [repr] of a float out of the range of [round1]: library functions that
    are not modelled. *)
Variable json_dumps : Report -> string.
Variable repr_inexact : Z -> Z -> string.
(** The pictographs that open five of the console lines; their code
    points are beyond the range of [string]. *)
Variable mark_gathering mark_saved mark_raw mark_summary mark_failed : string.

Local Open Scope io_scope.

Definition json_file : string := "user-data/computer-info.json".
Definition md_file : string := "user-data/computer-info.md".

Definition main : IO Report :=
  print (mark_gathering ++ " Gathering system information...") ;;
  sys <- probe get_system_info ;;
  hw <- probe (get_hardware_info w) ;;
  sw <- probe (check_installed_software w) ;;
  env <- probe (detect_development_environments w) ;;
  sh <- probe get_shell_info ;;
  net <- probe (get_network_info w) ;;
  let data := {| system := sys; hardware := hw; software := sw;
                 environments := env; shell := sh; network := net |} in
  makedirs "user-data" ;;
  write_file json_file (json_dumps data) ;;
  write_file md_file (save_to_markdown repr_inexact (datetime_now rt) data) ;;
  print (mark_saved ++ " System information saved to " ++ md_file) ;;
  print (mark_raw ++ " Raw data available in " ++ json_file) ;;
  print (PyStr.NL ++ mark_summary ++ " **System Summary:**") ;;
  os <- item (system data) "os" ;;
  os_release <- item (system data) "os_release" ;;
  print ("OS: " ++ value_str repr_inexact os ++ " "
         ++ value_str repr_inexact os_release) ;;
  (if has_key "ram_gb" (hardware data) then
     ram_gb <- item (hardware data) "ram_gb" ;;
     print ("RAM: " ++ value_str repr_inexact ram_gb ++ " GB")
   else io_ret tt) ;;
  (if has_key "cpu" (hardware data) then
     cpu <- item (hardware data) "cpu" ;;
     print ("CPU: " ++ value_str repr_inexact cpu)
   else io_ret tt) ;;
  print ("Development tools found: "
         ++ PyStr.of_Z (Z.of_nat (List.length (software data)))) ;;
  io_ret data.

Local Close Scope io_scope.

(** [if __name__ == "__main__": try: main() except ...]: the exit status
    of the process and all its events. *)
Definition script : Z * list event :=
  match main [] with
  | (Ok _, evs) => (0, evs)
  | (Raise e, evs) =>
      match exn_cls e with
      | KeyboardInterrupt =>
          (1, (evs ++ [Print (PyStr.NL ++ mark_failed
                              ++ " System information gathering cancelled by user")])%list)
      | _ =>
          (1, (evs ++ [Print (mark_failed
                              ++ " Error gathering system information: "
                              ++ exn_text e)])%list)
      end
  end.

End Main.
End Script.

(** * Concrete hosts *)

Module Hosts.

Definition no_file (path : string) : exn :=
  Exn OSError ("[Errno 2] No such file or directory: '" ++ path ++ "'").

(** A Linux host with neither tools nor readable pseudo-files. *)
Definition bare_linux : world :=
  {| platform_system := "Linux";
     shutil_which := fun _ => None;
     subprocess_run := fun c _ =>
       Raise (no_file (hd "" c));
     open_text := fun p => Raise (no_file p);
     os_path_exists := fun _ => false |}.

Definition meminfo_text : string :=
  "MemTotal:       16384000 kB" ++ PyStr.NL
  ++ "MemFree:         1234567 kB" ++ PyStr.NL.

Definition cpuinfo_text : string :=
  "processor	: 0" ++ PyStr.NL
  ++ "model name	: Intel(R) Core(TM) i7" ++ PyStr.NL.

(** A Linux host where both pseudo-files are read. *)
Definition linux : world :=
  {| platform_system := "Linux";
     shutil_which := fun _ => None;
     subprocess_run := fun c _ => Raise (no_file (hd "" c));
     open_text := fun p =>
       if (p =? "/proc/meminfo")%string then Ok meminfo_text
       else if (p =? "/proc/cpuinfo")%string then Ok cpuinfo_text
       else Raise (no_file p);
     os_path_exists := fun _ => false |}.

(** A Linux host where the memory file is read and the CPU file is not. *)
Definition linux_no_cpuinfo : world :=
  {| platform_system := "Linux";
     shutil_which := fun _ => None;
     subprocess_run := fun c _ => Raise (no_file (hd "" c));
     open_text := fun p =>
       if (p =? "/proc/meminfo")%string then Ok meminfo_text
       else Raise (Exn OSError "[Errno 13] Permission denied: '/proc/cpuinfo'");
     os_path_exists := fun _ => false |}.

(** A Darwin host with two of the application bundles. *)
Definition mac : world :=
  {| platform_system := "Darwin";
     shutil_which := fun _ => None;
     subprocess_run := fun c _ => Raise (no_file (hd "" c));
     open_text := fun p => Raise (no_file p);
     os_path_exists := fun p =>
       (p =? "/Applications/Xcode.app")%string
       || (p =? "/Applications/Visual Studio Code.app")%string |}.

(** A Windows host where every path exists. *)
Definition windows : world :=
  {| platform_system := "Windows";
     shutil_which := fun _ => None;
     subprocess_run := fun c _ => Raise (no_file (hd "" c));
     open_text := fun p => Raise (no_file p);
     os_path_exists := fun _ => true |}.

Definition on_path (exes : list string) (exe : string) : option string :=
  if existsb (String.eqb exe) exes then Some ("/usr/bin/" ++ exe) else None.

(** A Linux host with a few tools, whose version commands end in each of
    the ways the tool probe tells apart. *)
Definition workstation : world :=
  {| platform_system := "Linux";
     shutil_which :=
       on_path ["git"; "node"; "java"; "docker"; "kubectl"; "code"; "curl"];
     subprocess_run := fun c _ =>
       match c with
       | "git" :: _ => Ok (Completed 0 ("git version 2.39.2" ++ PyStr.NL) "")
       | "node" :: _ => Ok (Completed 0 "v1.2.3" "")
       | "java" :: _ => Ok (Completed 0 "" "java version 17")
       | "curl" :: _ => Ok (Completed 0 "" "")
       | "kubectl" :: _ => Ok (Completed 1 "" ("error: unknown flag" ++ PyStr.NL))
       | "docker" :: _ =>
           Raise (Exn TimeoutExpired
                    "Command '['docker', '--version']' timed out after 5 seconds")
       | "code" :: _ =>
           Raise (Exn OSError "[Errno 8] Exec format error: 'code'")
       | _ => Raise (no_file (hd "" c))
       end;
     open_text := fun p => Raise (no_file p);
     os_path_exists := fun _ => false |}.

(** What the tool probe returns on [workstation]. *)
Definition workstation_tools : pydict :=
  [ ("git", VStr "git version 2.39.2");
    ("node", VStr "v1.2.3");
    ("docker", VStr "installed (timeout)");
    ("code", VStr "installed (error checking version)");
    ("curl", VStr "");
    ("java", VStr "java version 17");
    ("kubectl", VStr "installed (version check failed)") ].

(** A host where [git] prints its version after two spaces. *)
Definition padded : world :=
  {| platform_system := "Linux";
     shutil_which := on_path ["git"];
     subprocess_run := fun c _ =>
       match c with
       | "git" :: _ => Ok (Completed 0 "  v1.2.3" "")
       | _ => Raise (no_file (hd "" c))
       end;
     open_text := fun p => Raise (no_file p);
     os_path_exists := fun _ => false |}.

(** What the hardware probe holds on [linux_no_cpuinfo] when the CPU
    file fails to open. *)
Definition cpuinfo_denied : exn :=
  Exn OSError "[Errno 13] Permission denied: '/proc/cpuinfo'".

Definition after_meminfo : frame :=
  {| dict := [("ram_gb", VFloat (Tenths false 156))];
     calls := [CallOpen "/proc/cpuinfo"; CallOpen "/proc/meminfo"] |}.

(** Two reports, without and with a detected environment. *)
Definition report_without : Report :=
  {| system := [("os", VStr "Linux"); ("os_version", VStr "#1 SMP")];
     hardware := [("ram_gb", VFloat (Tenths false 156))];
     software := [("git", VStr "git version 2.39.2")];
     environments := [];
     shell := [("current_shell", VStr "/bin/sh")];
     network := [("internet_connected", VBool true)] |}.

Definition report_with : Report :=
  {| system := [("os", VStr "Darwin")];
     hardware := [];
     software := [];
     environments := [("VS Code", VStr "installed"); ("Xcode", VStr "installed")];
     shell := [("current_shell", VStr "/bin/zsh")];
     network := [("internet_connected", VStr "unknown")] |}.

End Hosts.

(** * Concrete runs *)

Module Runs.

Definition denied (path : string) : exn :=
  Exn OSError ("[Errno 13] Permission denied: '" ++ path ++ "'").

(** A host that answers every write. *)
Definition rt : runtime :=
  {| platform_version := "#1 SMP";
     platform_release := "6.1.0";
     platform_architecture := ("64bit", "ELF");
     platform_machine := "x86_64";
     platform_processor := "";
     platform_python_version := "3.11.2";
     platform_node := "box";
     os_environ := fun name =>
       if (name =? "SHELL")%string then Some "/bin/bash" else None;
     datetime_now := "2024-01-01 00:00:00";
     os_makedirs := fun _ => Ok tt;
     open_write := fun _ => Ok tt |}.

(** The same host, where the directory cannot be made. *)
Definition rt_no_dir : runtime :=
  {| platform_version := "#1 SMP";
     platform_release := "6.1.0";
     platform_architecture := ("64bit", "ELF");
     platform_machine := "x86_64";
     platform_processor := "";
     platform_python_version := "3.11.2";
     platform_node := "box";
     os_environ := fun _ => None;
     datetime_now := "2024-01-01 00:00:00";
     os_makedirs := fun p => Raise (denied p);
     open_write := fun _ => Ok tt |}.

(** The same host, where the Markdown file does not open. *)
Definition rt_no_md : runtime :=
  {| platform_version := "#1 SMP";
     platform_release := "6.1.0";
     platform_architecture := ("64bit", "ELF");
     platform_machine := "x86_64";
     platform_processor := "";
     platform_python_version := "3.11.2";
     platform_node := "box";
     os_environ := fun _ => None;
     datetime_now := "2024-01-01 00:00:00";
     os_makedirs := fun _ => Ok tt;
     open_write := fun p =>
       if (p =? "user-data/computer-info.md")%string
       then Raise (denied p) else Ok tt |}.

(** What the six probes return on [Hosts.workstation] with [rt]. *)
Definition workstation_data : Report :=
  {| system := [ ("os", VStr "Linux"); ("os_version", VStr "#1 SMP");
                 ("os_release", VStr "6.1.0"); ("architecture", VStr "64bit");
                 ("machine", VStr "x86_64"); ("processor", VStr "");
                 ("python_version", VStr "3.11.2"); ("hostname", VStr "box") ];
     hardware := [ ("error",
                    VStr "Could not gather hardware info: [Errno 2] No such file or directory: '/proc/meminfo'") ];
     software := Hosts.workstation_tools;
     environments := [];
     shell := [("current_shell", VStr "/bin/bash")];
     network := [("internet_connected", VStr "unknown")] |}.

Definition interrupt : exn := Exn KeyboardInterrupt "".

(** A Linux host where the operator interrupts the read of the memory
    file. *)
Definition interrupted : world :=
  {| platform_system := "Linux";
     shutil_which := fun _ => None;
     subprocess_run := fun c _ => Raise (Hosts.no_file (hd "" c));
     open_text := fun _ => Raise interrupt;
     os_path_exists := fun _ => false |}.

(** A Linux host where the operator interrupts the version command of
    [git]. *)
Definition tool_interrupted : world :=
  {| platform_system := "Linux";
     shutil_which := Hosts.on_path ["git"];
     subprocess_run := fun c _ => Raise interrupt;
     open_text := fun p => Raise (Hosts.no_file p);
     os_path_exists := fun _ => false |}.

Definition freebsd : world :=
  {| platform_system := "FreeBSD";
     shutil_which := fun _ => None;
     subprocess_run := fun c _ => Raise (Hosts.no_file (hd "" c));
     open_text := fun p => Raise (Hosts.no_file p);
     os_path_exists := fun _ => true |}.

(** Linux hosts whose memory file has no [MemTotal:] line, and one whose
    [MemTotal:] line has no number. *)
Definition linux_no_memtotal : world :=
  {| platform_system := "Linux";
     shutil_which := fun _ => None;
     subprocess_run := fun c _ => Raise (Hosts.no_file (hd "" c));
     open_text := fun p =>
       if (p =? "/proc/meminfo")%string
       then Ok ("MemFree:         1234567 kB" ++ PyStr.NL)
       else Ok Hosts.cpuinfo_text;
     os_path_exists := fun _ => false |}.

Definition linux_bad_memtotal : world :=
  {| platform_system := "Linux";
     shutil_which := fun _ => None;
     subprocess_run := fun c _ => Raise (Hosts.no_file (hd "" c));
     open_text := fun p =>
       if (p =? "/proc/meminfo")%string
       then Ok ("MemTotal:       lots kB" ++ PyStr.NL)
       else Ok Hosts.cpuinfo_text;
     os_path_exists := fun _ => false |}.

Definition wmic_memory : CompletedProcess :=
  Completed 0 ("TotalPhysicalMemory  " ++ PyStr.NL
               ++ "17179869184          " ++ PyStr.NL ++ PyStr.NL) "".

Definition wmic_cpu : CompletedProcess :=
  Completed 0 ("Name                  " ++ PyStr.NL
               ++ "Intel(R) Core(TM) i7  " ++ PyStr.NL ++ PyStr.NL) "".

(** A Windows host whose [wmic] commands answer. *)
Definition windows_pc : world :=
  {| platform_system := "Windows";
     shutil_which := fun _ => None;
     subprocess_run := fun c _ =>
       match c with
       | ["wmic"; "computersystem"; "get"; "TotalPhysicalMemory"] => Ok wmic_memory
       | ["wmic"; "cpu"; "get"; "Name"] => Ok wmic_cpu
       | _ => Raise (Hosts.no_file (hd "" c))
       end;
     open_text := fun p => Raise (Hosts.no_file p);
     os_path_exists := fun _ => false |}.

(** A Windows host where every command exits with status 1. *)
Definition windows_failing : world :=
  {| platform_system := "Windows";
     shutil_which := fun _ => None;
     subprocess_run := fun _ _ => Ok (Completed 1 "" "");
     open_text := fun p => Raise (Hosts.no_file p);
     os_path_exists := fun _ => false |}.

(** A Windows host where the memory command prints its heading alone. *)
Definition windows_heading_only : world :=
  {| platform_system := "Windows";
     shutil_which := fun _ => None;
     subprocess_run := fun c _ =>
       match c with
       | ["wmic"; "computersystem"; "get"; "TotalPhysicalMemory"] =>
           Ok (Completed 0 ("TotalPhysicalMemory  " ++ PyStr.NL) "")
       | _ => Ok (Completed 1 "" "")
       end;
     open_text := fun p => Raise (Hosts.no_file p);
     os_path_exists := fun _ => false |}.

Definition sysctl_memory : CompletedProcess :=
  Completed 0 ("hw.memsize: 17179869184" ++ PyStr.NL) "".

Definition sysctl_cpu : CompletedProcess :=
  Completed 0 ("Apple M1" ++ PyStr.NL) "".

(** A Darwin host whose [sysctl] commands answer. *)
Definition macbook : world :=
  {| platform_system := "Darwin";
     shutil_which := fun _ => None;
     subprocess_run := fun c _ =>
       match c with
       | ["sysctl"; "hw.memsize"] => Ok sysctl_memory
       | ["sysctl"; "-n"; "machdep.cpu.brand_string"] => Ok sysctl_cpu
       | _ => Raise (Hosts.no_file (hd "" c))
       end;
     open_text := fun p => Raise (Hosts.no_file p);
     os_path_exists := fun _ => false |}.

(** A Darwin host whose memory command prints the number alone. *)
Definition darwin_bare_number : world :=
  {| platform_system := "Darwin";
     shutil_which := fun _ => None;
     subprocess_run := fun c _ =>
       match c with
       | ["sysctl"; "hw.memsize"] => Ok (Completed 0 ("17179869184" ++ PyStr.NL) "")
       | _ => Ok sysctl_cpu
       end;
     open_text := fun p => Raise (Hosts.no_file p);
     os_path_exists := fun _ => false |}.

(** A Darwin host whose memory command prints a number of 401 digits. *)
Definition huge_number : string :=
  String "1" (string_of_list_ascii (repeat "0"%char 400)).

Definition darwin_huge : world :=
  {| platform_system := "Darwin";
     shutil_which := fun _ => None;
     subprocess_run := fun c _ =>
       match c with
       | ["sysctl"; "hw.memsize"] =>
           Ok (Completed 0 ("hw.memsize: " ++ huge_number ++ PyStr.NL) "")
       | _ => Ok sysctl_cpu
       end;
     open_text := fun p => Raise (Hosts.no_file p);
     os_path_exists := fun _ => false |}.

End Runs.

(** * Specifications

    The notions in which the properties of the probes are stated. *)

(** ** A program logic for the probe monad

    [triple P m Q E]: from a frame that satisfies [P], [m] either returns
    [a] in a frame that satisfies [Q a], or raises [e] in a frame that
    satisfies [E e]. *)

Definition triple {A} (P : frame -> Prop) (m : M A)
    (Q : A -> frame -> Prop) (E : exn -> frame -> Prop) : Prop :=
  forall fr, P fr ->
    match m fr with
    | (Ok a, fr') => Q a fr'
    | (Raise e, fr') => E e fr'
    end.

(** An invariant [I] of the dictionary, kept whatever is logged. *)
Definition on_dict (I : pydict -> Prop) : frame -> Prop := fun fr => I (dict fr).

(** [I] survives an assignment to the key [k]. *)
Definition stable (I : pydict -> Prop) (k : string) : Prop :=
  forall v d, I d -> I (dict_set k v d).

(** The fields that the hardware probe gathers. *)
Definition hardware_fields (d : pydict) : Prop :=
  forall k, In k (dict_keys d) -> k = "ram_gb" \/ k = "cpu".

(** The text before the first newline. *)
Fixpoint first_line (s : string) : string :=
  match s with
  | EmptyString => EmptyString
  | String c r => if Ascii.eqb c PyStr.nl then EmptyString else String c (first_line r)
  end.

(** The version that a successful run records. *)
Definition tool_version (r : CompletedProcess) : string :=
  if PyStr.is_empty (stderr r)
  then PyStr.strip (first_line (stdout r))
  else PyStr.strip (first_line (stderr r)).

(** What is recorded for a tool found on the search path, from the outcome
    of its command; nothing when the exception is left to propagate. *)
Definition tool_status (o : result CompletedProcess) : option string :=
  match o with
  | Ok r =>
      Some (if returncode r =? 0 then tool_version r
            else "installed (version check failed)")
  | Raise e =>
      if is_TimeoutExpired e then Some "installed (timeout)"
      else if is_Exception e then Some "installed (error checking version)"
      else None
  end.

(** A frame with more queries logged, and with a text stored under a key. *)
Definition logged (cs : list call) (fr : frame) : frame :=
  {| dict := dict fr; calls := (cs ++ calls fr)%list |}.

Definition stored (k : string) (s : string) (fr : frame) : frame :=
  {| dict := dict_set k (VStr s) (dict fr); calls := calls fr |}.

Section ToolOutcome.
Variable w : world.

(** The dictionary after one turn of the loop that did not raise. *)
Definition record_tool (d : pydict) (entry : string * list string) : pydict :=
  match snd entry with
  | exe :: _ =>
      if truthy (shutil_which w exe) then
        match tool_status (subprocess_run w (snd entry) (Some 5)) with
        | Some s => dict_set (fst entry) (VStr s) d
        | None => d
        end
      else d
  | [] => d
  end.

(** No command of a tool on the search path is interrupted. *)
Definition uninterrupted (tbl : list (string * list string)) : Prop :=
  forall tool command exe e,
    In (tool, command) tbl -> nth_error command 0 = Some exe ->
    truthy (shutil_which w exe) = true ->
    subprocess_run w command (Some 5) = Raise e ->
    is_Exception e = true.

End ToolOutcome.

(** No string occurs twice. *)
Fixpoint distinct (l : list string) : bool :=
  match l with
  | [] => true
  | x :: r => negb (existsb (String.eqb x) r) && distinct r
  end.

(** A bullet starts with a dash: it is neither a header nor a blank
    line. *)
Definition dashed (s : string) : bool := prefix "-" s.

(** ** Further notions *)

(** The exceptions that the host hands to a probe. *)
Definition raised_by (w : world) (e : exn) : Prop :=
  (exists c t, subprocess_run w c t = Raise e) \/
  (exists p, open_text w p = Raise e).

(** What the line of the memory file that has [MemTotal:] makes the
    hardware probe raise, if it does: the line has no second field, the
    field is no integer, or the integer is too large to be divided as a
    float. *)
Definition meminfo_line_error (line : string) : option exn :=
  match nth_error (PyStr.split_ws line) 1 with
  | None => Some (Exn IndexError "list index out of range")
  | Some field =>
      match PyStr.parse_int field with
      | None => Some (int_error field)
      | Some kb =>
          if overflows kb (1024 ^ 2) then Some overflow_error else None
      end
  end.

(** The executable of an entry of the check table is on the search path. *)
Definition found (w : world) (entry : string * list string) : bool :=
  match snd entry with
  | exe :: _ => truthy (shutil_which w exe)
  | [] => false
  end.

(** The host queries that one entry of the check table gives rise to. *)
Definition tool_queries (w : world) (entry : string * list string) : list call :=
  match snd entry with
  | exe :: _ =>
      CallWhich exe
      :: (if truthy (shutil_which w exe) then [CallRun (snd entry) (Some 5)] else [])
  | [] => []
  end.

(** A write of the report writer that opens a section. *)
Definition is_header (s : string) : bool := prefix "## " s.

(** A section of the document as the specification describes it: the
    header line, one bullet line per entry, a blank line. *)
Definition section_text (header : string) (bullets : list string) : string :=
  header ++ String.concat "" bullets ++ PyStr.NL.

(** A text without a newline. *)
Fixpoint no_newline (s : string) : bool :=
  match s with
  | EmptyString => true
  | String c r => negb (Ascii.eqb c PyStr.nl) && no_newline r
  end.

(** A report whose keys and values, as the writer prints them, and the
    time of the run are each on one line. *)
Definition one_line_entries (repr_inexact : Z -> Z -> string) (d : pydict) : bool :=
  forallb (fun kv => no_newline (fst kv)
                     && no_newline (value_str repr_inexact (snd kv))) d.

Definition one_lined (repr_inexact : Z -> Z -> string) (now : string)
    (data : Report) : bool :=
  no_newline now
  && one_line_entries repr_inexact (system data)
  && one_line_entries repr_inexact (hardware data)
  && one_line_entries repr_inexact (software data)
  && one_line_entries repr_inexact (environments data)
  && one_line_entries repr_inexact (shell data)
  && one_line_entries repr_inexact (network data).

(** A text that is empty or ends with a newline. *)
Fixpoint ends_with_newline (s : string) : bool :=
  match s with
  | EmptyString => true
  | String c EmptyString => Ascii.eqb c PyStr.nl
  | String _ r => ends_with_newline r
  end.

(** [s] put in front of the first of the lines [l]. *)
Definition prepend (s : string) (l : list string) : list string :=
  match l with
  | h :: t => (s ++ h)%string :: t
  | [] => if PyStr.is_empty s then [] else [s]
  end.

(** All that the hardware probe can ask the host. *)
Definition hardware_calls : list call :=
  [ CallRun ["wmic"; "computersystem"; "get"; "TotalPhysicalMemory"] None;
    CallRun ["wmic"; "cpu"; "get"; "Name"] None;
    CallRun ["sysctl"; "hw.memsize"] None;
    CallRun ["sysctl"; "-n"; "machdep.cpu.brand_string"] None;
    CallOpen "/proc/meminfo";
    CallOpen "/proc/cpuinfo" ].

(** Every query logged so far is one of [qs]. *)
Definition asked_within (qs : list call) (fr : frame) : Prop :=
  forall q, In q (calls fr) -> In q qs.

(** An event that changes the file system. *)
Definition is_output (ev : event) : bool :=
  match ev with
  | Makedirs _ | Write _ _ => true
  | Print _ | Ask _ => false
  end.

Section RunNotions.
Variable w : world.
Variable rt : runtime.

(** The six probes return the six dictionaries of [data]. *)
Definition gathered (data : Report) : Prop :=
  returned (get_system_info w rt) = Ok (system data) /\
  returned (get_hardware_info w) = Ok (hardware data) /\
  returned (check_installed_software w) = Ok (software data) /\
  returned (detect_development_environments w) = Ok (environments data) /\
  returned (get_shell_info w rt) = Ok (shell data) /\
  returned (get_network_info w) = Ok (network data).

(** The queries of the six probes, in the order in which [main] runs
    them. *)
Definition probe_queries : list call :=
  (queries (get_system_info w rt)
   ++ queries (get_hardware_info w)
   ++ queries (check_installed_software w)
   ++ queries (detect_development_environments w)
   ++ queries (get_shell_info w rt)
   ++ queries (get_network_info w))%list.

Variable repr_inexact : Z -> Z -> string.
Variable mark_saved mark_raw mark_summary : string.

(** The lines that [main] prints once the files are written. *)
Definition summary_lines (data : Report) : list string :=
  ([ mark_saved ++ " System information saved to user-data/computer-info.md";
     mark_raw ++ " Raw data available in user-data/computer-info.json";
     PyStr.NL ++ mark_summary ++ " **System Summary:**";
     "OS: " ++ platform_system w ++ " " ++ platform_release rt ]%string
   ++ match dict_get "ram_gb" (hardware data) with
      | Some v => [("RAM: " ++ value_str repr_inexact v ++ " GB")%string]
      | None => []
      end
   ++ match dict_get "cpu" (hardware data) with
      | Some v => [("CPU: " ++ value_str repr_inexact v)%string]
      | None => []
      end
   ++ [("Development tools found: "
        ++ PyStr.of_Z (Z.of_nat (List.length (software data))))%string])%list.

End RunNotions.

(** * Reasoning about probes *)

(** ** Dictionaries *)

Lemma dict_get_set_same (k : string) (v : value) (d : pydict) :
  dict_get k (dict_set k v d) = Some v.
Proof.
  induction d as [|[k' v'] r IH]; simpl.
  - now rewrite String.eqb_refl.
  - destruct (String.eqb k k') eqn:E; simpl; rewrite E; auto.
Qed.

Lemma dict_get_set_other (k k' : string) (v : value) (d : pydict) :
  k <> k' -> dict_get k (dict_set k' v d) = dict_get k d.
Proof.
  intros Hne. induction d as [|[k0 v0] r IH]; simpl.
  - destruct (String.eqb_spec k k'); congruence.
  - destruct (String.eqb_spec k' k0) as [->|Hk]; simpl.
    + destruct (String.eqb_spec k k0); congruence.
    + now rewrite IH.
Qed.

Lemma dict_set_fresh (k : string) (v : value) (d : pydict) :
  dict_get k d = None -> dict_set k v d = (d ++ [(k, v)])%list.
Proof.
  induction d as [|[k' v'] r IH]; simpl; intros H; auto.
  destruct (String.eqb k k'); [discriminate|]. now rewrite IH.
Qed.

Lemma dict_get_None_keys (k : string) (d : pydict) :
  dict_get k d = None <-> ~ In k (dict_keys d).
Proof.
  induction d as [|[k' v'] r IH]; simpl.
  - tauto.
  - destruct (String.eqb_spec k k') as [->|Hne].
    + split; [discriminate|]. intros H. exfalso. apply H. now left.
    + rewrite IH. split; intros H; [intros [E|E]; [congruence|auto]|tauto].
Qed.

(** ** The rules of the program logic *)

Lemma triple_ret {A} (a : A) (P : frame -> Prop) (Q : A -> frame -> Prop) E :
  (forall fr, P fr -> Q a fr) ->
  triple P (ret a) Q E.
Proof. intros H fr Hfr. apply H, Hfr. Qed.

Lemma triple_bind {A B} (P : frame -> Prop) (m : M A) (k : A -> M B)
    (R : A -> frame -> Prop) (Q : B -> frame -> Prop) E :
  triple P m R E ->
  (forall a, triple (R a) (k a) Q E) ->
  triple P (bind m k) Q E.
Proof.
  intros Hm Hk fr Hfr. unfold bind. specialize (Hm fr Hfr).
  destruct (m fr) as [[a|e] fr']; auto. apply (Hk a fr' Hm).
Qed.

Lemma triple_try {A} (P : frame -> Prop) (body : M A)
    (handlers : exn -> option (M A))
    (Q : A -> frame -> Prop) (E' E : exn -> frame -> Prop) :
  triple P body Q E' ->
  (forall e, match handlers e with
             | Some h => triple (E' e) h Q E
             | None => forall fr, E' e fr -> E e fr
             end) ->
  triple P (try_except body handlers) Q E.
Proof.
  intros Hb Hh fr Hfr. unfold try_except. specialize (Hb fr Hfr).
  destruct (body fr) as [[a|e] fr']; auto.
  specialize (Hh e). destruct (handlers e) as [h|]; auto.
  apply (Hh fr' Hb).
Qed.

Lemma triple_if {A} (b : bool) (P : frame -> Prop) (m1 m2 : M A) Q E :
  (b = true -> triple P m1 Q E) ->
  (b = false -> triple P m2 Q E) ->
  triple P (if b then m1 else m2) Q E.
Proof. destruct b; auto. Qed.

Lemma triple_setitem (k : string) (v : value) (I J : pydict -> Prop) E :
  (forall d, I d -> J (dict_set k v d)) ->
  triple (on_dict I) (setitem k v) (fun _ => on_dict J) E.
Proof. intros H fr Hfr. apply H, Hfr. Qed.

(** The rules for a primitive followed by the rest of the block. *)

Lemma triple_getitem_then {B} (l : list string) (i : nat) (rest : string -> M B)
    (P : frame -> Prop) Q (E : exn -> frame -> Prop) :
  (forall e fr, is_Exception e = true -> P fr -> E e fr) ->
  (forall x, nth_error l i = Some x -> triple P (rest x) Q E) ->
  triple P (bind (getitem l i) rest) Q E.
Proof.
  intros HE Hrest fr Hfr. unfold bind, getitem.
  destruct (nth_error l i) as [x|] eqn:Hx; simpl.
  - now apply Hrest.
  - now apply HE.
Qed.

Lemma triple_int_then {B} (s : string) (rest : Z -> M B)
    (P : frame -> Prop) Q (E : exn -> frame -> Prop) :
  (forall e fr, is_Exception e = true -> P fr -> E e fr) ->
  (forall n, PyStr.parse_int s = Some n -> triple P (rest n) Q E) ->
  triple P (bind (int s) rest) Q E.
Proof.
  intros HE Hrest fr Hfr. unfold bind, int.
  destruct (PyStr.parse_int s) as [n|] eqn:Hn; simpl.
  - now apply Hrest.
  - now apply HE.
Qed.

Lemma triple_round_quotient_then {B} (n d : Z) (rest : pyfloat -> M B)
    (P : frame -> Prop) Q (E : exn -> frame -> Prop) :
  (forall e fr, is_Exception e = true -> P fr -> E e fr) ->
  (overflows n d = false -> triple P (rest (round1 n d)) Q E) ->
  triple P (bind (round_quotient n d) rest) Q E.
Proof.
  intros HE Hrest fr Hfr. unfold bind, round_quotient.
  destruct (overflows n d) eqn:Hn; simpl.
  - now apply HE.
  - now apply Hrest.
Qed.

Section HostRules.
Variable w : world.
Variable I : pydict -> Prop.
Variable B : Type.
Variable Q : B -> frame -> Prop.
Variable E : exn -> frame -> Prop.

Lemma triple_run_then (command : list string) (timeout : option Z)
    (rest : CompletedProcess -> M B) :
  (forall e fr, subprocess_run w command timeout = Raise e ->
                on_dict I fr -> E e fr) ->
  (forall r, subprocess_run w command timeout = Ok r ->
             triple (on_dict I) (rest r) Q E) ->
  triple (on_dict I) (bind (run w command timeout) rest) Q E.
Proof.
  intros HE Hrest fr Hfr. unfold run, bind, log, lift; simpl.
  destruct (subprocess_run w command timeout) as [r|e] eqn:Hr.
  - now apply Hrest.
  - now apply HE.
Qed.

Lemma triple_open_read_then (path : string) (rest : string -> M B) :
  (forall e fr, open_text w path = Raise e -> on_dict I fr -> E e fr) ->
  (forall s, open_text w path = Ok s -> triple (on_dict I) (rest s) Q E) ->
  triple (on_dict I) (bind (open_read w path) rest) Q E.
Proof.
  intros HE Hrest fr Hfr. unfold open_read, bind, log, lift; simpl.
  destruct (open_text w path) as [r|e] eqn:Hr.
  - now apply Hrest.
  - now apply HE.
Qed.
End HostRules.

(** * The network probe *)

(** C6. The network probe runs the one ping command, with the 5-second
    timeout, and returns a dictionary with the single key
    [internet_connected].  Its value is the boolean [True] exactly when the
    command exits with status 0, the boolean [False] when it exits with
    another status, and the string ["unknown"], which is no boolean, when
    the command could not be run. *)
Theorem get_network_info_internet_connected (w : world) :
  queries (get_network_info w) = [CallRun (ping_command w) (Some 5)] /\
  exists v,
    returned (get_network_info w) = Ok [("internet_connected", v)] /\
    (v = VBool true <->
     exists r, subprocess_run w (ping_command w) (Some 5) = Ok r /\ returncode r = 0) /\
    (forall r, subprocess_run w (ping_command w) (Some 5) = Ok r ->
               returncode r <> 0 -> v = VBool false) /\
    (forall e, subprocess_run w (ping_command w) (Some 5) = Raise e ->
               v = VStr "unknown" /\ forall b, v <> VBool b).
Proof.
  unfold queries, returned, exec, get_network_info, try_except, network_try,
    network_except, run, bind, log, lift, setitem, return_dict; simpl.
  destruct (subprocess_run w (ping_command w) (Some 5)) as [r|e] eqn:Hrun; simpl.
  - split; [reflexivity|]. exists (VBool (returncode r =? 0)).
    split; [reflexivity|]. repeat split.
    + intros Hv. exists r. split; [reflexivity|].
      apply Z.eqb_eq. congruence.
    + intros (r' & Hr' & H0). injection Hr' as <-.
      apply Z.eqb_eq in H0. now rewrite H0.
    + intros r' Hr' Hne. injection Hr' as <-.
      apply Z.eqb_neq in Hne. now rewrite Hne.
    + discriminate.
    + discriminate.
  - split; [reflexivity|]. exists (VStr "unknown").
    split; [reflexivity|]. repeat split; try discriminate.
    intros (r' & Hr' & _). discriminate.
Qed.

(** * The environment probe *)

(** C7. On every OS family but Darwin the environment probe returns the
    empty dictionary and asks the file system nothing; on Windows too,
    where a list of candidates is bound and never used. *)
Theorem detect_development_environments_other_os (w : world) :
  platform_system w <> "Darwin" ->
  returned (detect_development_environments w) = Ok [] /\
  queries (detect_development_environments w) = [].
Proof.
  intros Hos.
  unfold queries, returned, exec, detect_development_environments, bind.
  destruct (String.eqb_spec (platform_system w) "Windows") as [Hw|Hw].
  - split; reflexivity.
  - destruct (String.eqb_spec (platform_system w) "Darwin") as [Hd|Hd].
    + contradiction.
    + split; reflexivity.
Qed.

(** On Darwin the candidates are looked up, each once and in order. *)
Example detect_development_environments_mac :
  returned (detect_development_environments Hosts.mac)
    = Ok [("VS Code", VStr "installed"); ("Xcode", VStr "installed")] /\
  queries (detect_development_environments Hosts.mac)
    = map (fun entry => CallExists (fst entry)) darwin_common_paths.
Proof. split; reflexivity. Qed.

(** * The hardware probe *)

(** ** Rounding *)


Lemma round_half_even_tie (a d : Z) :
  2 * (a mod d) = d -> Z.even (round_half_even a d) = true.
Proof.
  intros Ht. unfold round_half_even.
  rewrite (proj2 (Z.ltb_ge _ _)) by lia.
  rewrite (proj2 (Z.ltb_ge _ _)) by lia.
  destruct (Z.even (a / d)) eqn:Ev; [exact Ev|].
  rewrite Z.even_add, Ev. reflexivity.
Qed.

(** ** Invariants of the dictionary along the probe *)

Section HardwareInvariant.
Variable w : world.
Variable I : pydict -> Prop.
Variable E : exn -> frame -> Prop.
Hypothesis ram_stable : stable I "ram_gb".
Hypothesis cpu_stable : stable I "cpu".
(** Exceptions that the interpreter raises. *)
Hypothesis E_python :
  forall e fr, is_Exception e = true -> on_dict I fr -> E e fr.

Lemma scan_meminfo_inv (ls : list string) :
  triple (on_dict I) (scan_meminfo ls) (fun _ => on_dict I) E.
Proof.
  induction ls as [|line rest IH]; simpl.
  - apply triple_ret; auto.
  - apply triple_if; intros _; [|exact IH].
    apply triple_getitem_then; [exact E_python|intros field _].
    apply triple_int_then; [exact E_python|intros kb _].
    apply triple_round_quotient_then; [exact E_python|intros _].
    apply triple_setitem. intros d. apply ram_stable.
Qed.

Lemma scan_cpuinfo_inv (ls : list string) :
  triple (on_dict I) (scan_cpuinfo ls) (fun _ => on_dict I) E.
Proof.
  induction ls as [|line rest IH]; simpl.
  - apply triple_ret; auto.
  - apply triple_if; intros _; [|exact IH].
    apply triple_getitem_then; [exact E_python|intros field _].
    apply triple_setitem. intros d. apply cpu_stable.
Qed.

(** Exceptions that the host raises. *)
Hypothesis E_run :
  forall c t e fr, subprocess_run w c t = Raise e -> on_dict I fr -> E e fr.
Hypothesis E_open :
  forall p e fr, open_text w p = Raise e -> on_dict I fr -> E e fr.

Lemma hardware_linux_inv :
  triple (on_dict I) (hardware_linux w) (fun _ => on_dict I) E.
Proof.
  unfold hardware_linux.
  apply triple_open_read_then; [intros e fr; apply E_open|intros f _].
  eapply triple_bind; [apply scan_meminfo_inv|intros u].
  apply triple_open_read_then; [intros e fr; apply E_open|intros f' _].
  apply scan_cpuinfo_inv.
Qed.

Lemma hardware_windows_inv :
  triple (on_dict I) (hardware_windows w) (fun _ => on_dict I) E.
Proof.
  unfold hardware_windows.
  apply triple_run_then; [intros e fr; apply E_run|intros r _].
  eapply triple_bind with (R := fun _ => on_dict I).
  { apply triple_if; intros _; [|apply triple_ret; auto].
    apply triple_if; intros _; [|apply triple_ret; auto].
    apply triple_getitem_then; [exact E_python|intros l1 _].
    apply triple_int_then; [exact E_python|intros n _].
    apply triple_round_quotient_then; [exact E_python|intros _].
    apply triple_setitem. intros d. apply ram_stable. }
  intros u.
  apply triple_run_then; [intros e fr; apply E_run|intros r' _].
  apply triple_if; intros _; [|apply triple_ret; auto].
  apply triple_if; intros _; [|apply triple_ret; auto].
  apply triple_getitem_then; [exact E_python|intros l1 _].
  apply triple_setitem. intros d. apply cpu_stable.
Qed.

Lemma hardware_darwin_inv :
  triple (on_dict I) (hardware_darwin w) (fun _ => on_dict I) E.
Proof.
  unfold hardware_darwin.
  apply triple_run_then; [intros e fr; apply E_run|intros r _].
  eapply triple_bind with (R := fun _ => on_dict I).
  { apply triple_if; intros _; [|apply triple_ret; auto].
    apply triple_getitem_then; [exact E_python|intros field _].
    apply triple_int_then; [exact E_python|intros n _].
    apply triple_round_quotient_then; [exact E_python|intros _].
    apply triple_setitem. intros d. apply ram_stable. }
  intros u.
  apply triple_run_then; [intros e fr; apply E_run|intros r' _].
  apply triple_if; intros _; [|apply triple_ret; auto].
  apply triple_setitem. intros d. apply cpu_stable.
Qed.

Lemma hardware_try_inv :
  triple (on_dict I) (hardware_try w) (fun _ => on_dict I) E.
Proof.
  unfold hardware_try.
  apply triple_if; intros _; [apply hardware_windows_inv|].
  apply triple_if; intros _; [apply hardware_darwin_inv|].
  apply triple_if; intros _; [apply hardware_linux_inv|].
  apply triple_ret; auto.
Qed.

End HardwareInvariant.

(** A probe that cannot raise returns. *)
Lemma triple_returns {A} (P : frame -> Prop) (m : M A) (Q : A -> frame -> Prop) :
  triple P m Q (fun _ _ => False) -> P init ->
  exists a, returned m = Ok a /\ Q a (snd (exec m)).
Proof.
  intros H Hinit. specialize (H init Hinit). unfold returned, exec.
  destruct (m init) as [[a|e] fr]; [|contradiction].
  exists a. split; [reflexivity|exact H].
Qed.

Lemma dict_keys_set (k k' : string) (v : value) (d : pydict) :
  In k (dict_keys (dict_set k' v d)) -> k = k' \/ In k (dict_keys d).
Proof.
  induction d as [|[k0 v0] r IH]; simpl.
  - intros [H|[]]. now left.
  - destruct (String.eqb_spec k' k0) as [->|Hne]; simpl.
    + intros [H|H]; auto.
    + intros [H|H]; auto. destruct (IH H); auto.
Qed.

(** ** The fields the probe gathers *)

Lemma hardware_fields_stable (k : string) :
  k = "ram_gb" \/ k = "cpu" -> stable hardware_fields k.
Proof.
  intros Hk v d Hd k' Hin. apply dict_keys_set in Hin.
  destruct Hin as [->|Hin]; auto.
Qed.

Lemma hardware_try_fields (w : world) (r : result unit) (fr : frame) :
  hardware_try w init = (r, fr) -> hardware_fields (dict fr).
Proof.
  intros Hrun.
  pose proof (hardware_try_inv w hardware_fields
                (fun _ => on_dict hardware_fields)
                (hardware_fields_stable _ (or_introl eq_refl))
                (hardware_fields_stable _ (or_intror eq_refl))
                (fun _ _ _ H => H) (fun _ _ _ _ _ H => H)
                (fun _ _ _ _ H => H) init) as H.
  rewrite Hrun in H. destruct r; apply H; intros k [].
Qed.

Lemma hardware_fields_no_error (d : pydict) :
  hardware_fields d -> dict_get "error" d = None.
Proof.
  intros H. apply dict_get_None_keys. intros Hin.
  destruct (H _ Hin); discriminate.
Qed.

(** ** The memory line *)

Lemma scan_meminfo_skip (pre rest : list string) :
  Forall (fun l => PyStr.contains "MemTotal:" l = false) pre ->
  scan_meminfo (pre ++ rest) = scan_meminfo rest.
Proof.
  induction 1 as [|l pre Hl _ IH]; simpl; [reflexivity|].
  now rewrite Hl.
Qed.

Lemma scan_meminfo_found (line field : string) (kb : Z) (post : list string)
    (fr : frame) :
  PyStr.contains "MemTotal:" line = true ->
  nth_error (PyStr.split_ws line) 1 = Some field ->
  PyStr.parse_int field = Some kb ->
  overflows kb (1024 ^ 2) = false ->
  scan_meminfo (line :: post) fr =
  (Ok tt, {| dict := dict_set "ram_gb" (VFloat (round1 kb (1024 ^ 2))) (dict fr);
             calls := calls fr |}).
Proof.
  intros Hc Hf Hp Hfit. cbn [scan_meminfo]. rewrite Hc.
  unfold bind, getitem, int, round_quotient, ret. rewrite Hf. cbv beta iota.
  rewrite Hp. cbv beta iota. rewrite Hfit. reflexivity.
Qed.

(** On Linux, the number that follows [MemTotal:] on the first line that
    has it is read as kibibytes, and [ram_gb] is that number over [1024^2],
    rounded to one decimal. *)
Lemma get_hardware_info_linux_ram (w : world) (content : string)
    (pre post : list string) (line field : string) (kb : Z) :
  platform_system w = "Linux" ->
  open_text w "/proc/meminfo" = Ok content ->
  PyStr.lines content = (pre ++ line :: post)%list ->
  Forall (fun l => PyStr.contains "MemTotal:" l = false) pre ->
  PyStr.contains "MemTotal:" line = true ->
  nth_error (PyStr.split_ws line) 1 = Some field ->
  PyStr.parse_int field = Some kb ->
  overflows kb (1024 ^ 2) = false ->
  (forall e, open_text w "/proc/cpuinfo" = Raise e -> is_Exception e = true) ->
  exists d, returned (get_hardware_info w) = Ok d /\
            dict_get "ram_gb" d = Some (VFloat (round1 kb (1024 ^ 2))).
Proof.
  intros Hos Hmem Hlines Hpre Hline Hfield Hkb Hfit Hcpu.
  set (J := fun d => dict_get "ram_gb" d = Some (VFloat (round1 kb (1024 ^ 2)))).
  assert (HJ : stable J "cpu").
  { intros v d Hd. unfold J. now rewrite dict_get_set_other. }
  destruct (triple_returns (fun _ => True) (get_hardware_info w)
              (fun d _ => J d)) as (d & Hd & HJd); [|exact I|eauto].
  unfold get_hardware_info.
  eapply triple_bind with (R := fun _ => on_dict J);
    [|intros u fr Hfr; exact Hfr].
  eapply triple_try with
    (E' := fun e fr => is_Exception e = true /\ on_dict J fr).
  - unfold hardware_try. rewrite Hos. simpl. unfold hardware_linux.
    apply (triple_open_read_then w (fun _ => True)).
    { intros e fr He. congruence. }
    intros s Hs. assert (s = content) as -> by congruence.
    eapply triple_bind with (R := fun _ => on_dict J).
    { intros fr _. rewrite Hlines, scan_meminfo_skip by exact Hpre.
      rewrite (scan_meminfo_found line field kb) by assumption.
      apply dict_get_set_same. }
    intros u. apply triple_open_read_then.
    { intros e fr He Hfr. split; [apply (Hcpu e He)|exact Hfr]. }
    intros f' _. apply scan_cpuinfo_inv; auto.
  - intros e. unfold hardware_except.
    destruct (is_Exception e) eqn:He.
    + intros fr [_ Hfr]. unfold on_dict, J; simpl.
      now rewrite dict_get_set_other.
    + intros fr [Hc _]. discriminate.
Qed.

(** C5. On Linux, when the first line of the memory file that has
    [MemTotal:] reads [MemTotal:       16384000 kB], the probe returns with
    [ram_gb] = 15.6: the 16384000 kibibytes over [1024^2], rounded to one
    decimal (15.625 is nearer to 15.6 than to 15.7). *)
Theorem get_hardware_info_linux_ram_gb (w : world) (content ending : string)
    (pre post : list string) :
  platform_system w = "Linux" ->
  open_text w "/proc/meminfo" = Ok content ->
  PyStr.lines content =
    (pre ++ ("MemTotal:       16384000 kB" ++ ending)%string :: post)%list ->
  Forall (fun l => PyStr.contains "MemTotal:" l = false) pre ->
  ending = "" \/ ending = PyStr.NL ->
  (forall e, open_text w "/proc/cpuinfo" = Raise e -> is_Exception e = true) ->
  exists d,
    returned (get_hardware_info w) = Ok d /\
    dict_get "ram_gb" d = Some (VFloat (Tenths false 156)) /\
    round1 16384000 (1024 ^ 2) = Tenths false 156 /\
    forall repr, value_str repr (VFloat (Tenths false 156)) = "15.6".
Proof.
  intros Hos Hmem Hlines Hpre Hend Hcpu.
  assert (Hc : PyStr.contains "MemTotal:"
                 ("MemTotal:       16384000 kB" ++ ending) = true)
    by (destruct Hend; subst ending; reflexivity).
  assert (Hf : nth_error (PyStr.split_ws ("MemTotal:       16384000 kB" ++ ending)) 1
               = Some "16384000")
    by (destruct Hend; subst ending; reflexivity).
  assert (Hp : PyStr.parse_int "16384000" = Some 16384000) by reflexivity.
  assert (Hfit : overflows 16384000 (1024 ^ 2) = false) by reflexivity.
  destruct (get_hardware_info_linux_ram w content pre post _ _ _
              Hos Hmem Hlines Hpre Hc Hf Hp Hfit Hcpu) as (d & Hd & Hram).
  exists d. repeat split; auto.
Qed.

(** C1, as the code has it. When the body of the hardware probe raises an
    exception that derives from [Exception], the probe returns the fields
    gathered before the exception, unchanged and in their order, followed
    by the key [error], which holds ["Could not gather hardware info: "]
    and the text of the exception. *)
Theorem get_hardware_info_error_keeps_fields (w : world) (e : exn) (fr : frame) :
  hardware_try w init = (Raise e, fr) ->
  is_Exception e = true ->
  returned (get_hardware_info w) =
    Ok (dict fr ++
        [("error", VStr ("Could not gather hardware info: " ++ exn_text e)%string)])%list.
Proof.
  intros Hrun He.
  pose proof (hardware_try_fields w _ _ Hrun) as Hf.
  unfold returned, exec, get_hardware_info, bind, try_except.
  rewrite Hrun. unfold hardware_except. rewrite He.
  unfold setitem, return_dict; simpl.
  now rewrite dict_set_fresh by (apply hardware_fields_no_error, Hf).
Qed.

(** C1 as the specification words it does not hold: on a Linux host where the memory file
    is read and the CPU file cannot be opened, the probe raises inside its
    body and still returns [ram_gb] next to [error]. *)
Lemma get_hardware_info_error_not_alone :
  (exists e fr, hardware_try Hosts.linux_no_cpuinfo init = (Raise e, fr) /\
                is_Exception e = true) /\
  exists d, returned (get_hardware_info Hosts.linux_no_cpuinfo) = Ok d /\
            dict_get "ram_gb" d = Some (VFloat (Tenths false 156)) /\
            dict_keys d <> ["error"].
Proof.
  split.
  - eexists. eexists. split; [vm_compute; reflexivity|reflexivity].
  - eexists. split; [vm_compute; reflexivity|]. split; [reflexivity|].
    discriminate.
Qed.

(** * The tool probe *)

(** ** First lines *)

Lemma prefix_NL (c : ascii) (r : string) :
  prefix PyStr.NL (String c r) = Ascii.eqb c PyStr.nl.
Proof.
  change (prefix PyStr.NL (String c r))
    with (if ascii_dec PyStr.nl c then prefix "" r else false).
  destruct (ascii_dec PyStr.nl c) as [<-|Hne].
  - rewrite Ascii.eqb_refl. now destruct r.
  - symmetry. apply Ascii.eqb_neq. congruence.
Qed.

Lemma split_NL_head (s : string) :
  exists t, PyStr.split PyStr.NL s = first_line s :: t.
Proof.
  unfold PyStr.split. induction s as [|c r [t IH]].
  - now exists [].
  - cbn [PyStr.split_aux first_line]. rewrite prefix_NL.
    destruct (Ascii.eqb c PyStr.nl).
    + eexists. reflexivity.
    + rewrite IH. eexists. reflexivity.
Qed.

Lemma getitem_split_NL (s : string) :
  getitem (PyStr.split PyStr.NL s) 0 = ret (first_line s).
Proof. destruct (split_NL_head s) as [t ->]. reflexivity. Qed.

(** ** One tool *)

Section ToolLoop.
Variable w : world.

Lemma check_tool_run (tool exe : string) (args : list string) (fr : frame) :
  check_tool w (tool, exe :: args) fr =
  if truthy (shutil_which w exe) then
    match subprocess_run w (exe :: args) (Some 5) with
    | Ok r =>
        (Ok tt,
         stored tool (if returncode r =? 0 then tool_version r
                      else "installed (version check failed)")
           (logged [CallRun (exe :: args) (Some 5); CallWhich exe] fr))
    | Raise e =>
        match tool_status (Raise e) with
        | Some s =>
            (Ok tt, stored tool s
                      (logged [CallRun (exe :: args) (Some 5); CallWhich exe] fr))
        | None =>
            (Raise e, logged [CallRun (exe :: args) (Some 5); CallWhich exe] fr)
        end
    end
  else (Ok tt, logged [CallWhich exe] fr).
Proof.
  unfold check_tool, getitem; simpl nth_error. unfold bind at 1, ret at 1.
  unfold which, bind at 1, log, bind at 1, ret at 1. cbv beta iota.
  destruct (truthy (shutil_which w exe)); [|reflexivity].
  unfold try_except, check_tool_try, run, bind at 1, bind at 1, log, lift.
  cbv beta iota.
  destruct (subprocess_run w (exe :: args) (Some 5)) as [r|e].
  - destruct (returncode r =? 0); [|reflexivity].
    rewrite getitem_split_NL. unfold bind at 1, ret at 1.
    unfold tool_version.
    destruct (PyStr.is_empty (stderr r)); simpl negb; cbv iota.
    + reflexivity.
    + rewrite getitem_split_NL. reflexivity.
  - unfold check_tool_except, tool_status.
    destruct (is_TimeoutExpired e); [reflexivity|].
    destruct (is_Exception e); reflexivity.
Qed.

Lemma tool_status_Exception (e : exn) :
  is_Exception e = true -> tool_status (Raise e) <> None.
Proof.
  intros He. simpl. destruct (is_TimeoutExpired e); [discriminate|].
  rewrite He. discriminate.
Qed.

Lemma for_each_check_tool_dict (tbl : list (string * list string)) :
  forall fr fr',
    for_each tbl (check_tool w) fr = (Ok tt, fr') ->
    dict fr' = fold_left (record_tool w) tbl (dict fr).
Proof.
  induction tbl as [|[tool command] rest IH]; intros fr fr' Hrun.
  - simpl in Hrun. injection Hrun as <-. reflexivity.
  - cbn [for_each] in Hrun. unfold bind at 1 in Hrun.
    destruct command as [|exe args].
    { discriminate Hrun. }
    rewrite check_tool_run in Hrun. cbn [fold_left].
    unfold record_tool at 2. cbn [fst snd].
    destruct (truthy (shutil_which w exe)).
    + destruct (subprocess_run w (exe :: args) (Some 5)) as [r|e].
      * apply IH in Hrun. exact Hrun.
      * destruct (tool_status (Raise e)) as [s|]; [|discriminate Hrun].
        apply IH in Hrun. exact Hrun.
    + apply IH in Hrun. exact Hrun.
Qed.

Lemma for_each_check_tool_returns (tbl : list (string * list string)) :
  Forall (fun entry => snd entry <> []) tbl ->
  uninterrupted w tbl ->
  forall fr, exists fr', for_each tbl (check_tool w) fr = (Ok tt, fr').
Proof.
  induction tbl as [|[tool command] rest IH]; intros Hne Hun fr.
  - eexists. reflexivity.
  - inversion Hne as [|? ? Hc Hrest]; subst. cbn [snd] in Hc.
    destruct command as [|exe args]; [congruence|].
    assert (Hun' : uninterrupted w rest).
    { intros t c x e Hin. apply (Hun t c x e). now right. }
    cbn [for_each]. unfold bind at 1. rewrite check_tool_run.
    destruct (truthy (shutil_which w exe)) eqn:Hpath; [|apply IH; auto].
    destruct (subprocess_run w (exe :: args) (Some 5)) as [r|e] eqn:Hrun;
      [apply IH; auto|].
    pose proof (Hun tool (exe :: args) exe e (or_introl eq_refl) eq_refl
                  Hpath Hrun) as He.
    destruct (tool_status (Raise e)) as [s|] eqn:Hs.
    + apply IH; auto.
    + exfalso. exact (tool_status_Exception e He Hs).
Qed.

End ToolLoop.

(** ** The recorded dictionary *)

Lemma In_dict_set (k k' : string) (v v' : value) (d : pydict) :
  In (k, v) (dict_set k' v' d) -> (k = k' /\ v = v') \/ In (k, v) d.
Proof.
  induction d as [|[k0 v0] r IH]; simpl.
  - intros [H|[]]. left. split; congruence.
  - destruct (String.eqb_spec k' k0) as [->|Hne]; simpl.
    + intros [H|H]; [left; split; congruence|auto].
    + intros [H|H]; [auto|]. destruct (IH H); auto.
Qed.

Lemma distinct_NoDup (l : list string) : distinct l = true -> NoDup l.
Proof.
  induction l as [|x r IH]; simpl; intros H; constructor.
  - apply andb_prop in H. destruct H as [H _].
    intros Hin. apply negb_true_iff in H.
    assert (Hex : existsb (String.eqb x) r = true).
    { apply existsb_exists. exists x. split; [exact Hin|apply String.eqb_refl]. }
    congruence.
  - apply IH. apply andb_prop in H. tauto.
Qed.

Section Recorded.
Variable w : world.

Lemma fold_record_other (tool : string) (tbl : list (string * list string)) :
  forall d,
    ~ In tool (map fst tbl) ->
    dict_get tool (fold_left (record_tool w) tbl d) = dict_get tool d.
Proof.
  induction tbl as [|[t c] rest IH]; intros d Hnot; [reflexivity|].
  cbn [fold_left]. rewrite IH by (intros H; apply Hnot; now right).
  assert (Hne : tool <> t) by (intros ->; apply Hnot; now left).
  unfold record_tool; cbn [fst snd].
  destruct c as [|exe args]; [reflexivity|].
  destruct (truthy (shutil_which w exe)); [|reflexivity].
  destruct (tool_status _); [|reflexivity].
  now apply dict_get_set_other.
Qed.

Lemma fold_record_lookup (tool exe : string) (args : list string)
    (tbl : list (string * list string)) :
  forall d,
    NoDup (map fst tbl) ->
    In (tool, exe :: args) tbl ->
    dict_get tool (fold_left (record_tool w) tbl d) =
    if truthy (shutil_which w exe) then
      match tool_status (subprocess_run w (exe :: args) (Some 5)) with
      | Some s => Some (VStr s)
      | None => dict_get tool d
      end
    else dict_get tool d.
Proof.
  induction tbl as [|[t c] rest IH]; intros d Hnd Hin; [contradiction|].
  cbn [map fst] in Hnd. inversion Hnd as [|? ? Hfresh Hnd']; subst.
  cbn [fold_left]. destruct Hin as [Heq|Hin].
  - injection Heq as -> ->.
    rewrite fold_record_other by exact Hfresh.
    unfold record_tool; cbn [fst snd].
    destruct (truthy (shutil_which w exe)); [|reflexivity].
    destruct (tool_status _); [|reflexivity].
    apply dict_get_set_same.
  - rewrite (IH _ Hnd' Hin).
    assert (Hne : tool <> t).
    { intros ->. apply Hfresh.
      change t with (fst (t, exe :: args)). now apply in_map. }
    assert (Hd : dict_get tool (record_tool w d (t, c)) = dict_get tool d).
    { unfold record_tool; cbn [fst snd].
      destruct c as [|exe' args']; [reflexivity|].
      destruct (truthy (shutil_which w exe')); [|reflexivity].
      destruct (tool_status (subprocess_run w (exe' :: args') (Some 5)));
        [|reflexivity].
      now apply dict_get_set_other. }
    now rewrite Hd.
Qed.

Lemma fold_record_In (k : string) (v : value)
    (tbl : list (string * list string)) :
  forall d,
    In (k, v) (fold_left (record_tool w) tbl d) ->
    In (k, v) d \/
    exists exe args s,
      In (k, exe :: args) tbl /\
      truthy (shutil_which w exe) = true /\
      tool_status (subprocess_run w (exe :: args) (Some 5)) = Some s /\
      v = VStr s.
Proof.
  induction tbl as [|[t c] rest IH]; intros d Hin; [now left|].
  cbn [fold_left] in Hin. apply IH in Hin.
  destruct Hin as [Hin|(exe & args & s & Hin & H)].
  - unfold record_tool in Hin; cbn [fst snd] in Hin.
    destruct c as [|exe args]; [now left|].
    destruct (truthy (shutil_which w exe)) eqn:Hp; [|now left].
    destruct (tool_status _) as [s|] eqn:Hs; [|now left].
    apply In_dict_set in Hin. destruct Hin as [[-> ->]|Hin]; [|now left].
    right. exists exe, args, s. repeat split; auto. now left.
  - right. exists exe, args, s. split; [now right|exact H].
Qed.

Lemma check_commands_labels : NoDup (map fst check_commands).
Proof. apply distinct_NoDup. reflexivity. Qed.

Lemma check_commands_nonempty :
  Forall (fun entry : string * list string => snd entry <> []) check_commands.
Proof. repeat constructor; discriminate. Qed.

Lemma check_installed_software_dict (tools : pydict) :
  returned (check_installed_software w) = Ok tools ->
  tools = fold_left (record_tool w) check_commands [].
Proof.
  unfold returned, exec, check_installed_software, bind.
  destruct (for_each check_commands (check_tool w) init) as [[[]|e] fr] eqn:Hrun;
    cbn [fst return_dict]; intros H; [|discriminate H].
  injection H as <-. exact (for_each_check_tool_dict w _ _ _ Hrun).
Qed.

Lemma check_installed_software_returns :
  uninterrupted w check_commands ->
  exists tools, returned (check_installed_software w) = Ok tools.
Proof.
  intros Hun.
  destruct (for_each_check_tool_returns w check_commands
              check_commands_nonempty Hun init) as [fr Hrun].
  exists (dict fr).
  unfold returned, exec, check_installed_software, bind.
  rewrite Hrun. reflexivity.
Qed.

(** What the probe holds for an entry of the table, once it has returned. *)
Lemma check_installed_software_lookup (tools : pydict)
    (tool exe : string) (args : list string) :
  returned (check_installed_software w) = Ok tools ->
  In (tool, exe :: args) check_commands ->
  dict_get tool tools =
  if truthy (shutil_which w exe)
  then option_map VStr (tool_status (subprocess_run w (exe :: args) (Some 5)))
  else None.
Proof.
  intros Hret Hin. rewrite (check_installed_software_dict _ Hret).
  rewrite (fold_record_lookup tool exe args) by (auto using check_commands_labels).
  destruct (truthy (shutil_which w exe)); [|reflexivity].
  now destruct (tool_status _).
Qed.

End Recorded.

Example workstation_returns :
  returned (check_installed_software Hosts.workstation) = Ok Hosts.workstation_tools.
Proof. vm_compute. reflexivity. Qed.

Lemma command_head (command : list string) (exe : string) :
  nth_error command 0 = Some exe -> exists args, command = exe :: args.
Proof.
  destruct command as [|x args]; simpl; intros H; [discriminate|].
  exists args. congruence.
Qed.

(** C2, as the code has it. The check table has 25 entries; for each of
    them, when the executable is absent from the search path, the label of
    the tool is no key of the dictionary that the tool probe returns. *)
Theorem check_installed_software_omits_absent :
  List.length check_commands = 25%nat /\
  forall (w : world) (tools : pydict) (tool : string) (command : list string)
         (exe : string),
    returned (check_installed_software w) = Ok tools ->
    In (tool, command) check_commands ->
    nth_error command 0 = Some exe ->
    shutil_which w exe = None ->
    ~ In tool (dict_keys tools).
Proof.
  split; [reflexivity|].
  intros w tools tool command exe Hret Hin Hexe Habsent.
  destruct (command_head _ _ Hexe) as [args ->].
  apply dict_get_None_keys.
  rewrite (check_installed_software_lookup w tools tool exe args Hret Hin).
  now rewrite Habsent.
Qed.

(** C2 as the specification words it does not hold: the table does not
    have 24 entries. *)
Lemma check_commands_not_24 :
  ~ (List.length check_commands = 24%nat /\
     forall (w : world) (tools : pydict) (tool : string)
            (command : list string) (exe : string),
       returned (check_installed_software w) = Ok tools ->
       In (tool, command) check_commands ->
       nth_error command 0 = Some exe ->
       shutil_which w exe = None ->
       ~ In tool (dict_keys tools)).
Proof. intros [H _]. discriminate H. Qed.

(** C3, as the code has it. For a tool on the search path whose version
    command exits with status 0, the recorded value is the first line of
    the standard output without its leading and trailing white space when
    the standard error is empty, and the first line of the standard error
    without its leading and trailing white space otherwise. *)
Theorem check_installed_software_version (w : world) (tools : pydict)
    (tool : string) (command : list string) (exe : string)
    (r : CompletedProcess) :
  returned (check_installed_software w) = Ok tools ->
  In (tool, command) check_commands ->
  nth_error command 0 = Some exe ->
  truthy (shutil_which w exe) = true ->
  subprocess_run w command (Some 5) = Ok r ->
  returncode r = 0 ->
  (stderr r = "" ->
   dict_get tool tools = Some (VStr (PyStr.strip (first_line (stdout r))))) /\
  (stderr r <> "" ->
   dict_get tool tools = Some (VStr (PyStr.strip (first_line (stderr r))))).
Proof.
  intros Hret Hin Hexe Hpath Hrun Hrc.
  destruct (command_head _ _ Hexe) as [args ->].
  rewrite (check_installed_software_lookup w tools tool exe args Hret Hin).
  rewrite Hpath, Hrun. simpl. rewrite Hrc. simpl. unfold tool_version.
  split; intros Herr.
  - now rewrite Herr.
  - destruct (stderr r); [contradiction|reflexivity].
Qed.

(** C3 as the specification words it does not hold: a first line that
    starts with spaces is recorded without them. *)
Lemma check_installed_software_version_stripped :
  exists tools r,
    returned (check_installed_software Hosts.padded) = Ok tools /\
    In ("git", ["git"; "--version"]) check_commands /\
    truthy (shutil_which Hosts.padded "git") = true /\
    subprocess_run Hosts.padded ["git"; "--version"] (Some 5) = Ok r /\
    returncode r = 0 /\ stderr r = "" /\
    dict_get "git" tools <> Some (VStr (first_line (stdout r))).
Proof.
  eexists. eexists.
  split; [vm_compute; reflexivity|].
  split; [now left|].
  split; [reflexivity|].
  split; [reflexivity|].
  split; [reflexivity|].
  split; [reflexivity|].
  vm_compute. discriminate.
Qed.

(** C4. For a tool on the search path, a command that exits with another
    status than 0 records ["installed (version check failed)"], one that
    exceeds the 5-second timeout records ["installed (timeout)"], and any
    other exception records ["installed (error checking version)"]; the
    three texts differ, and the probe returns whichever way the commands
    fail. *)
Theorem check_installed_software_failures (w : world) :
  uninterrupted w check_commands ->
  exists tools,
    returned (check_installed_software w) = Ok tools /\
    (forall tool command exe,
       In (tool, command) check_commands ->
       nth_error command 0 = Some exe ->
       truthy (shutil_which w exe) = true ->
       (forall r, subprocess_run w command (Some 5) = Ok r ->
                  returncode r <> 0 ->
                  dict_get tool tools = Some (VStr "installed (version check failed)")) /\
       (forall e, subprocess_run w command (Some 5) = Raise e ->
                  is_TimeoutExpired e = true ->
                  dict_get tool tools = Some (VStr "installed (timeout)")) /\
       (forall e, subprocess_run w command (Some 5) = Raise e ->
                  is_TimeoutExpired e = false ->
                  dict_get tool tools = Some (VStr "installed (error checking version)"))) /\
    "installed (version check failed)" <> "installed (timeout)" /\
    "installed (version check failed)" <> "installed (error checking version)" /\
    "installed (timeout)" <> "installed (error checking version)".
Proof.
  intros Hun.
  destruct (check_installed_software_returns w Hun) as [tools Hret].
  exists tools. split; [exact Hret|]. split; [|repeat split; discriminate].
  intros tool command exe Hin Hexe Hpath.
  destruct (command_head _ _ Hexe) as [args ->].
  rewrite (check_installed_software_lookup w tools tool exe args Hret Hin).
  rewrite Hpath. repeat split.
  - intros r Hrun Hrc. rewrite Hrun. simpl.
    apply Z.eqb_neq in Hrc. now rewrite Hrc.
  - intros e Hrun Ht. rewrite Hrun. simpl. now rewrite Ht.
  - intros e Hrun Ht. rewrite Hrun. simpl. rewrite Ht.
    now rewrite (Hun tool (exe :: args) exe e Hin Hexe Hpath Hrun).
Qed.

(** C9, as the code has it. Every key of the dictionary that the tool
    probe returns is a label of the check table, and its value is a string:
    the first line of the standard output or of the standard error of the
    tool's command, without its leading and trailing white space, or one of
    the three texts that report a failure. *)
Theorem check_installed_software_entries (w : world) (tools : pydict)
    (k : string) (v : value) :
  returned (check_installed_software w) = Ok tools ->
  In (k, v) tools ->
  exists command s,
    In (k, command) check_commands /\ v = VStr s /\
    ((exists r, subprocess_run w command (Some 5) = Ok r /\
                (s = PyStr.strip (first_line (stdout r)) \/
                 s = PyStr.strip (first_line (stderr r)))) \/
     s = "installed (version check failed)" \/
     s = "installed (timeout)" \/
     s = "installed (error checking version)").
Proof.
  intros Hret Hin. rewrite (check_installed_software_dict w tools Hret) in Hin.
  apply fold_record_In in Hin.
  destruct Hin as [[]|(exe & args & s & Hin & _ & Hs & ->)].
  exists (exe :: args), s. split; [exact Hin|]. split; [reflexivity|].
  destruct (subprocess_run w (exe :: args) (Some 5)) as [r|e]; simpl in Hs.
  - injection Hs as <-. destruct (returncode r =? 0); [|auto].
    left. exists r. split; [reflexivity|]. unfold tool_version.
    destruct (PyStr.is_empty (stderr r)); auto.
  - destruct (is_TimeoutExpired e); [injection Hs as <-; auto|].
    destruct (is_Exception e); [injection Hs as <-; auto|discriminate].
Qed.

(** C9 as the specification words it does not hold: where [git] prints
    two spaces and then its version, the value recorded for [git] is the
    version alone, which is the first line of neither output and none of
    the three texts. *)
Lemma check_installed_software_entry_stripped :
  exists tools r,
    returned (check_installed_software Hosts.padded) = Ok tools /\
    In ("git", VStr "v1.2.3") tools /\
    (forall command, In ("git", command) check_commands ->
                     command = ["git"; "--version"]) /\
    subprocess_run Hosts.padded ["git"; "--version"] (Some 5) = Ok r /\
    "v1.2.3" <> first_line (stdout r) /\
    "v1.2.3" <> first_line (stderr r) /\
    "v1.2.3" <> "installed (version check failed)" /\
    "v1.2.3" <> "installed (timeout)" /\
    "v1.2.3" <> "installed (error checking version)".
Proof.
  eexists. eexists.
  split; [vm_compute; reflexivity|].
  split; [now left|].
  split.
  { intros command Hin. simpl in Hin.
    repeat (destruct Hin as [Hin|Hin]; [congruence|]). contradiction. }
  split; [reflexivity|].
  repeat split; vm_compute; discriminate.
Qed.

(** C10. A tool on the search path whose version command exits with
    status 0 and prints nothing, on either stream, is recorded with the
    empty string. *)
Theorem check_installed_software_silent (w : world) (tools : pydict)
    (tool : string) (command : list string) (exe : string)
    (r : CompletedProcess) :
  returned (check_installed_software w) = Ok tools ->
  In (tool, command) check_commands ->
  nth_error command 0 = Some exe ->
  truthy (shutil_which w exe) = true ->
  subprocess_run w command (Some 5) = Ok r ->
  returncode r = 0 -> stdout r = "" -> stderr r = "" ->
  dict_get tool tools = Some (VStr "").
Proof.
  intros Hret Hin Hexe Hpath Hrun Hrc Hout Herr.
  destruct (command_head _ _ Hexe) as [args ->].
  rewrite (check_installed_software_lookup w tools tool exe args Hret Hin).
  rewrite Hpath, Hrun. simpl. rewrite Hrc. simpl.
  unfold tool_version. now rewrite Herr, Hout.
Qed.

(** * The report writer *)

Lemma section_of_skip (h : string) (l1 l2 : list string) :
  ~ In h l1 -> section_of h (l1 ++ l2) = section_of h l2.
Proof.
  induction l1 as [|x r IH]; intros Hnot; [reflexivity|].
  simpl. destruct (String.eqb_spec x h) as [->|Hne].
  - exfalso. apply Hnot. now left.
  - apply IH. intros H. apply Hnot. now right.
Qed.

Lemma section_of_here (h : string) (l : list string) :
  section_of h (h :: l) = Some (section_body l).
Proof. simpl. now rewrite String.eqb_refl. Qed.

Lemma section_of_None (h : string) (l : list string) :
  section_of h l = None <-> ~ In h l.
Proof.
  induction l as [|x r IH]; simpl; [tauto|].
  destruct (String.eqb_spec x h) as [->|Hne].
  - split; [discriminate|]. intros H. exfalso. apply H. now left.
  - rewrite IH. split; intros H; [intros [E|E]; [congruence|auto]|tauto].
Qed.

Lemma section_body_closed (bs rest : list string) :
  Forall (fun b => String.eqb b PyStr.NL = false) bs ->
  section_body (bs ++ PyStr.NL :: rest) = bs.
Proof.
  induction 1 as [|b bs Hb _ IH]; simpl.
  - reflexivity.
  - now rewrite Hb, IH.
Qed.

Lemma section_body_open (bs : list string) :
  Forall (fun b => String.eqb b PyStr.NL = false) bs ->
  section_body bs = bs.
Proof.
  induction 1 as [|b bs Hb _ IH]; simpl.
  - reflexivity.
  - now rewrite Hb, IH.
Qed.

Lemma not_in_app (h : string) (l1 l2 : list string) :
  ~ In h l1 -> ~ In h l2 -> ~ In h (l1 ++ l2).
Proof. intros H1 H2 H. apply in_app_or in H. tauto. Qed.

Lemma not_in_one (h x : string) : String.eqb x h = false -> ~ In h [x].
Proof. intros H [E|[]]. apply String.eqb_neq in H. contradiction. Qed.

Section MarkdownFacts.
Variable repr_inexact : Z -> Z -> string.
Variable now : string.

Let plain := plain_bullet repr_inexact.
Let humanized := humanized_bullet repr_inexact.

Lemma plain_dashed (d : pydict) : Forall (fun b => dashed b = true) (map plain d).
Proof. apply Forall_forall. intros b Hb. apply in_map_iff in Hb.
       destruct Hb as (kv & <- & _). reflexivity. Qed.

Lemma humanized_dashed (d : pydict) :
  Forall (fun b => dashed b = true) (map humanized d).
Proof. apply Forall_forall. intros b Hb. apply in_map_iff in Hb.
       destruct Hb as (kv & <- & _). reflexivity. Qed.

Lemma dashed_not_in (h : string) (bs : list string) :
  dashed h = false -> Forall (fun b => dashed b = true) bs -> ~ In h bs.
Proof.
  intros Hh Hbs Hin. rewrite Forall_forall in Hbs.
  specialize (Hbs h Hin). congruence.
Qed.

Lemma dashed_not_NL (bs : list string) :
  Forall (fun b => dashed b = true) bs ->
  Forall (fun b => String.eqb b PyStr.NL = false) bs.
Proof.
  apply Forall_impl. intros b Hb. apply String.eqb_neq. intros ->.
  discriminate Hb.
Qed.

End MarkdownFacts.

(** The header [h] is in none of the writes [l]: the writes are split at
    each [++], a single write is compared, bullets are dashed. *)
Ltac header_absent :=
  repeat (apply not_in_app; [|]);
  first [ apply not_in_one; reflexivity
        | apply dashed_not_in; [reflexivity|first [apply plain_dashed|apply humanized_dashed]]
        | intros [] ].

(** ** The text of the document *)

Lemma string_app_assoc (a b c : string) :
  ((a ++ b) ++ c)%string = (a ++ b ++ c)%string.
Proof. induction a as [|x a IH]; simpl; [reflexivity|now rewrite IH]. Qed.

Lemma string_app_nil_r (a : string) : (a ++ "")%string = a.
Proof. induction a as [|x a IH]; simpl; [reflexivity|now rewrite IH]. Qed.

Lemma concat_cons (x : string) (xs : list string) :
  String.concat "" (x :: xs) = (x ++ String.concat "" xs)%string.
Proof. destruct xs; simpl; [now rewrite string_app_nil_r|reflexivity]. Qed.

Lemma concat_app (l1 l2 : list string) :
  String.concat "" (l1 ++ l2)
  = (String.concat "" l1 ++ String.concat "" l2)%string.
Proof.
  induction l1 as [|x l1 IH]; [reflexivity|].
  rewrite <- app_comm_cons, !concat_cons, IH, string_app_assoc. reflexivity.
Qed.

Lemma lines_cons (c : ascii) (r : string) :
  exists h t, PyStr.lines (String c r) = h :: t.
Proof.
  cbn [PyStr.lines]. destruct (Ascii.eqb c PyStr.nl); [eauto|].
  destruct (PyStr.lines r); simpl; eauto.
Qed.

Lemma lines_app (a b : string) :
  ends_with_newline a = true ->
  PyStr.lines (a ++ b) = (PyStr.lines a ++ PyStr.lines b)%list.
Proof.
  induction a as [|c r IH]; [reflexivity|]. intros H.
  destruct r as [|d r'].
  - cbn [ends_with_newline] in H. cbn [append PyStr.lines]. now rewrite H.
  - assert (Hr : ends_with_newline (String d r') = true) by exact H.
    specialize (IH Hr).
    change (String c (String d r') ++ b)%string
      with (String c (String d r' ++ b)).
    cbn [PyStr.lines] in IH |- *. rewrite IH.
    destruct (Ascii.eqb c PyStr.nl); [reflexivity|].
    destruct (lines_cons d r') as (h & t & Hl). cbn [PyStr.lines] in Hl.
    rewrite Hl. reflexivity.
Qed.

Lemma lines_concat (ws : list string) :
  Forall (fun w => ends_with_newline w = true) ws ->
  PyStr.lines (String.concat "" ws) = flat_map PyStr.lines ws.
Proof.
  induction 1 as [|w ws Hw _ IH]; [reflexivity|].
  rewrite concat_cons, lines_app by exact Hw. cbn [flat_map]. now rewrite IH.
Qed.

Lemma ends_with_newline_app (a b : string) :
  b <> "" -> ends_with_newline b = true -> ends_with_newline (a ++ b) = true.
Proof.
  intros Hne Hb. induction a as [|c a IH]; [exact Hb|].
  cbn [append ends_with_newline].
  destruct (a ++ b)%string as [|d r] eqn:E; [|exact IH].
  destruct a; simpl in E; [contradiction|discriminate E].
Qed.

Lemma lines_prefix (s r : string) :
  no_newline s = true -> PyStr.lines (s ++ r) = prepend s (PyStr.lines r).
Proof.
  induction s as [|c s IH]; intros H.
  - cbn [append]. now destruct (PyStr.lines r).
  - cbn [no_newline] in H. apply andb_true_iff in H. destruct H as [Hc Hs].
    apply negb_true_iff in Hc.
    cbn [append PyStr.lines]. rewrite Hc, (IH Hs).
    destruct (PyStr.lines r) as [|h t]; [|reflexivity].
    cbn [prepend]. now destruct s.
Qed.

Lemma no_newline_app (a b : string) :
  no_newline (a ++ b) = no_newline a && no_newline b.
Proof.
  induction a as [|c a IH]; [reflexivity|].
  cbn [append no_newline]. now rewrite IH, andb_assoc.
Qed.

Lemma case_newline (c : ascii) :
  Ascii.eqb (PyStr.to_upper c) PyStr.nl = Ascii.eqb c PyStr.nl /\
  Ascii.eqb (PyStr.to_lower c) PyStr.nl = Ascii.eqb c PyStr.nl.
Proof. destruct c as [[] [] [] [] [] [] [] []]; vm_compute; split; reflexivity. Qed.

Lemma no_newline_humanize (key : string) :
  no_newline (humanize key) = no_newline key.
Proof.
  assert (H : forall prev,
             no_newline (PyStr.title_aux prev (PyStr.replace_char "_" " " key))
             = no_newline key).
  { induction key as [|c r IH]; intros prev; [reflexivity|].
    cbn [PyStr.replace_char PyStr.title_aux no_newline]. rewrite IH.
    f_equal. f_equal.
    destruct (Ascii.eqb c "_") eqn:Hc.
    - apply Ascii.eqb_eq in Hc. subst c. reflexivity.
    - destruct (case_newline c) as [Hu Hl].
      destruct (PyStr.is_upper c || PyStr.is_lower c); [destruct prev|]; auto. }
  apply H.
Qed.

Lemma lines_bullet (a b : string) :
  no_newline a = true -> no_newline b = true ->
  PyStr.lines ("- **" ++ a ++ "**: " ++ b ++ PyStr.NL)
  = [("- **" ++ a ++ "**: " ++ b ++ PyStr.NL)%string].
Proof.
  intros Ha Hb.
  rewrite (lines_prefix "- **") by reflexivity.
  rewrite (lines_prefix a) by exact Ha.
  rewrite (lines_prefix "**: ") by reflexivity.
  rewrite (lines_prefix b) by exact Hb.
  reflexivity.
Qed.

Lemma flat_map_lines_id (ws : list string) :
  Forall (fun b => PyStr.lines b = [b]) ws -> flat_map PyStr.lines ws = ws.
Proof.
  induction 1 as [|b ws Hb _ IH]; [reflexivity|].
  cbn [flat_map]. now rewrite Hb, IH.
Qed.

Lemma section_of_In (h : string) (l x : list string) :
  section_of h l = Some x -> In h l.
Proof.
  induction l as [|y r IH]; [discriminate|]. cbn [section_of].
  destruct (String.eqb_spec y h) as [->|Hne]; [now left|].
  intros H. right. exact (IH H).
Qed.

Section TextFacts.
Variable repr_inexact : Z -> Z -> string.
Variable now : string.

Lemma plain_one_line (d : pydict) :
  one_line_entries repr_inexact d = true ->
  Forall (fun b => PyStr.lines b = [b]) (map (plain_bullet repr_inexact) d).
Proof.
  intros H. apply Forall_forall. intros b Hb. apply in_map_iff in Hb.
  destruct Hb as (kv & <- & Hin).
  unfold one_line_entries in H. rewrite forallb_forall in H.
  specialize (H kv Hin). apply andb_true_iff in H. destruct H as [Hk Hv].
  unfold plain_bullet. now apply lines_bullet.
Qed.

Lemma humanized_one_line (d : pydict) :
  one_line_entries repr_inexact d = true ->
  Forall (fun b => PyStr.lines b = [b]) (map (humanized_bullet repr_inexact) d).
Proof.
  intros H. apply Forall_forall. intros b Hb. apply in_map_iff in Hb.
  destruct Hb as (kv & <- & Hin).
  unfold one_line_entries in H. rewrite forallb_forall in H.
  specialize (H kv Hin). apply andb_true_iff in H. destruct H as [Hk Hv].
  unfold humanized_bullet. apply lines_bullet; [|exact Hv].
  now rewrite no_newline_humanize.
Qed.

Lemma bullet_ends_with_newline (a b : string) :
  ends_with_newline ("- **" ++ a ++ "**: " ++ b ++ PyStr.NL) = true.
Proof.
  do 4 (apply ends_with_newline_app;
        [destruct a, b; discriminate|]).
  reflexivity.
Qed.

Lemma writes_end_with_newline (data : Report) :
  Forall (fun w => ends_with_newline w = true)
    (save_to_markdown_writes repr_inexact now data).
Proof.
  assert (Hp : forall d, Forall (fun w => ends_with_newline w = true)
                           (map (plain_bullet repr_inexact) d)).
  { intros d. apply Forall_forall. intros b Hb. apply in_map_iff in Hb.
    destruct Hb as (kv & <- & _). apply bullet_ends_with_newline. }
  assert (Hh : forall d, Forall (fun w => ends_with_newline w = true)
                           (map (humanized_bullet repr_inexact) d)).
  { intros d. apply Forall_forall. intros b Hb. apply in_map_iff in Hb.
    destruct Hb as (kv & <- & _). apply bullet_ends_with_newline. }
  assert (H1 : forall w, ends_with_newline w = true ->
                         Forall (fun w => ends_with_newline w = true) [w])
    by (intros w Hw; constructor; [exact Hw|constructor]).
  unfold save_to_markdown_writes.
  repeat (apply Forall_app; split); auto.
  - apply H1. unfold generated_line.
    do 2 (apply ends_with_newline_app; [destruct now; discriminate|]).
    apply ends_with_newline_app; [discriminate|]. reflexivity.
  - unfold environments_writes. destruct (environments data); [constructor|].
    repeat (apply Forall_app; split); auto.
Qed.

Lemma lines_generated :
  no_newline now = true ->
  PyStr.lines (generated_line now)
  = [("*Generated on " ++ now ++ "*" ++ PyStr.NL)%string; PyStr.NL].
Proof.
  intros H. unfold generated_line.
  rewrite (lines_prefix "*Generated on ") by reflexivity.
  rewrite (lines_prefix now) by exact H.
  reflexivity.
Qed.

End TextFacts.

(** C8. The writer puts out the section "Development Environments" exactly
    when the [environments] dictionary of the report has an entry: its
    header is among the writes if and only if the dictionary is not empty,
    and is then followed by one bullet per entry.  The five other sections
    are written whatever the report holds, each with one bullet per entry
    of its dictionary.

    So it is in the document itself, the text that [save_to_markdown]
    leaves in the file: it is the two opening lines and then the sections
    of the system, the hardware and the tools, the section of the
    environments when the dictionary is not empty and nothing in its
    place when it is empty, and the sections of the shell and of the
    network, the last one without a closing blank line.  The headers of
    the five sections are lines of every document, the header of the
    environments is one when the dictionary is not empty, and it is no
    line of the document when the dictionary is empty and no key, value
    or time of the report runs over several lines. *)
Theorem save_to_markdown_sections (repr_inexact : Z -> Z -> string)
    (now : string) (data : Report) :
  let writes := save_to_markdown_writes repr_inexact now data in
  let text := save_to_markdown repr_inexact now data in
  (In environments_header writes <-> environments data <> []) /\
  (environments data <> [] ->
   section_of environments_header writes =
   Some (map (plain_bullet repr_inexact) (environments data))) /\
  section_of system_header writes =
    Some (map (humanized_bullet repr_inexact) (system data)) /\
  section_of hardware_header writes =
    Some (map (humanized_bullet repr_inexact) (hardware data)) /\
  section_of software_header writes =
    Some (map (plain_bullet repr_inexact) (software data)) /\
  section_of shell_header writes =
    Some (map (humanized_bullet repr_inexact) (shell data)) /\
  section_of network_header writes =
    Some (map (humanized_bullet repr_inexact) (network data)) /\
  text =
    (title_line ++ generated_line now
     ++ section_text system_header
          (map (humanized_bullet repr_inexact) (system data))
     ++ section_text hardware_header
          (map (humanized_bullet repr_inexact) (hardware data))
     ++ section_text software_header
          (map (plain_bullet repr_inexact) (software data))
     ++ match environments data with
        | [] => ""
        | _ :: _ =>
            section_text environments_header
              (map (plain_bullet repr_inexact) (environments data))
        end
     ++ section_text shell_header
          (map (humanized_bullet repr_inexact) (shell data))
     ++ network_header
     ++ String.concat "" (map (humanized_bullet repr_inexact) (network data)))%string /\
  Forall (fun header => In header (PyStr.lines text))
    [system_header; hardware_header; software_header; shell_header;
     network_header] /\
  (environments data <> [] -> In environments_header (PyStr.lines text)) /\
  (environments data = [] -> one_lined repr_inexact now data = true ->
   ~ In environments_header (PyStr.lines text)).
Proof.
  intros writes text.
  assert (Hold :
    (In environments_header writes <-> environments data <> []) /\
    (environments data <> [] ->
     section_of environments_header writes =
     Some (map (plain_bullet repr_inexact) (environments data))) /\
    section_of system_header writes =
      Some (map (humanized_bullet repr_inexact) (system data)) /\
    section_of hardware_header writes =
      Some (map (humanized_bullet repr_inexact) (hardware data)) /\
    section_of software_header writes =
      Some (map (plain_bullet repr_inexact) (software data)) /\
    section_of shell_header writes =
      Some (map (humanized_bullet repr_inexact) (shell data)) /\
    section_of network_header writes =
      Some (map (humanized_bullet repr_inexact) (network data))).
  {
    subst writes. unfold save_to_markdown_writes.
  destruct data as [sys hw sw env sh net]; cbn [system hardware software environments shell network].
  pose proof (dashed_not_NL _ (humanized_dashed repr_inexact sys)) as Hsys.
  pose proof (dashed_not_NL _ (humanized_dashed repr_inexact hw)) as Hhw.
  pose proof (dashed_not_NL _ (plain_dashed repr_inexact sw)) as Hsw.
  pose proof (dashed_not_NL _ (plain_dashed repr_inexact env)) as Henv.
  pose proof (dashed_not_NL _ (humanized_dashed repr_inexact sh)) as Hsh.
  pose proof (dashed_not_NL _ (humanized_dashed repr_inexact net)) as Hnet.
  split; [|split; [|split; [|split; [|split; [|split]]]]].
  - destruct env as [|e0 env'].
    + split; [|congruence]. intros Hin. exfalso. revert Hin.
      unfold environments_writes. header_absent.
    + split; [intros _; discriminate|]. intros _.
      do 11 (apply in_or_app; right). apply in_or_app. left.
      now left.
  - intros Hne. destruct env as [|e0 env']; [contradiction|].
    unfold environments_writes.
    do 11 (rewrite section_of_skip by header_absent).
    cbn [app]. rewrite section_of_here.
    rewrite <- app_assoc. apply f_equal, section_body_closed, Henv.
  - do 2 (rewrite section_of_skip by header_absent).
    cbn [app]. rewrite section_of_here. apply f_equal, section_body_closed, Hsys.
  - do 5 (rewrite section_of_skip by header_absent).
    cbn [app]. rewrite section_of_here. apply f_equal, section_body_closed, Hhw.
  - do 8 (rewrite section_of_skip by header_absent).
    cbn [app]. rewrite section_of_here. apply f_equal, section_body_closed, Hsw.
  - do 11 (rewrite section_of_skip by header_absent).
    rewrite section_of_skip
      by (destruct env; unfold environments_writes; header_absent).
    cbn [app]. rewrite section_of_here. apply f_equal, section_body_closed, Hsh.
  - do 11 (rewrite section_of_skip by header_absent).
    rewrite section_of_skip
      by (destruct env; unfold environments_writes; header_absent).
    do 3 (rewrite section_of_skip by header_absent).
    cbn [app]. rewrite section_of_here. apply f_equal, section_body_open, Hnet. }
  destruct Hold as (Henv & Henvs & Hsys & Hhw & Hsw & Hsh & Hnet).
  assert (Hlines : PyStr.lines text = flat_map PyStr.lines writes)
    by apply lines_concat, writes_end_with_newline.
  assert (Hline : forall h, In h writes -> PyStr.lines h = [h] ->
                            In h (PyStr.lines text)).
  { intros h Hin Hh. rewrite Hlines. apply in_flat_map. exists h.
    split; [exact Hin|]. rewrite Hh. now left. }
  repeat (split; [assumption|]).
  split; [|split; [|split]].
  - subst text writes. unfold save_to_markdown, save_to_markdown_writes.
    rewrite !concat_app. unfold section_text.
    unfold environments_writes.
    destruct (environments data) as [|e0 env'].
    + cbn [String.concat append]. rewrite !string_app_assoc. reflexivity.
    + rewrite !concat_app. cbn [String.concat].
      rewrite !string_app_assoc. reflexivity.
  - apply Forall_forall. intros h Hh. cbn [In] in Hh.
    destruct Hh as [<-|[<-|[<-|[<-|[<-|[]]]]]];
      (apply Hline; [eapply section_of_In; eassumption|reflexivity]).
  - intros Hne. apply Hline; [now apply Henv|reflexivity].
  - intros Hempty Hone. rewrite Hlines. subst writes.
    unfold save_to_markdown_writes. rewrite Hempty.
    unfold one_lined in Hone.
    apply andb_true_iff in Hone. destruct Hone as [Hone Hnet1].
    apply andb_true_iff in Hone. destruct Hone as [Hone Hsh1].
    apply andb_true_iff in Hone. destruct Hone as [Hone _].
    apply andb_true_iff in Hone. destruct Hone as [Hone Hsw1].
    apply andb_true_iff in Hone. destruct Hone as [Hone Hhw1].
    apply andb_true_iff in Hone. destruct Hone as [Hnow Hsys1].
    rewrite !flat_map_app.
    rewrite (flat_map_lines_id _ (humanized_one_line repr_inexact _ Hsys1)).
    rewrite (flat_map_lines_id _ (humanized_one_line repr_inexact _ Hhw1)).
    rewrite (flat_map_lines_id _ (plain_one_line repr_inexact _ Hsw1)).
    rewrite (flat_map_lines_id _ (humanized_one_line repr_inexact _ Hsh1)).
    rewrite (flat_map_lines_id _ (humanized_one_line repr_inexact _ Hnet1)).
    cbn [flat_map environments_writes]. rewrite (lines_generated now Hnow).
    header_absent; try discriminate;
      match goal with
      | H : In _ _ |- _ => cbv in H; destruct H as [H|[]]; discriminate H
      end.
Qed.

(** * The theorems at concrete hosts *)

(** C1 on [linux_no_cpuinfo]: the memory reading stays next to the error. *)
Lemma get_hardware_info_error_keeps_fields_witness :
  hardware_try Hosts.linux_no_cpuinfo init
    = (Raise Hosts.cpuinfo_denied, Hosts.after_meminfo) /\
  is_Exception Hosts.cpuinfo_denied = true /\
  returned (get_hardware_info Hosts.linux_no_cpuinfo) =
    Ok [ ("ram_gb", VFloat (Tenths false 156));
         ("error", VStr "Could not gather hardware info: [Errno 13] Permission denied: '/proc/cpuinfo'") ].
Proof.
  split; [reflexivity|]. split; [reflexivity|].
  exact (get_hardware_info_error_keeps_fields Hosts.linux_no_cpuinfo
           Hosts.cpuinfo_denied Hosts.after_meminfo eq_refl eq_refl).
Defined.

(** C5 on [linux]. *)
Lemma get_hardware_info_linux_ram_gb_witness :
  platform_system Hosts.linux = "Linux" /\
  open_text Hosts.linux "/proc/meminfo" = Ok Hosts.meminfo_text /\
  exists d,
    returned (get_hardware_info Hosts.linux) = Ok d /\
    dict_get "ram_gb" d = Some (VFloat (Tenths false 156)) /\
    round1 16384000 (1024 ^ 2) = Tenths false 156 /\
    forall repr, value_str repr (VFloat (Tenths false 156)) = "15.6".
Proof.
  split; [reflexivity|]. split; [reflexivity|].
  apply (get_hardware_info_linux_ram_gb Hosts.linux Hosts.meminfo_text PyStr.NL
           [] [("MemFree:         1234567 kB" ++ PyStr.NL)%string]).
  - reflexivity.
  - reflexivity.
  - reflexivity.
  - constructor.
  - right. reflexivity.
  - intros e He. vm_compute in He. discriminate He.
Defined.

(** C7 on [windows], where every candidate path exists. *)
Lemma detect_development_environments_other_os_witness :
  platform_system Hosts.windows <> "Darwin" /\
  returned (detect_development_environments Hosts.windows) = Ok [] /\
  queries (detect_development_environments Hosts.windows) = [].
Proof.
  split; [discriminate|].
  apply (detect_development_environments_other_os Hosts.windows). discriminate.
Defined.

(** C2 on [workstation], which has no [vagrant]. *)
Lemma check_installed_software_omits_absent_witness :
  returned (check_installed_software Hosts.workstation) = Ok Hosts.workstation_tools /\
  In ("vagrant", ["vagrant"; "--version"]) check_commands /\
  shutil_which Hosts.workstation "vagrant" = None /\
  ~ In "vagrant" (dict_keys Hosts.workstation_tools).
Proof.
  assert (Hin : In ("vagrant", ["vagrant"; "--version"]) check_commands)
    by (vm_compute; tauto).
  split; [vm_compute; reflexivity|]. split; [exact Hin|]. split; [reflexivity|].
  apply (proj2 check_installed_software_omits_absent Hosts.workstation
           Hosts.workstation_tools "vagrant" ["vagrant"; "--version"] "vagrant").
  - vm_compute. reflexivity.
  - exact Hin.
  - reflexivity.
  - reflexivity.
Defined.

(** C3 on [workstation]: [node] prints its version on the standard output,
    [java] on the standard error. *)
Lemma check_installed_software_version_witness :
  returned (check_installed_software Hosts.workstation) = Ok Hosts.workstation_tools /\
  subprocess_run Hosts.workstation ["node"; "--version"] (Some 5)
    = Ok (Completed 0 "v1.2.3" "") /\
  subprocess_run Hosts.workstation ["java"; "-version"] (Some 5)
    = Ok (Completed 0 "" "java version 17") /\
  dict_get "node" Hosts.workstation_tools = Some (VStr "v1.2.3") /\
  dict_get "java" Hosts.workstation_tools = Some (VStr "java version 17").
Proof.
  assert (Hret : returned (check_installed_software Hosts.workstation)
                 = Ok Hosts.workstation_tools) by (vm_compute; reflexivity).
  split; [exact Hret|]. split; [reflexivity|]. split; [reflexivity|]. split.
  - apply (proj1 (check_installed_software_version Hosts.workstation
             Hosts.workstation_tools "node" ["node"; "--version"] "node"
             (Completed 0 "v1.2.3" "") Hret
             ltac:(vm_compute; tauto) eq_refl eq_refl eq_refl eq_refl)).
    reflexivity.
  - apply (proj2 (check_installed_software_version Hosts.workstation
             Hosts.workstation_tools "java" ["java"; "-version"] "java"
             (Completed 0 "" "java version 17") Hret
             ltac:(vm_compute; tauto) eq_refl eq_refl eq_refl eq_refl)).
    discriminate.
Defined.

Lemma workstation_uninterrupted : uninterrupted Hosts.workstation check_commands.
Proof.
  intros tool command exe e Hin Hexe Hpath Hrun.
  simpl in Hin.
  repeat (destruct Hin as [Hin|Hin];
          [injection Hin as <- <-; injection Hexe as <-;
           vm_compute in Hpath; try discriminate Hpath;
           vm_compute in Hrun; try discriminate Hrun;
           injection Hrun as <-; reflexivity|]).
  contradiction.
Qed.

(** C4 on [workstation]: [kubectl] exits with status 1, [docker] times
    out, [code] cannot be executed. *)
Lemma check_installed_software_failures_witness :
  uninterrupted Hosts.workstation check_commands /\
  exists tools,
    returned (check_installed_software Hosts.workstation) = Ok tools /\
    dict_get "kubectl" tools = Some (VStr "installed (version check failed)") /\
    dict_get "docker" tools = Some (VStr "installed (timeout)") /\
    dict_get "code" tools = Some (VStr "installed (error checking version)").
Proof.
  split; [exact workstation_uninterrupted|].
  destruct (check_installed_software_failures Hosts.workstation
              workstation_uninterrupted) as (tools & Hret & Hrec & _).
  exists tools. split; [exact Hret|]. split; [|split].
  - destruct (Hrec "kubectl" ["kubectl"; "version"; "--client"] "kubectl"
                ltac:(vm_compute; tauto) eq_refl eq_refl) as (H & _ & _).
    apply (H (Completed 1 "" ("error: unknown flag" ++ PyStr.NL)%string) eq_refl).
    discriminate.
  - destruct (Hrec "docker" ["docker"; "--version"] "docker"
                ltac:(vm_compute; tauto) eq_refl eq_refl) as (_ & H & _).
    apply (H (Exn TimeoutExpired
                "Command '['docker', '--version']' timed out after 5 seconds")
             eq_refl).
    reflexivity.
  - destruct (Hrec "code" ["code"; "--version"] "code"
                ltac:(vm_compute; tauto) eq_refl eq_refl) as (_ & _ & H).
    apply (H (Exn OSError "[Errno 8] Exec format error: 'code'") eq_refl).
    reflexivity.
Defined.

(** C9 on [workstation], for the entry of [java]. *)
Lemma check_installed_software_entries_witness :
  returned (check_installed_software Hosts.workstation) = Ok Hosts.workstation_tools /\
  In ("java", VStr "java version 17") Hosts.workstation_tools /\
  exists command s,
    In ("java", command) check_commands /\ VStr "java version 17" = VStr s /\
    ((exists r, subprocess_run Hosts.workstation command (Some 5) = Ok r /\
                (s = PyStr.strip (first_line (stdout r)) \/
                 s = PyStr.strip (first_line (stderr r)))) \/
     s = "installed (version check failed)" \/
     s = "installed (timeout)" \/
     s = "installed (error checking version)").
Proof.
  assert (Hret : returned (check_installed_software Hosts.workstation)
                 = Ok Hosts.workstation_tools) by (vm_compute; reflexivity).
  assert (Hin : In ("java", VStr "java version 17") Hosts.workstation_tools)
    by (vm_compute; tauto).
  split; [exact Hret|]. split; [exact Hin|].
  exact (check_installed_software_entries Hosts.workstation
           Hosts.workstation_tools "java" (VStr "java version 17") Hret Hin).
Defined.

(** C10 on [workstation], where [curl] prints nothing. *)
Lemma check_installed_software_silent_witness :
  returned (check_installed_software Hosts.workstation) = Ok Hosts.workstation_tools /\
  truthy (shutil_which Hosts.workstation "curl") = true /\
  subprocess_run Hosts.workstation ["curl"; "--version"] (Some 5)
    = Ok (Completed 0 "" "") /\
  dict_get "curl" Hosts.workstation_tools = Some (VStr "").
Proof.
  assert (Hret : returned (check_installed_software Hosts.workstation)
                 = Ok Hosts.workstation_tools) by (vm_compute; reflexivity).
  split; [exact Hret|]. split; [reflexivity|]. split; [reflexivity|].
  exact (check_installed_software_silent Hosts.workstation
           Hosts.workstation_tools "curl" ["curl"; "--version"] "curl"
           (Completed 0 "" "") Hret ltac:(vm_compute; tauto)
           eq_refl eq_refl eq_refl eq_refl eq_refl eq_refl).
Defined.

(** C8 on a report without and on a report with detected environments. *)
Lemma save_to_markdown_sections_witness :
  (environments Hosts.report_without = [] /\
   one_lined (fun _ _ => "") "2024-01-01 00:00:00" Hosts.report_without = true /\
   ~ In environments_header
       (save_to_markdown_writes (fun _ _ => "") "2024-01-01 00:00:00"
          Hosts.report_without) /\
   ~ In environments_header
       (PyStr.lines (save_to_markdown (fun _ _ => "") "2024-01-01 00:00:00"
                       Hosts.report_without))) /\
  (environments Hosts.report_with <> [] /\
   section_of environments_header
     (save_to_markdown_writes (fun _ _ => "") "2024-01-01 00:00:00"
        Hosts.report_with) =
   Some [ ("- **VS Code**: installed" ++ PyStr.NL)%string;
          ("- **Xcode**: installed" ++ PyStr.NL)%string ] /\
   In environments_header
     (PyStr.lines (save_to_markdown (fun _ _ => "") "2024-01-01 00:00:00"
                     Hosts.report_with))).
Proof.
  pose proof (save_to_markdown_sections (fun _ _ => "") "2024-01-01 00:00:00"
                Hosts.report_without) as H0.
  pose proof (save_to_markdown_sections (fun _ _ => "") "2024-01-01 00:00:00"
                Hosts.report_with) as H1.
  cbv zeta in H0, H1.
  destruct H0 as (Hiff0 & _ & _ & _ & _ & _ & _ & _ & _ & _ & Hnone0).
  destruct H1 as (_ & Hsec1 & _ & _ & _ & _ & _ & _ & _ & Hin1 & _).
  split; [|split; [|split]].
  - split; [reflexivity|]. split; [reflexivity|]. split.
    + intros Hin. apply (proj1 Hiff0) in Hin. apply Hin. reflexivity.
    + apply Hnone0; reflexivity.
  - discriminate.
  - apply Hsec1. discriminate.
  - apply Hin1. discriminate.
Defined.

(** * More on the hardware probe *)

Lemma triple_at_init {A} (P : frame -> Prop) (m : M A)
    (Q : A -> frame -> Prop) (E : exn -> frame -> Prop) :
  triple P m Q E -> P init ->
  (forall a, returned m = Ok a -> Q a (snd (exec m))) /\
  (forall e, returned m = Raise e -> E e (snd (exec m))).
Proof.
  intros H Hinit. specialize (H init Hinit). unfold returned, exec.
  destruct (m init) as [[a|e] fr]; simpl; split; intros x Hx;
    try discriminate; injection Hx as <-; exact H.
Qed.

Lemma triple_consequence {A} (P : frame -> Prop) (m : M A)
    (Q Q' : A -> frame -> Prop) (E E' : exn -> frame -> Prop) :
  triple P m Q E ->
  (forall a fr, Q a fr -> Q' a fr) ->
  (forall e fr, E e fr -> E' e fr) ->
  triple P m Q' E'.
Proof.
  intros H HQ HE fr Hfr. specialize (H fr Hfr).
  destruct (m fr) as [[a|e] fr']; auto.
Qed.

Lemma dict_set_NoDup (k : string) (v : value) (d : pydict) :
  NoDup (dict_keys d) -> NoDup (dict_keys (dict_set k v d)).
Proof.
  induction d as [|[k0 v0] r IH]; simpl; intros Hnd.
  - constructor; [intros []|constructor].
  - inversion Hnd as [|? ? Hfresh Hr]; subst.
    destruct (String.eqb_spec k k0) as [->|Hne]; simpl.
    + constructor; assumption.
    + constructor; [|auto]. intros Hin. apply dict_keys_set in Hin.
      destruct Hin as [Hin|Hin]; [congruence|contradiction].
Qed.

(** X1. Whatever the host answers, a dictionary that the hardware probe
    returns has no other keys than [ram_gb], [cpu] and [error], each at
    most once. *)
Theorem get_hardware_info_keys (w : world) (d : pydict) :
  returned (get_hardware_info w) = Ok d ->
  NoDup (dict_keys d) /\
  forall k, In k (dict_keys d) -> k = "ram_gb" \/ k = "cpu" \/ k = "error".
Proof.
  set (I0 := fun d : pydict => NoDup (dict_keys d) /\ hardware_fields d).
  set (I1 := fun d : pydict =>
               NoDup (dict_keys d) /\
               forall k, In k (dict_keys d) ->
                         k = "ram_gb" \/ k = "cpu" \/ k = "error").
  assert (Hst : forall k, k = "ram_gb" \/ k = "cpu" -> stable I0 k).
  { intros k Hk v d0 [Hnd Hf]. split; [now apply dict_set_NoDup|].
    now apply hardware_fields_stable. }
  assert (H01 : forall d0, I0 d0 -> I1 d0).
  { intros d0 [Hnd Hf]. split; [exact Hnd|]. intros k Hk.
    destruct (Hf k Hk); auto. }
  assert (Ht : triple (on_dict I0) (get_hardware_info w)
                 (fun d _ => I1 d) (fun _ _ => True)).
  { unfold get_hardware_info.
    eapply triple_bind with (R := fun _ => on_dict I1);
      [|intros u fr Hfr; exact Hfr].
    eapply triple_try with (E' := fun _ => on_dict I0).
    - eapply triple_consequence with (Q := fun _ => on_dict I0)
                                     (E := fun _ => on_dict I0).
      + apply hardware_try_inv; auto.
      + intros u fr Hfr. exact (H01 _ Hfr).
      + auto.
    - intros e. unfold hardware_except. destruct (is_Exception e); [|auto].
      apply triple_setitem. intros d0 [Hnd Hf]. split.
      + now apply dict_set_NoDup.
      + intros k Hk. apply dict_keys_set in Hk.
        destruct Hk as [->|Hk]; [auto|]. destruct (Hf k Hk); auto. }
  intros Hret.
  apply (proj1 (triple_at_init _ _ _ _ Ht
                  (conj (NoDup_nil _) (fun k (H : In k []) => match H with end)))
           d Hret).
Qed.

(** An exception that leaves the hardware probe comes from the host and
    does not derive from [Exception]. *)
Lemma get_hardware_info_escapes (w : world) :
  triple (on_dict (fun _ => True)) (get_hardware_info w)
    (fun _ _ => True)
    (fun e _ => is_Exception e = false /\ raised_by w e).
Proof.
  unfold get_hardware_info.
  eapply triple_bind with (R := fun _ => on_dict (fun _ => True));
    [|intros u fr Hfr; exact I].
  eapply triple_try with
    (E' := fun e _ => is_Exception e = true \/ raised_by w e).
  - apply hardware_try_inv; try (intros v d _; exact I).
    + intros e0 fr He _. now left.
    + intros c t e0 fr Hrun _. right. left. now exists c, t.
    + intros p e0 fr Hopen _. right. right. now exists p.
  - intros e0. unfold hardware_except.
    destruct (is_Exception e0) eqn:He0.
    + intros fr _. exact I.
    + intros fr [Hc|Hw]; [discriminate|]. split; [reflexivity|exact Hw].
Qed.

Lemma hardware_raise (w : world) (e : exn) :
  returned (get_hardware_info w) = Raise e -> is_Exception e = false.
Proof.
  intros Hret.
  exact (proj1 (proj2 (triple_at_init _ _ _ _ (get_hardware_info_escapes w) I)
                  e Hret)).
Qed.

(** X2. The hardware probe lets no exception that derives from [Exception]
    out: an exception that leaves it was handed over by the host, by a
    command or by a file, and does not derive from [Exception]. *)
Theorem get_hardware_info_raises_only_interrupt (w : world) (e : exn) :
  returned (get_hardware_info w) = Raise e ->
  is_Exception e = false /\ raised_by w e.
Proof.
  intros Hret.
  destruct (triple_at_init _ _ _ _ (get_hardware_info_escapes w) I)
    as [_ Hraise].
  exact (Hraise e Hret).
Qed.

(** X3. On a system that is none of Windows, Darwin and Linux the hardware
    probe asks the host nothing and returns the empty dictionary: no field
    and no error. *)
Theorem get_hardware_info_other_os (w : world) :
  platform_system w <> "Windows" ->
  platform_system w <> "Darwin" ->
  platform_system w <> "Linux" ->
  returned (get_hardware_info w) = Ok [] /\
  queries (get_hardware_info w) = [].
Proof.
  intros Hw Hd Hl.
  unfold queries, returned, exec, get_hardware_info, bind, try_except,
    hardware_try.
  apply String.eqb_neq in Hw, Hd, Hl. rewrite Hw, Hd, Hl.
  split; reflexivity.
Qed.

(** X4. On Linux, when the memory file cannot be opened, the CPU file is
    not opened either: the probe returns the error alone. *)
Theorem get_hardware_info_linux_no_meminfo (w : world) (e : exn) :
  platform_system w = "Linux" ->
  open_text w "/proc/meminfo" = Raise e ->
  is_Exception e = true ->
  returned (get_hardware_info w)
    = Ok [("error", VStr ("Could not gather hardware info: " ++ exn_text e))] /\
  queries (get_hardware_info w) = [CallOpen "/proc/meminfo"].
Proof.
  intros Hos Hopen He.
  unfold queries, returned, exec, get_hardware_info, try_except, hardware_try.
  rewrite Hos. cbn [String.eqb Ascii.eqb Bool.eqb].
  unfold hardware_except, hardware_linux, open_read, bind, log, lift; simpl.
  rewrite Hopen, He. split; reflexivity.
Qed.

Lemma scan_meminfo_none (ls : list string) :
  Forall (fun l => PyStr.contains "MemTotal:" l = false) ls ->
  scan_meminfo ls = ret tt.
Proof.
  intros H. rewrite <- (app_nil_r ls). now rewrite scan_meminfo_skip.
Qed.

Lemma scan_cpuinfo_skip (pre rest : list string) :
  Forall (fun l => PyStr.contains "model name" l = false) pre ->
  scan_cpuinfo (pre ++ rest) = scan_cpuinfo rest.
Proof.
  induction 1 as [|l pre Hl _ IH]; simpl; [reflexivity|].
  now rewrite Hl.
Qed.

Lemma scan_cpuinfo_found (line field : string) (post : list string) (fr : frame) :
  PyStr.contains "model name" line = true ->
  nth_error (PyStr.split ": " line) 1 = Some field ->
  scan_cpuinfo (line :: post) fr =
  (Ok tt, {| dict := dict_set "cpu" (VStr (PyStr.strip field)) (dict fr);
             calls := calls fr |}).
Proof.
  intros Hc Hf. simpl. rewrite Hc. unfold bind, getitem. rewrite Hf.
  reflexivity.
Qed.

(** The Linux branch, step by step. *)
Lemma hardware_linux_run (w : world) (fr : frame) :
  hardware_linux w fr =
  match open_text w "/proc/meminfo" with
  | Raise e => (Raise e, logged [CallOpen "/proc/meminfo"] fr)
  | Ok s =>
      match scan_meminfo (PyStr.lines s) (logged [CallOpen "/proc/meminfo"] fr) with
      | (Raise e, fr1) => (Raise e, fr1)
      | (Ok _, fr1) =>
          match open_text w "/proc/cpuinfo" with
          | Raise e => (Raise e, logged [CallOpen "/proc/cpuinfo"] fr1)
          | Ok s' => scan_cpuinfo (PyStr.lines s') (logged [CallOpen "/proc/cpuinfo"] fr1)
          end
      end
  end.
Proof.
  unfold hardware_linux, open_read, bind, log, lift, logged. simpl.
  destruct (open_text w "/proc/meminfo") as [s|e]; [|reflexivity].
  destruct (scan_meminfo (PyStr.lines s) _) as [[u|e] fr1]; [|reflexivity].
  destruct (open_text w "/proc/cpuinfo") as [s'|e]; reflexivity.
Qed.

Lemma scan_cpuinfo_none (ls : list string) :
  Forall (fun l => PyStr.contains "model name" l = false) ls ->
  scan_cpuinfo ls = ret tt.
Proof.
  intros H. rewrite <- (app_nil_r ls). now rewrite scan_cpuinfo_skip.
Qed.

Lemma scan_cpuinfo_calls (ls : list string) (fr : frame) :
  calls (snd (scan_cpuinfo ls fr)) = calls fr.
Proof.
  induction ls as [|line rest IH]; [reflexivity|].
  cbn [scan_cpuinfo].
  destruct (PyStr.contains "model name" line); [|exact IH].
  unfold bind, getitem.
  destruct (nth_error (PyStr.split ": " line) 1); reflexivity.
Qed.

(** The Linux branch once the memory file is read and has no line with
    [MemTotal:]. *)
Lemma hardware_try_no_MemTotal (w : world) (content : string) (fr : frame) :
  platform_system w = "Linux" ->
  open_text w "/proc/meminfo" = Ok content ->
  Forall (fun l => PyStr.contains "MemTotal:" l = false) (PyStr.lines content) ->
  hardware_try w fr =
  match open_text w "/proc/cpuinfo" with
  | Raise e =>
      (Raise e, logged [CallOpen "/proc/cpuinfo"]
                  (logged [CallOpen "/proc/meminfo"] fr))
  | Ok s =>
      scan_cpuinfo (PyStr.lines s)
        (logged [CallOpen "/proc/cpuinfo"] (logged [CallOpen "/proc/meminfo"] fr))
  end.
Proof.
  intros Hos Hmem Hnone. unfold hardware_try.
  rewrite Hos. cbn [String.eqb Ascii.eqb Bool.eqb].
  rewrite hardware_linux_run, Hmem, (scan_meminfo_none _ Hnone).
  reflexivity.
Qed.

(** X5. On Linux, when no line of the memory file has [MemTotal:], the
    probe raises nothing for it: it goes on to open the CPU file, it
    returns no [ram_gb], and what it returns is what the CPU file alone
    gives, the empty dictionary when no line of that file has
    [model name] and [cpu] alone when one has. *)
Theorem get_hardware_info_linux_no_MemTotal (w : world) (content : string) :
  platform_system w = "Linux" ->
  open_text w "/proc/meminfo" = Ok content ->
  Forall (fun l => PyStr.contains "MemTotal:" l = false) (PyStr.lines content) ->
  queries (get_hardware_info w)
    = [CallOpen "/proc/meminfo"; CallOpen "/proc/cpuinfo"] /\
  (forall d, returned (get_hardware_info w) = Ok d -> dict_get "ram_gb" d = None) /\
  (forall cpuinfo,
     open_text w "/proc/cpuinfo" = Ok cpuinfo ->
     Forall (fun l => PyStr.contains "model name" l = false) (PyStr.lines cpuinfo) ->
     returned (get_hardware_info w) = Ok []) /\
  (forall cpuinfo pre line post field,
     open_text w "/proc/cpuinfo" = Ok cpuinfo ->
     PyStr.lines cpuinfo = (pre ++ line :: post)%list ->
     Forall (fun l => PyStr.contains "model name" l = false) pre ->
     PyStr.contains "model name" line = true ->
     nth_error (PyStr.split ": " line) 1 = Some field ->
     returned (get_hardware_info w) = Ok [("cpu", VStr (PyStr.strip field))]).
Proof.
  intros Hos Hmem Hnone.
  pose proof (hardware_try_no_MemTotal w content init Hos Hmem Hnone) as Htry.
  split; [|split; [|split]].
  - unfold queries, exec, get_hardware_info, bind, try_except.
    rewrite Htry.
    destruct (open_text w "/proc/cpuinfo") as [s|e].
    + pose proof (scan_cpuinfo_calls (PyStr.lines s)
                    (logged [CallOpen "/proc/cpuinfo"]
                       (logged [CallOpen "/proc/meminfo"] init))) as Hcalls.
      destruct (scan_cpuinfo (PyStr.lines s) _) as [[u|e] fr2].
      * cbn [snd] in Hcalls. cbn [return_dict snd calls]. now rewrite Hcalls.
      * cbn [snd] in Hcalls. unfold hardware_except.
        destruct (is_Exception e); cbn [setitem return_dict snd calls];
          now rewrite Hcalls.
    + unfold hardware_except. destruct (is_Exception e); reflexivity.
  - set (J := fun d : pydict => dict_get "ram_gb" d = None).
    assert (Ht : triple (on_dict J) (get_hardware_info w)
                   (fun d _ => J d) (fun _ _ => True)).
    { unfold get_hardware_info.
      eapply triple_bind with (R := fun _ => on_dict J);
        [|intros u fr Hfr; exact Hfr].
      eapply triple_try with (E' := fun _ => on_dict J).
      - unfold hardware_try. rewrite Hos. simpl. unfold hardware_linux.
        apply triple_open_read_then; [auto|].
        intros s Hs. assert (s = content) as -> by congruence.
        rewrite (scan_meminfo_none _ Hnone).
        eapply triple_bind with (R := fun _ => on_dict J);
          [apply triple_ret; auto|intros u].
        apply triple_open_read_then; [auto|]. intros f _.
        apply scan_cpuinfo_inv; [|auto].
        intros v d0 Hd0. unfold J. now rewrite dict_get_set_other.
      - intros e. unfold hardware_except. destruct (is_Exception e); [|auto].
        apply triple_setitem. intros d0 Hd0. unfold J.
        now rewrite dict_get_set_other. }
    intros d Hret. exact (proj1 (triple_at_init _ _ _ _ Ht eq_refl) d Hret).
  - intros cpuinfo Hcpu Hnocpu.
    unfold returned, exec, get_hardware_info, bind, try_except.
    rewrite Htry, Hcpu, (scan_cpuinfo_none _ Hnocpu). reflexivity.
  - intros cpuinfo pre line post field Hcpu Hlines Hpre Hline Hfield.
    unfold returned, exec, get_hardware_info, bind, try_except.
    rewrite Htry, Hcpu, Hlines, scan_cpuinfo_skip by exact Hpre.
    rewrite (scan_cpuinfo_found line field) by assumption.
    reflexivity.
Qed.

(** X6. On Linux, when the probe returns without an error, [cpu] is what
    follows the first colon and space on the first line of the CPU file
    that has [model name], without its leading and trailing white space. *)
Theorem get_hardware_info_linux_cpu (w : world) (content : string)
    (pre post : list string) (line field : string) (d : pydict) :
  platform_system w = "Linux" ->
  open_text w "/proc/cpuinfo" = Ok content ->
  PyStr.lines content = (pre ++ line :: post)%list ->
  Forall (fun l => PyStr.contains "model name" l = false) pre ->
  PyStr.contains "model name" line = true ->
  nth_error (PyStr.split ": " line) 1 = Some field ->
  returned (get_hardware_info w) = Ok d ->
  dict_get "error" d = None ->
  dict_get "cpu" d = Some (VStr (PyStr.strip field)).
Proof.
  intros Hos Hcpu Hlines Hpre Hline Hfield.
  set (T := fun _ : pydict => True).
  set (C := fun d : pydict => dict_get "cpu" d = Some (VStr (PyStr.strip field))).
  set (J := fun d : pydict => dict_get "error" d = None -> C d).
  assert (Ht : triple (on_dict T) (get_hardware_info w)
                 (fun d _ => J d) (fun _ _ => True)).
  { unfold get_hardware_info.
    eapply triple_bind with (R := fun _ => on_dict J);
      [|intros u fr Hfr; exact Hfr].
    eapply triple_try with (E' := fun _ _ => True).
    - unfold hardware_try. rewrite Hos. simpl. unfold hardware_linux.
      apply triple_open_read_then; [auto|]. intros s _.
      eapply triple_bind with (R := fun _ => on_dict T).
      { apply scan_meminfo_inv; [intros v d0 _; exact I|auto]. }
      intros u. apply triple_open_read_then; [auto|].
      intros s' Hs'. assert (s' = content) as -> by congruence.
      intros fr _. rewrite Hlines, scan_cpuinfo_skip by exact Hpre.
      rewrite (scan_cpuinfo_found line field) by assumption.
      intros _. apply dict_get_set_same.
    - intros e. unfold hardware_except. destruct (is_Exception e); [|auto].
      intros fr _ Herr. simpl in Herr.
      rewrite dict_get_set_same in Herr. discriminate Herr. }
  intros Hret. exact (proj1 (triple_at_init _ _ _ _ Ht I) d Hret).
Qed.


(** X8. On Linux, when the first line that has [MemTotal:] has no second
    field, or one that is no integer (the error then quotes the field as
    [repr] does), or an integer too large to be divided as a float, the
    probe stops there: it returns the error alone and does not open the
    CPU file. *)
Theorem get_hardware_info_linux_bad_MemTotal (w : world) (content : string)
    (pre post : list string) (line : string) (e : exn) :
  platform_system w = "Linux" ->
  open_text w "/proc/meminfo" = Ok content ->
  PyStr.lines content = (pre ++ line :: post)%list ->
  Forall (fun l => PyStr.contains "MemTotal:" l = false) pre ->
  PyStr.contains "MemTotal:" line = true ->
  meminfo_line_error line = Some e ->
  returned (get_hardware_info w)
    = Ok [("error", VStr ("Could not gather hardware info: " ++ exn_text e))] /\
  queries (get_hardware_info w) = [CallOpen "/proc/meminfo"].
Proof.
  intros Hos Hmem Hlines Hpre Hline Herr.
  assert (Hscan : forall fr, scan_meminfo (PyStr.lines content) fr = (Raise e, fr)
                             /\ is_Exception e = true).
  { intros fr. rewrite Hlines, scan_meminfo_skip by exact Hpre.
    cbn [scan_meminfo]. rewrite Hline. unfold meminfo_line_error in Herr.
    unfold bind, getitem, int, round_quotient, ret, raise.
    destruct (nth_error (PyStr.split_ws line) 1) as [field|].
    - destruct (PyStr.parse_int field) as [kb|].
      + destruct (overflows kb (1024 ^ 2)); [|discriminate Herr].
        injection Herr as <-. split; reflexivity.
      + injection Herr as <-. split; reflexivity.
    - injection Herr as <-. split; reflexivity. }
  assert (He : is_Exception e = true) by apply (Hscan init).
  unfold queries, returned, exec, get_hardware_info, try_except, hardware_try.
  rewrite Hos. cbn [String.eqb Ascii.eqb Bool.eqb]. unfold bind.
  rewrite hardware_linux_run, Hmem, (proj1 (Hscan _)).
  unfold hardware_except. rewrite He. split; reflexivity.
Qed.

(** ** The queries of the hardware probe *)

Section HardwareQueries.
Variable w : world.
Variable E : exn -> frame -> Prop.
Hypothesis E_any : forall e fr, asked_within hardware_calls fr -> E e fr.

Let known := asked_within hardware_calls.

Lemma known_logged (c : call) (fr : frame) :
  In c hardware_calls -> known fr -> known (logged [c] fr).
Proof. intros Hc Hfr q [<-|Hq]; [exact Hc|exact (Hfr q Hq)]. Qed.

Lemma known_setitem (k : string) (v : value) :
  triple known (setitem k v) (fun _ => known) E.
Proof. intros fr Hfr. exact Hfr. Qed.

Lemma known_run {B} (c : list string) (rest : CompletedProcess -> M B) Q :
  In (CallRun c None) hardware_calls ->
  (forall r, triple known (rest r) Q E) ->
  triple known (bind (run w c None) rest) Q E.
Proof.
  intros Hc Hrest fr Hfr. unfold run, bind, log, lift; simpl.
  pose proof (known_logged _ fr Hc Hfr) as Hfr'.
  destruct (subprocess_run w c None) as [r|e].
  - now apply Hrest.
  - now apply E_any.
Qed.

Lemma known_open_read {B} (p : string) (rest : string -> M B) Q :
  In (CallOpen p) hardware_calls ->
  (forall s, triple known (rest s) Q E) ->
  triple known (bind (open_read w p) rest) Q E.
Proof.
  intros Hc Hrest fr Hfr. unfold open_read, bind, log, lift; simpl.
  pose proof (known_logged _ fr Hc Hfr) as Hfr'.
  destruct (open_text w p) as [r|e].
  - now apply Hrest.
  - now apply E_any.
Qed.

Lemma scan_meminfo_known (ls : list string) :
  triple known (scan_meminfo ls) (fun _ => known) E.
Proof.
  induction ls as [|line rest IH]; simpl.
  - apply triple_ret; auto.
  - apply triple_if; intros _; [|exact IH].
    apply triple_getitem_then; [intros e fr _; apply E_any|intros field _].
    apply triple_int_then; [intros e fr _; apply E_any|intros kb _].
    apply triple_round_quotient_then; [intros e fr _; apply E_any|intros _].
    apply known_setitem.
Qed.

Lemma scan_cpuinfo_known (ls : list string) :
  triple known (scan_cpuinfo ls) (fun _ => known) E.
Proof.
  induction ls as [|line rest IH]; simpl.
  - apply triple_ret; auto.
  - apply triple_if; intros _; [|exact IH].
    apply triple_getitem_then; [intros e fr _; apply E_any|intros field _].
    apply known_setitem.
Qed.

Lemma hardware_try_known :
  triple known (hardware_try w) (fun _ => known) E.
Proof.
  unfold hardware_try.
  apply triple_if; intros _; [|apply triple_if; intros _;
                                [|apply triple_if; intros _;
                                  [|apply triple_ret; auto]]].
  - unfold hardware_windows.
    apply known_run; [simpl; tauto|intros r].
    eapply triple_bind with (R := fun _ => known).
    { apply triple_if; intros _; [|apply triple_ret; auto].
      apply triple_if; intros _; [|apply triple_ret; auto].
      apply triple_getitem_then; [intros e fr _; apply E_any|intros l1 _].
      apply triple_int_then; [intros e fr _; apply E_any|intros n _].
      apply triple_round_quotient_then; [intros e fr _; apply E_any|intros _].
      apply known_setitem. }
    intros u. apply known_run; [simpl; tauto|intros r'].
    apply triple_if; intros _; [|apply triple_ret; auto].
    apply triple_if; intros _; [|apply triple_ret; auto].
    apply triple_getitem_then; [intros e fr _; apply E_any|intros l1 _].
    apply known_setitem.
  - unfold hardware_darwin.
    apply known_run; [simpl; tauto|intros r].
    eapply triple_bind with (R := fun _ => known).
    { apply triple_if; intros _; [|apply triple_ret; auto].
      apply triple_getitem_then; [intros e fr _; apply E_any|intros field _].
      apply triple_int_then; [intros e fr _; apply E_any|intros n _].
      apply triple_round_quotient_then; [intros e fr _; apply E_any|intros _].
      apply known_setitem. }
    intros u. apply known_run; [simpl; tauto|intros r'].
    apply triple_if; intros _; [|apply triple_ret; auto].
    apply known_setitem.
  - unfold hardware_linux.
    apply known_open_read; [simpl; tauto|intros f].
    eapply triple_bind; [apply scan_meminfo_known|intros u].
    apply known_open_read; [simpl; tauto|intros f'].
    apply scan_cpuinfo_known.
Qed.

End HardwareQueries.

(** X9. Whatever the host and however the probe ends, the hardware probe
    asks for nothing but its four commands and its two pseudo-files, and
    it runs each command without a timeout. *)
Theorem get_hardware_info_queries (w : world) (q : call) :
  In q (queries (get_hardware_info w)) ->
  In q hardware_calls /\
  forall c t, q = CallRun c t -> t = None.
Proof.
  assert (Hk : asked_within hardware_calls (snd (exec (get_hardware_info w)))).
  { assert (Ht : triple (asked_within hardware_calls) (get_hardware_info w)
                   (fun _ => asked_within hardware_calls)
                   (fun _ => asked_within hardware_calls)).
    { unfold get_hardware_info.
      eapply triple_bind with (R := fun _ => asked_within hardware_calls);
        [|intros u fr Hfr; exact Hfr].
      eapply triple_try with (E' := fun _ => asked_within hardware_calls).
      - apply hardware_try_known. auto.
      - intros e. unfold hardware_except. destruct (is_Exception e); [|auto].
        intros fr Hfr. exact Hfr. }
    assert (Hinit : asked_within hardware_calls init) by (intros q0 []).
    destruct (triple_at_init _ _ _ _ Ht Hinit) as [Hok Hraise].
    destruct (returned (get_hardware_info w)) as [d|e] eqn:Hret;
      [exact (Hok d eq_refl)|exact (Hraise e eq_refl)]. }
  intros Hq. unfold queries in Hq. apply in_rev in Hq.
  specialize (Hk q Hq). split; [exact Hk|].
  intros c t ->. simpl in Hk.
  repeat (destruct Hk as [Hk|Hk]; [congruence|]). contradiction.
Qed.

(** ** The command branches of the hardware probe *)

Lemma run_Ok (w : world) (c : list string) (t : option Z)
    (r : CompletedProcess) (fr : frame) :
  subprocess_run w c t = Ok r ->
  run w c t fr = (Ok r, logged [CallRun c t] fr).
Proof. intros H. unfold run, bind, log, lift; simpl. now rewrite H. Qed.

Lemma run_Raise (w : world) (c : list string) (t : option Z)
    (e : exn) (fr : frame) :
  subprocess_run w c t = Raise e ->
  run w c t fr = (Raise e, logged [CallRun c t] fr).
Proof. intros H. unfold run, bind, log, lift; simpl. now rewrite H. Qed.

(** X10. On Windows, when both [wmic] commands exit with status 0 and
    print, once trimmed, a heading line and at least one more line, and
    the second line of the first output is an integer that can be divided
    as a float, the probe returns [ram_gb], that integer over [1024^3]
    and rounded to one decimal, and then [cpu], the trimmed second line of
    the second output. *)
Theorem get_hardware_info_windows (w : world) (r1 r2 : CompletedProcess)
    (h1 l1 h2 l2 : string) (rest1 rest2 : list string) (n : Z) :
  platform_system w = "Windows" ->
  subprocess_run w ["wmic"; "computersystem"; "get"; "TotalPhysicalMemory"] None
    = Ok r1 ->
  returncode r1 = 0 ->
  PyStr.split PyStr.NL (PyStr.strip (stdout r1)) = h1 :: l1 :: rest1 ->
  PyStr.parse_int (PyStr.strip l1) = Some n ->
  overflows n (1024 ^ 3) = false ->
  subprocess_run w ["wmic"; "cpu"; "get"; "Name"] None = Ok r2 ->
  returncode r2 = 0 ->
  PyStr.split PyStr.NL (PyStr.strip (stdout r2)) = h2 :: l2 :: rest2 ->
  returned (get_hardware_info w)
    = Ok [ ("ram_gb", VFloat (round1 n (1024 ^ 3)));
           ("cpu", VStr (PyStr.strip l2)) ].
Proof.
  intros Hos Hrun1 Hrc1 Hl1 Hn Hfit Hrun2 Hrc2 Hl2.
  unfold returned, exec, get_hardware_info, try_except, hardware_try.
  rewrite Hos. cbn [String.eqb Ascii.eqb Bool.eqb].
  unfold hardware_windows, bind.
  rewrite (run_Ok _ _ _ _ _ Hrun1), Hrc1, Hl1. cbn [Z.eqb List.length Nat.ltb Nat.leb].
  unfold getitem, int, round_quotient; cbn [nth_error]. unfold ret at 1. rewrite Hn.
  unfold ret at 1. rewrite Hfit.
  unfold ret at 1, setitem at 1. cbv beta iota.
  rewrite (run_Ok _ _ _ _ _ Hrun2), Hrc2, Hl2. cbn [Z.eqb List.length Nat.ltb Nat.leb].
  reflexivity.
Qed.

(** X11. On Darwin, when both [sysctl] commands exit with status 0 and the
    first prints a name, a colon and a space, and an integer that can be
    divided as a float, the probe returns [ram_gb], that integer over
    [1024^3] rounded to one decimal, and then [cpu], the trimmed output of
    the second command. *)
Theorem get_hardware_info_darwin (w : world) (r1 r2 : CompletedProcess)
    (field : string) (n : Z) :
  platform_system w = "Darwin" ->
  subprocess_run w ["sysctl"; "hw.memsize"] None = Ok r1 ->
  returncode r1 = 0 ->
  nth_error (PyStr.split ": " (stdout r1)) 1 = Some field ->
  PyStr.parse_int field = Some n ->
  overflows n (1024 ^ 3) = false ->
  subprocess_run w ["sysctl"; "-n"; "machdep.cpu.brand_string"] None = Ok r2 ->
  returncode r2 = 0 ->
  returned (get_hardware_info w)
    = Ok [ ("ram_gb", VFloat (round1 n (1024 ^ 3)));
           ("cpu", VStr (PyStr.strip (stdout r2))) ].
Proof.
  intros Hos Hrun1 Hrc1 Hf Hn Hfit Hrun2 Hrc2.
  unfold returned, exec, get_hardware_info, try_except, hardware_try.
  rewrite Hos. cbn [String.eqb Ascii.eqb Bool.eqb].
  unfold hardware_darwin, bind.
  rewrite (run_Ok _ _ _ _ _ Hrun1), Hrc1. cbn [Z.eqb].
  unfold getitem, int, round_quotient. rewrite Hf. unfold ret at 1. rewrite Hn.
  unfold ret at 1. rewrite Hfit.
  unfold ret at 1, setitem at 1. cbv beta iota.
  rewrite (run_Ok _ _ _ _ _ Hrun2), Hrc2.
  reflexivity.
Qed.

(** X12. On Windows and on Darwin, a command that exits with another
    status than 0 is no error: when the two commands of the system's
    branch both do, the probe has run the one and then the other and
    returns the empty dictionary. *)
Theorem get_hardware_info_commands_fail (w : world) (c1 c2 : list string)
    (r1 r2 : CompletedProcess) :
  platform_system w = "Windows" /\
  c1 = ["wmic"; "computersystem"; "get"; "TotalPhysicalMemory"] /\
  c2 = ["wmic"; "cpu"; "get"; "Name"] \/
  platform_system w = "Darwin" /\
  c1 = ["sysctl"; "hw.memsize"] /\
  c2 = ["sysctl"; "-n"; "machdep.cpu.brand_string"] ->
  subprocess_run w c1 None = Ok r1 ->
  returncode r1 <> 0 ->
  subprocess_run w c2 None = Ok r2 ->
  returncode r2 <> 0 ->
  returned (get_hardware_info w) = Ok [] /\
  queries (get_hardware_info w) = [CallRun c1 None; CallRun c2 None].
Proof.
  intros Hos Hrun1 Hrc1 Hrun2 Hrc2.
  apply Z.eqb_neq in Hrc1, Hrc2.
  assert (Hexec : exec (get_hardware_info w) =
                  (Ok [], {| dict := [];
                             calls := [CallRun c2 None; CallRun c1 None] |})).
  { unfold exec, get_hardware_info, try_except, hardware_try.
    destruct Hos as [(Hos & -> & ->)|(Hos & -> & ->)];
      rewrite Hos; cbn [String.eqb Ascii.eqb Bool.eqb].
    - unfold hardware_windows, bind.
      rewrite (run_Ok _ _ _ _ _ Hrun1), Hrc1. unfold ret at 1. cbv beta iota.
      rewrite (run_Ok _ _ _ _ _ Hrun2), Hrc2. reflexivity.
    - unfold hardware_darwin, bind.
      rewrite (run_Ok _ _ _ _ _ Hrun1), Hrc1. unfold ret at 1. cbv beta iota.
      rewrite (run_Ok _ _ _ _ _ Hrun2), Hrc2. reflexivity. }
  unfold queries, returned. rewrite Hexec. split; reflexivity.
Qed.

(** * More on the tool probe *)

Section ToolFrames.
Variable w : world.

Lemma check_tool_calls (entry : string * list string) (fr fr' : frame)
    (r : result unit) :
  snd entry <> [] ->
  check_tool w entry fr = (r, fr') ->
  calls fr' = (rev (tool_queries w entry) ++ calls fr)%list.
Proof.
  destruct entry as [tool [|exe args]]; [simpl; congruence|]. intros _.
  rewrite check_tool_run. unfold tool_queries; cbn [snd].
  destruct (truthy (shutil_which w exe)).
  - destruct (subprocess_run w (exe :: args) (Some 5)) as [r0|e].
    + intros H. injection H as _ <-. reflexivity.
    + destruct (tool_status (Raise e)); intros H; injection H as _ <-;
        reflexivity.
  - intros H. injection H as _ <-. reflexivity.
Qed.

(** The queries made are those of the entries taken in order, all of them
    when the loop ends without an exception. *)
Lemma for_each_check_tool_calls (tbl : list (string * list string)) :
  Forall (fun entry => snd entry <> []) tbl ->
  forall fr fr' r,
    for_each tbl (check_tool w) fr = (r, fr') ->
    exists done rest,
      flat_map (tool_queries w) tbl = (done ++ rest)%list /\
      calls fr' = (rev done ++ calls fr)%list /\
      (r = Ok tt -> rest = []).
Proof.
  induction 1 as [|entry tbl Hne _ IH]; intros fr fr' r Hrun.
  - simpl in Hrun. injection Hrun as <- <-. exists [], []. auto.
  - cbn [for_each] in Hrun. unfold bind at 1 in Hrun.
    destruct (check_tool w entry fr) as [[u|e] fr1] eqn:Hstep.
    + pose proof (check_tool_calls _ _ _ _ Hne Hstep) as Hc.
      destruct (IH _ _ _ Hrun) as (done & rest & Hq & Hcalls & Hok).
      exists (tool_queries w entry ++ done)%list, rest. cbn [flat_map].
      split; [now rewrite Hq, app_assoc|]. split; [|exact Hok].
      now rewrite Hcalls, Hc, rev_app_distr, app_assoc.
    + pose proof (check_tool_calls _ _ _ _ Hne Hstep) as Hc.
      injection Hrun as <- <-.
      exists (tool_queries w entry), (flat_map (tool_queries w) tbl).
      split; [reflexivity|]. split; [exact Hc|discriminate].
Qed.

Lemma for_each_check_tool_keys (tbl : list (string * list string)) :
  NoDup (map fst tbl) ->
  forall fr fr',
    (forall t, In t (map fst tbl) -> dict_get t (dict fr) = None) ->
    for_each tbl (check_tool w) fr = (Ok tt, fr') ->
    dict_keys (dict fr') = (dict_keys (dict fr) ++ map fst (filter (found w) tbl))%list.
Proof.
  induction tbl as [|[tool command] rest IH]; intros Hnd fr fr' Hfresh Hrun.
  - simpl in Hrun. injection Hrun as <-. simpl. now rewrite app_nil_r.
  - cbn [map fst] in Hnd. inversion Hnd as [|? ? Hnew Hnd']; subst.
    cbn [for_each] in Hrun. unfold bind at 1 in Hrun.
    destruct command as [|exe args]; [discriminate Hrun|].
    rewrite check_tool_run in Hrun. cbn [filter]. unfold found at 1; cbn [snd].
    assert (Hstored : forall s fr0,
               dict fr0 = dict fr ->
               for_each rest (check_tool w) (stored tool s fr0) = (Ok tt, fr') ->
               dict_keys (dict fr') =
               (dict_keys (dict fr) ++ tool :: map fst (filter (found w) rest))%list).
    { intros s fr0 Hd Hrest. apply IH in Hrest; [|exact Hnd'|].
      - rewrite Hrest. unfold stored; cbn [dict]. rewrite Hd.
        rewrite dict_set_fresh by (apply Hfresh; now left).
        unfold dict_keys. rewrite map_app, <- app_assoc. reflexivity.
      - intros t Ht. unfold stored; cbn [dict]. rewrite Hd.
        rewrite dict_get_set_other; [apply Hfresh; now right|].
        intros ->. contradiction. }
    destruct (truthy (shutil_which w exe)).
    + destruct (subprocess_run w (exe :: args) (Some 5)) as [r|e].
      * now apply Hstored in Hrun.
      * destruct (tool_status (Raise e)) as [s|]; [|discriminate Hrun].
        now apply Hstored in Hrun.
    + apply IH in Hrun; [exact Hrun|exact Hnd'|].
      intros t Ht. apply Hfresh. now right.
Qed.

Lemma for_each_check_tool_raise (tbl : list (string * list string)) :
  Forall (fun entry => snd entry <> []) tbl ->
  forall fr fr' e,
    for_each tbl (check_tool w) fr = (Raise e, fr') ->
    is_Exception e = false /\
    exists tool command,
      In (tool, command) tbl /\ found w (tool, command) = true /\
      subprocess_run w command (Some 5) = Raise e.
Proof.
  induction 1 as [|[tool command] tbl Hne _ IH]; intros fr fr' e Hrun.
  - discriminate Hrun.
  - cbn [for_each] in Hrun. unfold bind at 1 in Hrun. cbn [snd] in Hne.
    destruct command as [|exe args]; [congruence|].
    rewrite check_tool_run in Hrun.
    assert (Hrest : forall fr0,
               for_each tbl (check_tool w) fr0 = (Raise e, fr') ->
               is_Exception e = false /\
               exists tool0 command0,
                 In (tool0, command0) ((tool, exe :: args) :: tbl) /\
                 found w (tool0, command0) = true /\
                 subprocess_run w command0 (Some 5) = Raise e).
    { intros fr0 H0. destruct (IH _ _ _ H0) as (He & t & c & Hin & Hf & Hr).
      split; [exact He|]. exists t, c. split; [now right|auto]. }
    destruct (truthy (shutil_which w exe)) eqn:Hpath; [|eauto].
    destruct (subprocess_run w (exe :: args) (Some 5)) as [r|e0] eqn:Hsub;
      [eauto|].
    simpl in Hrun.
    destruct (is_TimeoutExpired e0); [eauto|].
    destruct (is_Exception e0) eqn:He0; [eauto|].
    injection Hrun as <- <-. split; [exact He0|].
    exists tool, (exe :: args). split; [now left|]. split; [|exact Hsub].
    unfold found; cbn [snd]. exact Hpath.
Qed.

End ToolFrames.

Lemma tools_count (w : world) (tools : pydict) :
  returned (check_installed_software w) = Ok tools ->
  List.length tools = List.length (filter (found w) check_commands).
Proof.
  unfold returned, exec, check_installed_software, bind.
  destruct (for_each check_commands (check_tool w) init) as [[[]|e] fr] eqn:Hrun;
    cbn [fst return_dict]; intros H; [|discriminate H].
  injection H as <-.
  pose proof (for_each_check_tool_keys w _ check_commands_labels init fr
                (fun t _ => eq_refl) Hrun) as Hkeys.
  change (dict_keys (dict init)) with (@nil string) in Hkeys.
  rewrite app_nil_l in Hkeys.
  rewrite <- (length_map fst (dict fr)).
  change (map fst (dict fr)) with (dict_keys (dict fr)).
  rewrite Hkeys. apply length_map.
Qed.

(** X13. When the tool probe returns, the keys of its dictionary are the
    labels of the entries whose executable is on the search path, each
    once and in the order of the check table. *)
Theorem check_installed_software_keys (w : world) (tools : pydict) :
  returned (check_installed_software w) = Ok tools ->
  dict_keys tools = map fst (filter (found w) check_commands).
Proof.
  unfold returned, exec, check_installed_software, bind.
  destruct (for_each check_commands (check_tool w) init) as [[[]|e] fr] eqn:Hrun;
    cbn [fst return_dict]; intros H; [|discriminate H].
  injection H as <-.
  pose proof (for_each_check_tool_keys w _ check_commands_labels init fr
                (fun t _ => eq_refl) Hrun) as Hkeys.
  change (dict_keys (dict init)) with (@nil string) in Hkeys.
  rewrite app_nil_l in Hkeys. exact Hkeys.
Qed.

(** X14. An exception leaves the tool probe only when the version command
    of a tool on the search path was interrupted: it is the exception of
    that command, and it does not derive from [Exception]. *)
Theorem check_installed_software_raises_only_interrupt (w : world) (e : exn) :
  returned (check_installed_software w) = Raise e ->
  is_Exception e = false /\
  exists tool command,
    In (tool, command) check_commands /\ found w (tool, command) = true /\
    subprocess_run w command (Some 5) = Raise e.
Proof.
  unfold returned, exec, check_installed_software, bind.
  destruct (for_each check_commands (check_tool w) init) as [[[]|e0] fr] eqn:Hrun;
    cbn [fst return_dict]; intros H; [discriminate H|].
  injection H as <-.
  exact (for_each_check_tool_raise w _ check_commands_nonempty _ _ _ Hrun).
Qed.

(** X15. The tool probe looks every executable of the check table up on
    the search path, in the order of the table, and runs the command of an
    entry, with the 5-second timeout and right after the lookup, only when
    the executable was found; an interrupted probe has made a first part
    of these queries. *)
Theorem check_installed_software_queries (w : world) :
  exists rest,
    flat_map (tool_queries w) check_commands
      = (queries (check_installed_software w) ++ rest)%list /\
    (forall tools, returned (check_installed_software w) = Ok tools -> rest = []).
Proof.
  unfold queries, returned, exec, check_installed_software, bind.
  destruct (for_each check_commands (check_tool w) init) as [[[]|e] fr] eqn:Hrun;
    cbn [fst snd return_dict];
    destruct (for_each_check_tool_calls w _ check_commands_nonempty _ _ _ Hrun)
      as (done & rest & Hq & Hcalls & Hok);
    exists rest; cbn [calls init] in Hcalls; rewrite app_nil_r in Hcalls;
    rewrite Hcalls, rev_involutive; (split; [exact Hq|]).
  - intros tools _. now apply Hok.
  - intros tools H. discriminate H.
Qed.

(** ** Trimmed single lines *)

Lemma lstrip_idem (s : string) : PyStr.lstrip (PyStr.lstrip s) = PyStr.lstrip s.
Proof.
  induction s as [|c r IH]; simpl; [reflexivity|].
  destruct (PyStr.is_space c) eqn:Hc; [exact IH|]. simpl. now rewrite Hc.
Qed.

Lemma rstrip_idem (s : string) : PyStr.rstrip (PyStr.rstrip s) = PyStr.rstrip s.
Proof.
  induction s as [|c r IH]; simpl; [reflexivity|].
  destruct (PyStr.is_space c && PyStr.is_empty (PyStr.rstrip r)) eqn:Hc;
    [reflexivity|].
  simpl. now rewrite IH, Hc.
Qed.

Lemma lstrip_rstrip (s : string) :
  PyStr.lstrip s = s -> PyStr.lstrip (PyStr.rstrip s) = PyStr.rstrip s.
Proof.
  destruct s as [|c r]; [reflexivity|]. simpl.
  destruct (PyStr.is_space c) eqn:Hc.
  - intros H. exfalso.
    assert (Hlen : forall t,
               (String.length (PyStr.lstrip t) <= String.length t)%nat).
    { induction t as [|a t IHt]; simpl; [lia|].
      destruct (PyStr.is_space a); simpl; lia. }
    specialize (Hlen r). rewrite H in Hlen. simpl in Hlen. lia.
  - intros _. simpl. now rewrite Hc.
Qed.

Lemma strip_idem (s : string) : PyStr.strip (PyStr.strip s) = PyStr.strip s.
Proof.
  unfold PyStr.strip.
  rewrite (lstrip_rstrip (PyStr.lstrip s) (lstrip_idem s)).
  apply rstrip_idem.
Qed.

Lemma first_line_idem (s : string) : first_line (first_line s) = first_line s.
Proof.
  induction s as [|c r IH]; simpl; [reflexivity|].
  destruct (Ascii.eqb c PyStr.nl) eqn:Hc; [reflexivity|].
  simpl. now rewrite Hc, IH.
Qed.

Lemma first_line_lstrip (s : string) :
  first_line s = s -> first_line (PyStr.lstrip s) = PyStr.lstrip s.
Proof.
  induction s as [|c r IH]; simpl; [reflexivity|].
  destruct (Ascii.eqb c PyStr.nl) eqn:Hc; [discriminate|].
  intros H. injection H as H.
  destruct (PyStr.is_space c); [exact (IH H)|].
  simpl. now rewrite Hc, H.
Qed.

Lemma first_line_rstrip (s : string) :
  first_line s = s -> first_line (PyStr.rstrip s) = PyStr.rstrip s.
Proof.
  induction s as [|c r IH]; simpl; [reflexivity|].
  destruct (Ascii.eqb c PyStr.nl) eqn:Hc; [discriminate|].
  intros H. injection H as H.
  destruct (PyStr.is_space c && PyStr.is_empty (PyStr.rstrip r));
    [reflexivity|].
  simpl. now rewrite Hc, (IH H).
Qed.

Lemma first_line_strip (s : string) :
  first_line s = s -> first_line (PyStr.strip s) = PyStr.strip s.
Proof.
  intros H. unfold PyStr.strip.
  now apply first_line_rstrip, first_line_lstrip.
Qed.

(** X16. Every value that the tool probe records is a string of one line
    with no white space at either end: it has no newline, and trimming it
    again changes nothing. *)
Theorem check_installed_software_values_trimmed (w : world) (tools : pydict)
    (k : string) (v : value) :
  returned (check_installed_software w) = Ok tools ->
  In (k, v) tools ->
  exists s, v = VStr s /\ first_line s = s /\ PyStr.strip s = s.
Proof.
  intros Hret Hin. rewrite (check_installed_software_dict w tools Hret) in Hin.
  apply fold_record_In in Hin.
  destruct Hin as [[]|(exe & args & s & _ & _ & Hs & ->)].
  exists s. split; [reflexivity|].
  assert (Hv : forall x, first_line (PyStr.strip (first_line x))
                         = PyStr.strip (first_line x) /\
                         PyStr.strip (PyStr.strip (first_line x))
                         = PyStr.strip (first_line x)).
  { intros x. split; [apply first_line_strip, first_line_idem|apply strip_idem]. }
  destruct (subprocess_run w (exe :: args) (Some 5)) as [r|e]; simpl in Hs.
  - injection Hs as <-. destruct (returncode r =? 0); [|split; reflexivity].
    unfold tool_version. destruct (PyStr.is_empty (stderr r)); apply Hv.
  - destruct (is_TimeoutExpired e); [injection Hs as <-; split; reflexivity|].
    destruct (is_Exception e); [injection Hs as <-; split; reflexivity|discriminate].
Qed.

(** * More on the environment probe *)

Lemma for_each_check_path (w : world) (tbl : list (string * string)) :
  NoDup (map snd tbl) ->
  forall fr,
    (forall n, In n (map snd tbl) -> dict_get n (dict fr) = None) ->
    for_each tbl (check_path w) fr =
    (Ok tt,
     {| dict := (dict fr ++
                 map (fun entry => (snd entry, VStr "installed"))
                     (filter (fun entry => os_path_exists w (fst entry)) tbl))%list;
        calls := (rev (map (fun entry => CallExists (fst entry)) tbl)
                  ++ calls fr)%list |}).
Proof.
  induction tbl as [|[path name] rest IH]; intros Hnd fr Hfresh.
  - simpl. rewrite app_nil_r. now destruct fr.
  - cbn [map snd] in Hnd. inversion Hnd as [|? ? Hnew Hnd']; subst.
    cbn [for_each]. unfold bind at 1, check_path, path_exists.
    unfold bind at 1, log, bind at 1, ret at 1. cbv beta iota.
    cbn [filter map fst snd rev].
    destruct (os_path_exists w path).
    + unfold setitem. rewrite IH; [|exact Hnd'|].
      * cbn [dict calls].
        rewrite dict_set_fresh by (apply Hfresh; now left).
        cbn [map]. now rewrite <- !app_assoc.
      * intros n Hn. cbn [dict].
        rewrite dict_get_set_other; [apply Hfresh; now right|].
        intros ->. contradiction.
    + unfold ret. rewrite IH; [|exact Hnd'|].
      * cbn [dict calls]. now rewrite <- !app_assoc.
      * intros n Hn. apply Hfresh. now right.
Qed.

(** X17. On Darwin the environment probe asks once for each of its seven
    candidate paths, in their order, and returns the names of those that
    exist, in that order, each with the value ["installed"]. *)
Theorem detect_development_environments_darwin (w : world) :
  platform_system w = "Darwin" ->
  returned (detect_development_environments w) =
    Ok (map (fun entry => (snd entry, VStr "installed"))
            (filter (fun entry => os_path_exists w (fst entry))
                    darwin_common_paths)) /\
  queries (detect_development_environments w) =
    map (fun entry => CallExists (fst entry)) darwin_common_paths.
Proof.
  intros Hos.
  assert (Hnd : NoDup (map snd darwin_common_paths))
    by (apply distinct_NoDup; reflexivity).
  unfold queries, returned, exec, detect_development_environments.
  rewrite Hos. cbn [String.eqb Ascii.eqb Bool.eqb]. unfold bind.
  rewrite (for_each_check_path w _ Hnd init) by reflexivity.
  cbn [fst snd return_dict dict calls init].
  rewrite app_nil_r, rev_involutive. split; reflexivity.
Qed.

(** * The shell probe *)

Lemma get_shell_info_run (w : world) (rt : runtime) :
  exec (get_shell_info w rt) =
  let shell := ("current_shell", VStr (environ_get rt "SHELL" "unknown")) in
  if (platform_system w =? "Windows")%string then
    match subprocess_run w powershell_command None with
    | Ok r =>
        if returncode r =? 0 then
          (Ok [shell; ("powershell_version", VStr (PyStr.strip (stdout r)))],
           {| dict := [shell; ("powershell_version", VStr (PyStr.strip (stdout r)))];
              calls := [CallRun powershell_command None] |})
        else (Ok [shell], {| dict := [shell];
                             calls := [CallRun powershell_command None] |})
    | Raise _ =>
        (Ok [shell], {| dict := [shell];
                        calls := [CallRun powershell_command None] |})
    end
  else (Ok [shell], {| dict := [shell]; calls := [] |}).
Proof.
  unfold exec, get_shell_info, bind, setitem, try_except, shell_try,
    shell_except, run, bind, log, lift, return_dict, ret; simpl.
  destruct (platform_system w =? "Windows")%string; [|reflexivity].
  destruct (subprocess_run w powershell_command None) as [r|e]; [|reflexivity].
  destruct (returncode r =? 0); reflexivity.
Qed.

(** X18. The shell probe returns whatever the host does, an interrupted
    PowerShell command included.  Its dictionary has [current_shell], the
    value of the environment variable SHELL or ["unknown"] when the
    variable is not set, and it has [powershell_version] exactly when the
    system is Windows and the PowerShell command exits with status 0; the
    value is then the trimmed output of the command. *)
Theorem get_shell_info_returns (w : world) (rt : runtime) :
  exists d,
    returned (get_shell_info w rt) = Ok d /\
    dict_get "current_shell" d
      = Some (VStr (match os_environ rt "SHELL" with
                    | Some v => v
                    | None => "unknown"
                    end)) /\
    forall v,
      dict_get "powershell_version" d = Some v <->
      platform_system w = "Windows" /\
      exists r, subprocess_run w powershell_command None = Ok r /\
                returncode r = 0 /\ v = VStr (PyStr.strip (stdout r)).
Proof.
  unfold returned. rewrite get_shell_info_run. cbv zeta.
  destruct (String.eqb_spec (platform_system w) "Windows") as [Hos|Hos].
  - destruct (subprocess_run w powershell_command None) as [r|e] eqn:Hrun.
    + destruct (Z.eqb_spec (returncode r) 0) as [Hrc|Hrc].
      * eexists. split; [reflexivity|]. split; [reflexivity|].
        intros v. simpl. split.
        -- intros Hv. injection Hv as <-. split; [exact Hos|].
           exists r. auto.
        -- intros (_ & r' & Hr' & _ & ->). congruence.
      * eexists. split; [reflexivity|]. split; [reflexivity|].
        intros v. simpl. split; [discriminate|].
        intros (_ & r' & Hr' & Hrc' & _). congruence.
    + eexists. split; [reflexivity|]. split; [reflexivity|].
      intros v. simpl. split; [discriminate|].
      intros (_ & r' & Hr' & _). discriminate.
  - eexists. split; [reflexivity|]. split; [reflexivity|].
    intros v. simpl. split; [discriminate|]. intros [H _]. contradiction.
Qed.

(** X19. Off Windows the shell probe asks the host nothing; on Windows it
    runs the one PowerShell command, without a timeout. *)
Theorem get_shell_info_queries (w : world) (rt : runtime) :
  (platform_system w <> "Windows" -> queries (get_shell_info w rt) = []) /\
  (platform_system w = "Windows" ->
   queries (get_shell_info w rt) = [CallRun powershell_command None]).
Proof.
  unfold queries. rewrite get_shell_info_run. cbv zeta.
  destruct (String.eqb_spec (platform_system w) "Windows") as [Hos|Hos].
  - split; [contradiction|]. intros _.
    destruct (subprocess_run w powershell_command None) as [r|e];
      [destruct (returncode r =? 0)|]; reflexivity.
  - split; [reflexivity|contradiction].
Qed.

(** * The run as a whole *)

Lemma detect_development_environments_returns (w : world) :
  exists d, returned (detect_development_environments w) = Ok d.
Proof.
  unfold returned, exec, detect_development_environments, bind.
  destruct (platform_system w =? "Windows")%string; [eexists; reflexivity|].
  destruct (platform_system w =? "Darwin")%string; [|eexists; reflexivity].
  rewrite (for_each_check_path w darwin_common_paths
             ltac:(apply distinct_NoDup; reflexivity) init)
    by reflexivity.
  eexists. reflexivity.
Qed.

Lemma get_network_info_returns (w : world) :
  exists d, returned (get_network_info w) = Ok d.
Proof.
  unfold returned, exec, get_network_info, try_except, network_try,
    network_except, run, bind, log, lift, setitem, return_dict; simpl.
  destruct (subprocess_run w (ping_command w) (Some 5)); eexists; reflexivity.
Qed.

Lemma get_shell_info_total (w : world) (rt : runtime) :
  exists d, returned (get_shell_info w rt) = Ok d.
Proof.
  unfold returned. rewrite get_shell_info_run. cbv zeta.
  destruct (platform_system w =? "Windows")%string; [|eexists; reflexivity].
  destruct (subprocess_run w powershell_command None) as [r|e];
    [destruct (returncode r =? 0)|]; eexists; reflexivity.
Qed.

Section Run.
Variable w : world.
Variable rt : runtime.
Variable json_dumps : Report -> string.
Variable repr_inexact : Z -> Z -> string.
Variable mark_gathering mark_saved mark_raw mark_summary mark_failed : string.

Local Abbreviation the_main :=
  (main w rt json_dumps repr_inexact mark_gathering mark_saved mark_raw
     mark_summary).
Local Abbreviation the_script :=
  (script w rt json_dumps repr_inexact mark_gathering mark_saved mark_raw
     mark_summary mark_failed).
Local Abbreviation lines :=
  (summary_lines w rt repr_inexact mark_saved mark_raw mark_summary).
Local Abbreviation start :=
  (Print (mark_gathering ++ " Gathering system information...")).
(** The events up to the moment the directory is asked for. *)
Local Abbreviation gathering := (start :: map Ask (probe_queries w rt)).
Local Abbreviation cancelled :=
  (Print (PyStr.NL ++ mark_failed
          ++ " System information gathering cancelled by user")).
Local Abbreviation failed e :=
  (Print (mark_failed ++ " Error gathering system information: " ++ exn_text e)).

(** How [main] ends once the six probes have returned. *)
Lemma main_gathered (data : Report) :
  gathered w rt data ->
  the_main [] =
  match os_makedirs rt "user-data" with
  | Raise e => (Raise e, gathering ++ [Makedirs "user-data"])
  | Ok _ =>
      match open_write rt json_file with
      | Raise e => (Raise e, gathering ++ [Makedirs "user-data"])
      | Ok _ =>
          match open_write rt md_file with
          | Raise e =>
              (Raise e,
               gathering ++ [Makedirs "user-data";
                             Write json_file (json_dumps data)])
          | Ok _ =>
              (Ok data,
               gathering
               ++ [Makedirs "user-data";
                   Write json_file (json_dumps data);
                   Write md_file
                     (save_to_markdown repr_inexact (datetime_now rt) data)]
               ++ map Print (lines data))
          end
      end
  end%list.
Proof.
  intros (Hsys & Hhw & Hsw & Henv & Hsh & Hnet).
  destruct data as [sys hw sw env sh net].
  cbn [system hardware software environments shell network] in *.
  assert (Hs : sys = [ ("os", VStr (platform_system w));
                       ("os_version", VStr (platform_version rt));
                       ("os_release", VStr (platform_release rt));
                       ("architecture", VStr (fst (platform_architecture rt)));
                       ("machine", VStr (platform_machine rt));
                       ("processor", VStr (platform_processor rt));
                       ("python_version", VStr (platform_python_version rt));
                       ("hostname", VStr (platform_node rt)) ]).
  { unfold returned, exec, get_system_info, ret in Hsys. simpl in Hsys.
    congruence. }
  subst sys.
  unfold main, probe_queries, summary_lines.
  unfold io_bind, probe, print, makedirs, write_file.
  rewrite Hsys, Hhw, Hsw, Henv, Hsh, Hnet.
  cbv beta iota.
  cbn [system hardware software environments shell network].
  destruct (os_makedirs rt "user-data") as [u|e].
  2:{ cbn [app]. rewrite !map_app, <- !app_assoc. reflexivity. }
  destruct (open_write rt json_file) as [u1|e].
  2:{ cbn [app]. rewrite !map_app, <- !app_assoc. reflexivity. }
  destruct (open_write rt md_file) as [u2|e].
  2:{ cbn [app]. rewrite !map_app, <- !app_assoc. reflexivity. }
  unfold item, has_key, io_ret.
  cbn [dict_get String.eqb Ascii.eqb Bool.eqb].
  destruct (dict_get "ram_gb" hw) as [ram|];
    destruct (dict_get "cpu" hw) as [cpu|];
    cbn [app]; rewrite !map_app, <- !app_assoc; reflexivity.
Qed.

(** How [main] ends when the hardware probe or the tool probe raises. *)
Lemma main_hardware_raises (e : exn) :
  returned (get_hardware_info w) = Raise e ->
  the_main [] =
  (Raise e,
   start :: map Ask (queries (get_system_info w rt)
                     ++ queries (get_hardware_info w))%list).
Proof.
  intros Hhw. unfold main, io_bind, probe, print. rewrite Hhw.
  cbn [returned exec get_system_info ret fst app].
  now rewrite map_app.
Qed.

Lemma main_software_raises (hw : pydict) (e : exn) :
  returned (get_hardware_info w) = Ok hw ->
  returned (check_installed_software w) = Raise e ->
  the_main [] =
  (Raise e,
   start :: map Ask (queries (get_system_info w rt)
                     ++ queries (get_hardware_info w)
                     ++ queries (check_installed_software w))%list).
Proof.
  intros Hhw Hsw. unfold main, io_bind, probe, print. rewrite Hhw, Hsw.
  cbn [returned exec get_system_info ret fst app].
  now rewrite !map_app, <- !app_assoc.
Qed.

(** The probes either all return, or the hardware probe or the tool probe
    is interrupted. *)
Lemma gathered_or_interrupted :
  (exists data, gathered w rt data) \/
  (exists e, is_Exception e = false /\
             (returned (get_hardware_info w) = Raise e \/
              (exists hw, returned (get_hardware_info w) = Ok hw) /\
              returned (check_installed_software w) = Raise e)).
Proof.
  destruct (returned (get_hardware_info w)) as [hw|e] eqn:Hhw.
  - destruct (returned (check_installed_software w)) as [sw|e] eqn:Hsw.
    + left.
      destruct (detect_development_environments_returns w) as [env Henv].
      destruct (get_shell_info_total w rt) as [sh Hsh].
      destruct (get_network_info_returns w) as [net Hnet].
      eexists {| system := _; hardware := hw; software := sw;
                 environments := env; shell := sh; network := net |}.
      unfold gathered; cbn [system hardware software environments shell network].
      repeat split; eassumption.
    + right. exists e. split; [|right; split; [now exists hw|reflexivity]].
      unfold returned, exec, check_installed_software, bind in Hsw.
      destruct (for_each check_commands (check_tool w) init)
        as [[[]|e0] fr] eqn:Hrun; [discriminate Hsw|].
      cbn [fst] in Hsw. injection Hsw as <-.
      apply (for_each_check_tool_raise w _ check_commands_nonempty _ _ _ Hrun).
  - right. exists e. split; [|now left].
    exact (hardware_raise w e Hhw).
Qed.

Lemma asks_no_output (qs : list call) :
  existsb is_output (map Ask qs) = false.
Proof. induction qs as [|q qs IH]; [reflexivity|exact IH]. Qed.



Lemma script_raise (e : exn) (evs : list event) :
  the_main [] = (Raise e, evs) ->
  the_script =
  (1, evs ++ [if is_Exception e then failed e else cancelled])%list.
Proof.
  intros H. unfold script. rewrite H. unfold is_Exception.
  destruct (exn_cls e); reflexivity.
Qed.

(** A run ends with status 0 only when [main] returns. *)
Lemma script_ok :
  fst the_script = 0 -> exists data evs, the_main [] = (Ok data, evs).
Proof.
  unfold script. destruct (the_main []) as [[data|e] evs].
  - intros _. now exists data, evs.
  - destruct (exn_cls e); discriminate.
Qed.

(** What a run that ends with status 0 has done. *)
Lemma script_ok_gathered :
  fst the_script = 0 ->
  exists data,
    gathered w rt data /\
    (exists u, os_makedirs rt "user-data" = Ok u) /\
    (exists u, open_write rt json_file = Ok u) /\
    (exists u, open_write rt md_file = Ok u) /\
    snd the_script =
    (gathering
     ++ [ Makedirs "user-data";
          Write json_file (json_dumps data);
          Write md_file (save_to_markdown repr_inexact (datetime_now rt) data) ]
     ++ map Print (lines data))%list.
Proof.
  intros H0. destruct (script_ok H0) as (data0 & evs0 & Hmain).
  destruct gathered_or_interrupted as [[data Hg]|(e & He & Hr)].
  - exists data. split; [exact Hg|].
    unfold script. rewrite (main_gathered data Hg) in Hmain |- *.
    destruct (os_makedirs rt "user-data") as [u|e]; [|discriminate Hmain].
    destruct (open_write rt json_file) as [u1|e]; [|discriminate Hmain].
    destruct (open_write rt md_file) as [u2|e]; [|discriminate Hmain].
    eauto 10.
  - destruct Hr as [Hhw|[[hw Hhw] Hsw]].
    + rewrite (main_hardware_raises e Hhw) in Hmain. discriminate Hmain.
    + rewrite (main_software_raises hw e Hhw Hsw) in Hmain. discriminate Hmain.
Qed.

(** X20. A run that ends with status 0 has had its six probes return, and
    its events are, in order: the opening line, the queries of the probes
    in the order system, hardware, tools, environments, shell, network,
    the directory [user-data], the JSON file, the Markdown file with the
    rendering of the very dictionaries the probes returned, and the
    summary. *)
Theorem script_success :
  fst the_script = 0 ->
  exists data,
    gathered w rt data /\
    snd the_script =
    (gathering
     ++ [ Makedirs "user-data";
          Write json_file (json_dumps data);
          Write md_file (save_to_markdown repr_inexact (datetime_now rt) data) ]
     ++ map Print (lines data))%list.
Proof.
  intros H0. destruct (script_ok H0) as (data0 & evs0 & Hmain).
  destruct gathered_or_interrupted as [[data Hg]|(e & He & Hr)].
  - exists data. split; [exact Hg|].
    unfold script. rewrite (main_gathered data Hg) in Hmain |- *.
    destruct (os_makedirs rt "user-data") as [u|e]; [|discriminate Hmain].
    destruct (open_write rt json_file) as [u1|e]; [|discriminate Hmain].
    destruct (open_write rt md_file) as [u2|e]; [|discriminate Hmain].
    reflexivity.
  - exfalso. destruct Hr as [Hhw|[[hw Hhw] Hsw]].
    + rewrite (main_hardware_raises e Hhw) in Hmain. discriminate Hmain.
    + rewrite (main_software_raises hw e Hhw Hsw) in Hmain. discriminate Hmain.
Qed.

(** X21. When the hardware probe or the tool probe is interrupted, the run
    ends with status 1 and changes nothing on the file system: no
    directory is asked for and no file is written; the last event is the
    line that tells the run was cancelled. *)
Theorem script_interrupted (e : exn) :
  returned (get_hardware_info w) = Raise e \/
  returned (check_installed_software w) = Raise e ->
  fst the_script = 1 /\
  existsb is_output (snd the_script) = false /\
  exists evs, snd the_script = (evs ++ [cancelled])%list.
Proof.
  intros Hraise.
  assert (Hmain : exists e' qs,
             is_Exception e' = false /\
             the_main [] = (Raise e', start :: map Ask qs)).
  { destruct (returned (get_hardware_info w)) as [hw|e0] eqn:Hhw.
    - destruct Hraise as [H|Hsw]; [discriminate H|].
      exists e. eexists. split; [|exact (main_software_raises hw e Hhw Hsw)].
      unfold returned, exec, check_installed_software, bind in Hsw.
      destruct (for_each check_commands (check_tool w) init)
        as [[[]|e1] fr] eqn:Hrun; [discriminate Hsw|].
      cbn [fst] in Hsw. injection Hsw as <-.
      apply (for_each_check_tool_raise w _ check_commands_nonempty _ _ _ Hrun).
    - exists e0. eexists. split; [|exact (main_hardware_raises e0 Hhw)].
      exact (hardware_raise w e0 Hhw). }
  destruct Hmain as (e' & qs & He' & Hmain).
  rewrite (script_raise e' _ Hmain), He'. cbn [fst snd].
  split; [reflexivity|]. split; [|eexists; reflexivity].
  cbn [app existsb is_output orb]. rewrite existsb_app. cbn.
  rewrite orb_false_r. apply asks_no_output.
Qed.


(** X23. When the probes have returned and the directory cannot be made,
    or the JSON file does not open, for a reason that derives from
    [Exception], no file is written: the run prints the reason and ends
    with status 1. *)
Theorem script_no_directory (data : Report) (e : exn) :
  gathered w rt data ->
  is_Exception e = true ->
  os_makedirs rt "user-data" = Raise e \/
  os_makedirs rt "user-data" = Ok tt /\ open_write rt json_file = Raise e ->
  the_script = (1, gathering ++ [Makedirs "user-data"; failed e])%list.
Proof.
  intros Hg He Hfail.
  assert (Hmain : the_main [] = (Raise e, gathering ++ [Makedirs "user-data"])%list).
  { rewrite (main_gathered data Hg).
    destruct Hfail as [->|[-> ->]]; reflexivity. }
  rewrite (script_raise e _ Hmain), He.
  cbn [app]. now rewrite <- app_assoc.
Qed.

(** X24. When the JSON file is written and the Markdown file does not
    open, the JSON file stays: the run has written one of its two files
    when it prints the reason and ends with status 1. *)
Theorem script_no_markdown (data : Report) (e : exn) :
  gathered w rt data ->
  is_Exception e = true ->
  os_makedirs rt "user-data" = Ok tt ->
  open_write rt json_file = Ok tt ->
  open_write rt md_file = Raise e ->
  the_script =
  (1, gathering ++ [ Makedirs "user-data";
                     Write json_file (json_dumps data);
                     failed e ])%list.
Proof.
  intros Hg He Hmk Hj Hm.
  assert (Hmain : the_main [] =
                  (Raise e, gathering ++ [Makedirs "user-data";
                                          Write json_file (json_dumps data)])%list).
  { rewrite (main_gathered data Hg), Hmk, Hj, Hm. reflexivity. }
  rewrite (script_raise e _ Hmain), He.
  cbn [app]. now rewrite <- app_assoc.
Qed.

(** X25. The number of tools that the summary of a run that ends with
    status 0 gives is the number of entries of the check table whose
    executable is on the search path; the line that gives it is the last
    event of the run. *)
Theorem script_tools_found :
  fst the_script = 0 ->
  exists evs,
    snd the_script =
    (evs ++ [Print ("Development tools found: "
                    ++ PyStr.of_Z (Z.of_nat (List.length
                         (filter (found w) check_commands))))])%list.
Proof.
  intros H0. destruct (script_ok_gathered H0) as (data & Hg & _ & _ & _ & ->).
  destruct Hg as (_ & _ & Hsw & _).
  assert (Hlen : List.length (software data)
                 = List.length (filter (found w) check_commands)).
  { exact (tools_count w _ Hsw). }
  unfold summary_lines. rewrite Hlen, !map_app, !app_assoc.
  eexists. reflexivity.
Qed.

End Run.

(** * More on the report writer *)

Lemma filter_header_dashed (bs : list string) :
  Forall (fun b => dashed b = true) bs -> filter is_header bs = [].
Proof.
  induction 1 as [|b bs Hb _ IH]; cbn [filter]; [reflexivity|].
  assert (Hh : is_header b = false).
  { destruct b as [|c r]; [discriminate Hb|]. unfold dashed in Hb.
    change (prefix "-" (String c r))
      with (if ascii_dec "-" c then prefix "" r else false) in Hb.
    destruct (ascii_dec "-" c) as [<-|]; [reflexivity|discriminate Hb]. }
  rewrite Hh. exact IH.
Qed.

(** X26. The writes of the report writer that open a section are, in this
    order, those of the system, the hardware, the tools, the environments
    when there is one, the shell and the network: no dictionary of the
    report can add, drop or move a section. *)
Theorem save_to_markdown_headers (repr_inexact : Z -> Z -> string)
    (now : string) (data : Report) :
  filter is_header (save_to_markdown_writes repr_inexact now data) =
  ([system_header; hardware_header; software_header]
   ++ match environments data with
      | [] => []
      | _ :: _ => [environments_header]
      end
   ++ [shell_header; network_header])%list.
Proof.
  unfold save_to_markdown_writes.
  destruct data as [sys hw sw env sh net];
    cbn [system hardware software environments shell network].
  rewrite !filter_app.
  rewrite !(filter_header_dashed _ (humanized_dashed repr_inexact _)).
  rewrite !(filter_header_dashed _ (plain_dashed repr_inexact _)).
  destruct env as [|e0 env']; unfold environments_writes.
  - reflexivity.
  - rewrite !filter_app.
    rewrite !(filter_header_dashed _ (plain_dashed repr_inexact _)).
    reflexivity.
Qed.

Lemma case_not_underscore (c : ascii) :
  Ascii.eqb c "_" = false ->
  Ascii.eqb (PyStr.to_upper c) "_" = false /\
  Ascii.eqb (PyStr.to_lower c) "_" = false.
Proof.
  destruct c as [[] [] [] [] [] [] [] []]; vm_compute; intros H;
    split; first [reflexivity|discriminate H].
Qed.

Lemma title_aux_no_underscore (s : string) :
  forall prev,
    PyStr.contains "_" s = false ->
    PyStr.contains "_" (PyStr.title_aux prev s) = false.
Proof.
  induction s as [|c r IH]; intros prev H; [exact H|].
  cbn [PyStr.title_aux]. cbn [PyStr.contains] in *.
  apply orb_false_iff in H. destruct H as [Hc Hr].
  apply orb_false_iff. split; [|now apply IH].
  change (prefix "_" (String c r))
    with (if ascii_dec "_" c then prefix "" r else false) in Hc.
  assert (Hne : Ascii.eqb c "_" = false).
  { apply Ascii.eqb_neq. intros ->.
    destruct (ascii_dec "_" "_") as [_|n]; [|now apply n].
    now destruct r. }
  destruct (case_not_underscore c Hne) as [Hu Hl].
  match goal with
  | |- prefix "_" (String ?x ?t) = false =>
      change (prefix "_" (String x t))
        with (if ascii_dec "_" x then prefix "" t else false);
      destruct (ascii_dec "_" x) as [Heq|]; [|reflexivity];
      assert (Hx : Ascii.eqb x "_" = false)
        by (destruct (PyStr.is_upper c || PyStr.is_lower c);
            [destruct prev|]; assumption);
      rewrite <- Heq, Ascii.eqb_refl in Hx; discriminate Hx
  end.
Qed.

Lemma replace_underscore (s : string) :
  PyStr.contains "_" (PyStr.replace_char "_" " " s) = false.
Proof.
  induction s as [|c r IH]; [reflexivity|].
  cbn [PyStr.replace_char PyStr.contains]. rewrite IH, orb_false_r.
  destruct (Ascii.eqb c "_") eqn:Hc.
  - reflexivity.
  - change (prefix "_" (String c (PyStr.replace_char "_" " " r)))
      with (if ascii_dec "_" c
            then prefix "" (PyStr.replace_char "_" " " r) else false).
    destruct (ascii_dec "_" c) as [<-|]; [|reflexivity].
    rewrite Ascii.eqb_refl in Hc. discriminate Hc.
Qed.

Lemma title_aux_length (s : string) :
  forall prev, String.length (PyStr.title_aux prev s) = String.length s.
Proof. induction s as [|c r IH]; intros prev; simpl; [reflexivity|now rewrite IH]. Qed.

Lemma replace_char_length (a b : ascii) (s : string) :
  String.length (PyStr.replace_char a b s) = String.length s.
Proof. induction s as [|c r IH]; simpl; [reflexivity|now rewrite IH]. Qed.

(** X27. The label that the report writer makes of a key of ASCII
    characters, as the keys of the probes are, has as many characters as
    the key and no underscore. *)
Theorem humanize_no_underscore (key : string) :
  PyStr.isascii key = true ->
  String.length (humanize key) = String.length key /\
  PyStr.contains "_" (humanize key) = false.
Proof.
  intros _. unfold humanize, PyStr.title. split.
  - now rewrite title_aux_length, replace_char_length.
  - apply title_aux_no_underscore, replace_underscore.
Qed.

(** * Guarded and unguarded parsing in the hardware probe *)

(** X28. On Darwin the output of the memory command is split without a
    check: when the command exits with status 0 and its output has no
    colon followed by a space, the probe stops there, returns the error
    alone and never runs the CPU command. *)
Theorem get_hardware_info_darwin_no_colon (w : world) (r : CompletedProcess) :
  platform_system w = "Darwin" ->
  subprocess_run w ["sysctl"; "hw.memsize"] None = Ok r ->
  returncode r = 0 ->
  nth_error (PyStr.split ": " (stdout r)) 1 = None ->
  returned (get_hardware_info w)
    = Ok [("error", VStr "Could not gather hardware info: list index out of range")] /\
  queries (get_hardware_info w) = [CallRun ["sysctl"; "hw.memsize"] None].
Proof.
  intros Hos Hrun Hrc Hsplit.
  unfold queries, returned, exec, get_hardware_info, try_except, hardware_try.
  rewrite Hos. cbn [String.eqb Ascii.eqb Bool.eqb].
  unfold hardware_darwin, bind.
  rewrite (run_Ok _ _ _ _ _ Hrun), Hrc. cbn [Z.eqb].
  unfold getitem. rewrite Hsplit. split; reflexivity.
Qed.

(** X29. On Windows the number of lines is checked before the second one
    is read: when the memory command exits with status 0 and its trimmed
    output is a single line, nothing is raised for it.  The CPU command
    is run next, no [ram_gb] is returned, and what the probe returns is
    what the CPU command alone gives: the empty dictionary when that
    command exits with another status than 0, [cpu] alone when it prints
    a heading and one more line. *)
Theorem get_hardware_info_windows_one_line (w : world)
    (r1 : CompletedProcess) (h1 : string) :
  platform_system w = "Windows" ->
  subprocess_run w ["wmic"; "computersystem"; "get"; "TotalPhysicalMemory"] None
    = Ok r1 ->
  returncode r1 = 0 ->
  PyStr.split PyStr.NL (PyStr.strip (stdout r1)) = [h1] ->
  queries (get_hardware_info w)
    = [ CallRun ["wmic"; "computersystem"; "get"; "TotalPhysicalMemory"] None;
        CallRun ["wmic"; "cpu"; "get"; "Name"] None ] /\
  (forall d, returned (get_hardware_info w) = Ok d -> dict_get "ram_gb" d = None) /\
  (forall r2,
     subprocess_run w ["wmic"; "cpu"; "get"; "Name"] None = Ok r2 ->
     returncode r2 <> 0 ->
     returned (get_hardware_info w) = Ok []) /\
  (forall r2 h2 l2 rest2,
     subprocess_run w ["wmic"; "cpu"; "get"; "Name"] None = Ok r2 ->
     returncode r2 = 0 ->
     PyStr.split PyStr.NL (PyStr.strip (stdout r2)) = h2 :: l2 :: rest2 ->
     returned (get_hardware_info w) = Ok [("cpu", VStr (PyStr.strip l2))]).
Proof.
  intros Hos Hrun1 Hrc1 Hl1.
  assert (Htry : hardware_try w init =
                 let fr1 := logged [CallRun ["wmic"; "computersystem"; "get";
                                             "TotalPhysicalMemory"] None] init in
                 bind (run w ["wmic"; "cpu"; "get"; "Name"] None)
                   (fun result =>
                      if returncode result =? 0 then
                        let lines :=
                          PyStr.split PyStr.NL (PyStr.strip (stdout result)) in
                        if (1 <? List.length lines)%nat then
                          bind (getitem lines 1)
                            (fun l1 => setitem "cpu" (VStr (PyStr.strip l1)))
                        else ret tt
                      else ret tt) fr1).
  { unfold hardware_try. rewrite Hos. cbn [String.eqb Ascii.eqb Bool.eqb].
    unfold hardware_windows. unfold bind at 1.
    rewrite (run_Ok _ _ _ _ _ Hrun1). unfold bind at 1.
    rewrite Hrc1, Hl1. reflexivity. }
  split; [|split; [|split]].
  - unfold queries, exec, get_hardware_info, try_except. unfold bind at 1.
    rewrite Htry. cbv zeta. unfold bind at 1.
    destruct (subprocess_run w ["wmic"; "cpu"; "get"; "Name"] None)
      as [r2|e] eqn:Hrun2.
    + rewrite (run_Ok _ _ _ _ _ Hrun2).
      destruct (returncode r2 =? 0); [|reflexivity].
      destruct (1 <? List.length _)%nat; [|reflexivity].
      unfold bind, getitem.
      destruct (nth_error _ 1); reflexivity.
    + rewrite (run_Raise _ _ _ _ _ Hrun2). unfold hardware_except.
      destruct (is_Exception e); reflexivity.
  - intros d. unfold returned, exec, get_hardware_info, try_except.
    unfold bind at 1. rewrite Htry. cbv zeta. unfold bind at 1.
    destruct (subprocess_run w ["wmic"; "cpu"; "get"; "Name"] None)
      as [r2|e] eqn:Hrun2.
    + rewrite (run_Ok _ _ _ _ _ Hrun2).
      destruct (returncode r2 =? 0);
        [|intros Hd; injection Hd as <-; reflexivity].
      destruct (1 <? List.length _)%nat;
        [|intros Hd; injection Hd as <-; reflexivity].
      unfold bind, getitem.
      destruct (nth_error _ 1); intros Hd; injection Hd as <-; reflexivity.
    + rewrite (run_Raise _ _ _ _ _ Hrun2). unfold hardware_except.
      destruct (is_Exception e); intros Hd;
        [injection Hd as <-; reflexivity|discriminate Hd].
  - intros r2 Hrun2 Hrc2. apply Z.eqb_neq in Hrc2.
    unfold returned, exec, get_hardware_info, try_except.
    unfold bind at 1. rewrite Htry. cbv zeta. unfold bind at 1.
    rewrite (run_Ok _ _ _ _ _ Hrun2), Hrc2. reflexivity.
  - intros r2 h2 l2 rest2 Hrun2 Hrc2 Hl2.
    unfold returned, exec, get_hardware_info, try_except.
    unfold bind at 1. rewrite Htry. cbv zeta. unfold bind at 1.
    rewrite (run_Ok _ _ _ _ _ Hrun2), Hrc2, Hl2. reflexivity.
Qed.

(** X30. On Darwin, when the memory command exits with status 0 and
    prints an integer too large to be divided as a float, the division
    raises: the probe stops there, returns the error alone, with the text
    of the [OverflowError], and never runs the CPU command. *)
Theorem get_hardware_info_darwin_overflow (w : world) (r : CompletedProcess)
    (field : string) (n : Z) :
  platform_system w = "Darwin" ->
  subprocess_run w ["sysctl"; "hw.memsize"] None = Ok r ->
  returncode r = 0 ->
  nth_error (PyStr.split ": " (stdout r)) 1 = Some field ->
  PyStr.parse_int field = Some n ->
  (2 ^ 1024 - 2 ^ 970) * 1024 ^ 3 <= Z.abs n ->
  returned (get_hardware_info w)
    = Ok [("error", VStr "Could not gather hardware info: integer division result too large for a float")] /\
  queries (get_hardware_info w) = [CallRun ["sysctl"; "hw.memsize"] None].
Proof.
  intros Hos Hrun Hrc Hsplit Hn Hbig.
  assert (Hover : overflows n (1024 ^ 3) = true)
    by (unfold overflows; now apply Z.leb_le).
  assert (Hexec : exec (get_hardware_info w) =
                  (Ok [("error", VStr ("Could not gather hardware info: "
                                       ++ exn_text overflow_error))],
                   {| dict := [("error", VStr ("Could not gather hardware info: "
                                               ++ exn_text overflow_error))];
                      calls := [CallRun ["sysctl"; "hw.memsize"] None] |})).
  { unfold exec, get_hardware_info, try_except, hardware_try.
    rewrite Hos. cbn [String.eqb Ascii.eqb Bool.eqb].
    unfold hardware_darwin, bind.
    rewrite (run_Ok _ _ _ _ _ Hrun), Hrc. cbn [Z.eqb].
    unfold getitem, int, round_quotient. rewrite Hsplit. unfold ret at 1.
    rewrite Hn. unfold ret at 1. rewrite Hover.
    reflexivity. }
  unfold queries, returned. rewrite Hexec. split; reflexivity.
Qed.

(** * The further theorems at concrete hosts *)

(** X1 on [linux_no_cpuinfo]. *)
Lemma get_hardware_info_keys_witness :
  returned (get_hardware_info Hosts.linux_no_cpuinfo)
    = Ok (dict Hosts.after_meminfo
          ++ [("error", VStr ("Could not gather hardware info: "
                              ++ exn_text Hosts.cpuinfo_denied)%string)])%list /\
  NoDup ["ram_gb"; "error"].
Proof.
  split; [reflexivity|].
  apply (proj1 (get_hardware_info_keys Hosts.linux_no_cpuinfo
                  [ ("ram_gb", VFloat (Tenths false 156));
                    ("error", VStr ("Could not gather hardware info: "
                                    ++ exn_text Hosts.cpuinfo_denied)%string) ]
                  eq_refl)).
Defined.

(** X2 on [interrupted]. *)
Lemma get_hardware_info_raises_only_interrupt_witness :
  returned (get_hardware_info Runs.interrupted) = Raise Runs.interrupt /\
  is_Exception Runs.interrupt = false /\
  raised_by Runs.interrupted Runs.interrupt.
Proof.
  split; [reflexivity|].
  exact (get_hardware_info_raises_only_interrupt Runs.interrupted
           Runs.interrupt eq_refl).
Defined.

(** X3 on [freebsd]. *)
Lemma get_hardware_info_other_os_witness :
  returned (get_hardware_info Runs.freebsd) = Ok [] /\
  queries (get_hardware_info Runs.freebsd) = [].
Proof.
  apply (get_hardware_info_other_os Runs.freebsd); discriminate.
Defined.

(** X4 on [bare_linux]. *)
Lemma get_hardware_info_linux_no_meminfo_witness :
  open_text Hosts.bare_linux "/proc/meminfo"
    = Raise (Hosts.no_file "/proc/meminfo") /\
  returned (get_hardware_info Hosts.bare_linux)
    = Ok [("error", VStr "Could not gather hardware info: [Errno 2] No such file or directory: '/proc/meminfo'")] /\
  queries (get_hardware_info Hosts.bare_linux) = [CallOpen "/proc/meminfo"].
Proof.
  split; [reflexivity|].
  exact (get_hardware_info_linux_no_meminfo Hosts.bare_linux
           (Hosts.no_file "/proc/meminfo") eq_refl eq_refl eq_refl).
Defined.

(** X5 on [linux_no_memtotal]. *)
Lemma get_hardware_info_linux_no_MemTotal_witness :
  queries (get_hardware_info Runs.linux_no_memtotal)
    = [CallOpen "/proc/meminfo"; CallOpen "/proc/cpuinfo"] /\
  returned (get_hardware_info Runs.linux_no_memtotal)
    = Ok [("cpu", VStr "Intel(R) Core(TM) i7")].
Proof.
  destruct (get_hardware_info_linux_no_MemTotal Runs.linux_no_memtotal
              ("MemFree:         1234567 kB" ++ PyStr.NL)%string
              eq_refl eq_refl ltac:(repeat constructor))
    as (Hq & _ & _ & Hcpu).
  split; [exact Hq|].
  apply (Hcpu Hosts.cpuinfo_text
           [("processor	: 0" ++ PyStr.NL)%string]
           ("model name	: Intel(R) Core(TM) i7" ++ PyStr.NL)%string []
           ("Intel(R) Core(TM) i7" ++ PyStr.NL)%string).
  - reflexivity.
  - reflexivity.
  - repeat constructor.
  - reflexivity.
  - reflexivity.
Defined.

(** X6 on [linux]. *)
Lemma get_hardware_info_linux_cpu_witness :
  returned (get_hardware_info Hosts.linux)
    = Ok [ ("ram_gb", VFloat (Tenths false 156));
           ("cpu", VStr "Intel(R) Core(TM) i7") ] /\
  dict_get "cpu" [ ("ram_gb", VFloat (Tenths false 156));
                   ("cpu", VStr "Intel(R) Core(TM) i7") ]
    = Some (VStr "Intel(R) Core(TM) i7").
Proof.
  split; [reflexivity|].
  apply (get_hardware_info_linux_cpu Hosts.linux Hosts.cpuinfo_text
           [("processor	: 0" ++ PyStr.NL)%string] []
           ("model name	: Intel(R) Core(TM) i7" ++ PyStr.NL)%string
           ("Intel(R) Core(TM) i7" ++ PyStr.NL)%string).
  - reflexivity.
  - reflexivity.
  - reflexivity.
  - repeat constructor.
  - reflexivity.
  - reflexivity.
  - reflexivity.
  - reflexivity.
Defined.


(** X8 on [linux_bad_memtotal]; a field with an apostrophe is quoted
    between double quotes. *)
Lemma get_hardware_info_linux_bad_MemTotal_witness :
  meminfo_line_error "MemTotal: it's"
    = Some (Exn ValueError
              ("invalid literal for int() with base 10: "
               ++ String PyStr.dquote ("it's" ++ String PyStr.dquote ""))) /\
  meminfo_line_error ("MemTotal:       lots kB" ++ PyStr.NL)
    = Some (Exn ValueError "invalid literal for int() with base 10: 'lots'") /\
  returned (get_hardware_info Runs.linux_bad_memtotal)
    = Ok [("error", VStr "Could not gather hardware info: invalid literal for int() with base 10: 'lots'")] /\
  queries (get_hardware_info Runs.linux_bad_memtotal) = [CallOpen "/proc/meminfo"].
Proof.
  split; [reflexivity|]. split; [reflexivity|].
  apply (get_hardware_info_linux_bad_MemTotal Runs.linux_bad_memtotal
           ("MemTotal:       lots kB" ++ PyStr.NL)%string [] []
           ("MemTotal:       lots kB" ++ PyStr.NL)%string
           (Exn ValueError "invalid literal for int() with base 10: 'lots'")).
  - reflexivity.
  - reflexivity.
  - reflexivity.
  - constructor.
  - reflexivity.
  - reflexivity.
Defined.

(** X9 on [linux], for the read of the memory file. *)
Lemma get_hardware_info_queries_witness :
  In (CallOpen "/proc/meminfo") (queries (get_hardware_info Hosts.linux)) /\
  In (CallOpen "/proc/meminfo") hardware_calls.
Proof.
  assert (Hin : In (CallOpen "/proc/meminfo")
                   (queries (get_hardware_info Hosts.linux)))
    by (vm_compute; tauto).
  split; [exact Hin|].
  exact (proj1 (get_hardware_info_queries Hosts.linux
                  (CallOpen "/proc/meminfo") Hin)).
Defined.

(** X10 on [windows_pc]. *)
Lemma get_hardware_info_windows_witness :
  overflows 17179869184 (1024 ^ 3) = false /\
  returned (get_hardware_info Runs.windows_pc)
    = Ok [ ("ram_gb", VFloat (Tenths false 160));
           ("cpu", VStr "Intel(R) Core(TM) i7") ].
Proof.
  split; [reflexivity|].
  exact (get_hardware_info_windows Runs.windows_pc
           Runs.wmic_memory Runs.wmic_cpu
           "TotalPhysicalMemory  " "17179869184"
           "Name                  " "Intel(R) Core(TM) i7" [] []
           17179869184
           eq_refl eq_refl eq_refl eq_refl eq_refl eq_refl eq_refl eq_refl
           eq_refl).
Defined.

(** X11 on [macbook]. *)
Lemma get_hardware_info_darwin_witness :
  overflows 17179869184 (1024 ^ 3) = false /\
  returned (get_hardware_info Runs.macbook)
    = Ok [ ("ram_gb", VFloat (Tenths false 160)); ("cpu", VStr "Apple M1") ].
Proof.
  split; [reflexivity|].
  exact (get_hardware_info_darwin Runs.macbook
           Runs.sysctl_memory Runs.sysctl_cpu
           ("17179869184" ++ PyStr.NL)%string 17179869184
           eq_refl eq_refl eq_refl eq_refl eq_refl eq_refl eq_refl eq_refl).
Defined.

(** X12 on [windows_failing]. *)
Lemma get_hardware_info_commands_fail_witness :
  returned (get_hardware_info Runs.windows_failing) = Ok [] /\
  queries (get_hardware_info Runs.windows_failing)
    = [ CallRun ["wmic"; "computersystem"; "get"; "TotalPhysicalMemory"] None;
        CallRun ["wmic"; "cpu"; "get"; "Name"] None ].
Proof.
  apply (get_hardware_info_commands_fail Runs.windows_failing
           ["wmic"; "computersystem"; "get"; "TotalPhysicalMemory"]
           ["wmic"; "cpu"; "get"; "Name"]
           (Completed 1 "" "") (Completed 1 "" "")).
  - left. repeat split; reflexivity.
  - reflexivity.
  - discriminate.
  - reflexivity.
  - discriminate.
Defined.

(** X13 on [workstation]. *)
Lemma check_installed_software_keys_witness :
  returned (check_installed_software Hosts.workstation)
    = Ok Hosts.workstation_tools /\
  dict_keys Hosts.workstation_tools
    = ["git"; "node"; "docker"; "code"; "curl"; "java"; "kubectl"].
Proof.
  assert (Hret : returned (check_installed_software Hosts.workstation)
                 = Ok Hosts.workstation_tools) by (vm_compute; reflexivity).
  split; [exact Hret|].
  exact (check_installed_software_keys Hosts.workstation
           Hosts.workstation_tools Hret).
Defined.

(** X14 on [tool_interrupted]. *)
Lemma check_installed_software_raises_only_interrupt_witness :
  returned (check_installed_software Runs.tool_interrupted)
    = Raise Runs.interrupt /\
  is_Exception Runs.interrupt = false.
Proof.
  assert (Hret : returned (check_installed_software Runs.tool_interrupted)
                 = Raise Runs.interrupt) by (vm_compute; reflexivity).
  split; [exact Hret|].
  exact (proj1 (check_installed_software_raises_only_interrupt
                  Runs.tool_interrupted Runs.interrupt Hret)).
Defined.

(** X16 on [workstation], for the entry of [git]. *)
Lemma check_installed_software_values_trimmed_witness :
  In ("git", VStr "git version 2.39.2") Hosts.workstation_tools /\
  exists s, VStr "git version 2.39.2" = VStr s /\
            first_line s = s /\ PyStr.strip s = s.
Proof.
  assert (Hin : In ("git", VStr "git version 2.39.2") Hosts.workstation_tools)
    by (vm_compute; tauto).
  split; [exact Hin|].
  apply (check_installed_software_values_trimmed Hosts.workstation
           Hosts.workstation_tools "git" (VStr "git version 2.39.2"));
    [vm_compute; reflexivity|exact Hin].
Defined.

(** X17 on [mac]. *)
Lemma detect_development_environments_darwin_witness :
  returned (detect_development_environments Hosts.mac)
    = Ok [("VS Code", VStr "installed"); ("Xcode", VStr "installed")] /\
  queries (detect_development_environments Hosts.mac)
    = map (fun entry => CallExists (fst entry)) darwin_common_paths.
Proof.
  exact (detect_development_environments_darwin Hosts.mac eq_refl).
Defined.

(** X28 on [darwin_bare_number]. *)
Lemma get_hardware_info_darwin_no_colon_witness :
  returned (get_hardware_info Runs.darwin_bare_number)
    = Ok [("error", VStr "Could not gather hardware info: list index out of range")] /\
  queries (get_hardware_info Runs.darwin_bare_number)
    = [CallRun ["sysctl"; "hw.memsize"] None].
Proof.
  exact (get_hardware_info_darwin_no_colon Runs.darwin_bare_number
           (Completed 0 ("17179869184" ++ PyStr.NL) "")
           eq_refl eq_refl eq_refl eq_refl).
Defined.

(** X27 on the key [os_version]. *)
Lemma humanize_no_underscore_witness :
  PyStr.isascii "os_version" = true /\
  humanize "os_version" = "Os Version" /\
  String.length (humanize "os_version") = String.length "os_version" /\
  PyStr.contains "_" (humanize "os_version") = false.
Proof.
  split; [reflexivity|]. split; [reflexivity|].
  exact (humanize_no_underscore "os_version" eq_refl).
Defined.

(** X29 on [windows_heading_only], whose CPU command exits with status
    1. *)
Lemma get_hardware_info_windows_one_line_witness :
  queries (get_hardware_info Runs.windows_heading_only)
    = [ CallRun ["wmic"; "computersystem"; "get"; "TotalPhysicalMemory"] None;
        CallRun ["wmic"; "cpu"; "get"; "Name"] None ] /\
  returned (get_hardware_info Runs.windows_heading_only) = Ok [].
Proof.
  destruct (get_hardware_info_windows_one_line Runs.windows_heading_only
              (Completed 0 ("TotalPhysicalMemory  " ++ PyStr.NL) "")
              "TotalPhysicalMemory" eq_refl eq_refl eq_refl eq_refl)
    as (Hq & _ & Hfail & _).
  split; [exact Hq|].
  apply (Hfail (Completed 1 "" "")); [reflexivity|discriminate].
Defined.

Lemma workstation_gathered_no_dir :
  gathered Hosts.workstation Runs.rt_no_dir
    {| system := system Runs.workstation_data;
       hardware := hardware Runs.workstation_data;
       software := software Runs.workstation_data;
       environments := [];
       shell := [("current_shell", VStr "unknown")];
       network := network Runs.workstation_data |}.
Proof. repeat split; vm_compute; reflexivity. Qed.

Lemma workstation_gathered_no_md :
  gathered Hosts.workstation Runs.rt_no_md
    {| system := system Runs.workstation_data;
       hardware := hardware Runs.workstation_data;
       software := software Runs.workstation_data;
       environments := [];
       shell := [("current_shell", VStr "unknown")];
       network := network Runs.workstation_data |}.
Proof. repeat split; vm_compute; reflexivity. Qed.

Lemma workstation_status :
  fst (script Hosts.workstation Runs.rt (fun _ => "{}") (fun _ _ => "")
         "" "" "" "" "") = 0.
Proof. vm_compute. reflexivity. Qed.

(** X20 on [workstation]. *)
Lemma script_success_witness :
  fst (script Hosts.workstation Runs.rt (fun _ => "{}") (fun _ _ => "")
         "" "" "" "" "") = 0 /\
  exists data,
    gathered Hosts.workstation Runs.rt data /\
    snd (script Hosts.workstation Runs.rt (fun _ => "{}") (fun _ _ => "")
           "" "" "" "" "")
    = ((Print " Gathering system information..."
        :: map Ask (probe_queries Hosts.workstation Runs.rt))
       ++ [ Makedirs "user-data";
            Write json_file "{}";
            Write md_file
              (save_to_markdown (fun _ _ => "") "2024-01-01 00:00:00" data) ]
       ++ map Print
            (summary_lines Hosts.workstation Runs.rt (fun _ _ => "")
               "" "" "" data))%list.
Proof.
  split; [exact workstation_status|].
  exact (script_success Hosts.workstation Runs.rt (fun _ => "{}")
           (fun _ _ => "") "" "" "" "" "" workstation_status).
Defined.


(** X21 on [interrupted]. *)
Lemma script_interrupted_witness :
  returned (get_hardware_info Runs.interrupted) = Raise Runs.interrupt /\
  fst (script Runs.interrupted Runs.rt (fun _ => "{}") (fun _ _ => "")
         "" "" "" "" "") = 1 /\
  existsb is_output
    (snd (script Runs.interrupted Runs.rt (fun _ => "{}") (fun _ _ => "")
            "" "" "" "" "")) = false.
Proof.
  split; [reflexivity|].
  destruct (script_interrupted Runs.interrupted Runs.rt (fun _ => "{}")
              (fun _ _ => "") "" "" "" "" "" Runs.interrupt
              (or_introl eq_refl)) as (Hstatus & Hout & _).
  split; [exact Hstatus|exact Hout].
Defined.

(** X23 on [rt_no_dir]. *)
Lemma script_no_directory_witness :
  os_makedirs Runs.rt_no_dir "user-data" = Raise (Runs.denied "user-data") /\
  fst (script Hosts.workstation Runs.rt_no_dir (fun _ => "{}") (fun _ _ => "")
         "" "" "" "" "") = 1 /\
  filter is_output
    (snd (script Hosts.workstation Runs.rt_no_dir (fun _ => "{}")
            (fun _ _ => "") "" "" "" "" ""))
  = [Makedirs "user-data"].
Proof.
  split; [reflexivity|].
  rewrite (script_no_directory Hosts.workstation Runs.rt_no_dir (fun _ => "{}")
             (fun _ _ => "") "" "" "" "" "" _ (Runs.denied "user-data")
             workstation_gathered_no_dir eq_refl (or_introl eq_refl)).
  split; vm_compute; reflexivity.
Defined.

(** X24 on [rt_no_md]. *)
Lemma script_no_markdown_witness :
  open_write Runs.rt_no_md md_file = Raise (Runs.denied md_file) /\
  fst (script Hosts.workstation Runs.rt_no_md (fun _ => "{}") (fun _ _ => "")
         "" "" "" "" "") = 1 /\
  filter is_output
    (snd (script Hosts.workstation Runs.rt_no_md (fun _ => "{}")
            (fun _ _ => "") "" "" "" "" ""))
  = [Makedirs "user-data"; Write json_file "{}"].
Proof.
  split; [reflexivity|].
  rewrite (script_no_markdown Hosts.workstation Runs.rt_no_md (fun _ => "{}")
             (fun _ _ => "") "" "" "" "" "" _ (Runs.denied md_file)
             workstation_gathered_no_md eq_refl eq_refl eq_refl eq_refl).
  split; vm_compute; reflexivity.
Defined.

(** X25 on [workstation], where seven of the tools are found. *)
Lemma script_tools_found_witness :
  fst (script Hosts.workstation Runs.rt (fun _ => "{}") (fun _ _ => "")
         "" "" "" "" "") = 0 /\
  List.length (filter (found Hosts.workstation) check_commands) = 7%nat /\
  exists evs,
    snd (script Hosts.workstation Runs.rt (fun _ => "{}") (fun _ _ => "")
           "" "" "" "" "")
    = (evs ++ [Print ("Development tools found: "
                      ++ PyStr.of_Z (Z.of_nat (List.length
                           (filter (found Hosts.workstation) check_commands))))])%list.
Proof.
  split; [exact workstation_status|]. split; [reflexivity|].
  exact (script_tools_found Hosts.workstation Runs.rt (fun _ => "{}")
           (fun _ _ => "") "" "" "" "" "" workstation_status).
Defined.

(** X30 on [darwin_huge]. *)
Lemma get_hardware_info_darwin_overflow_witness :
  PyStr.parse_int (Runs.huge_number ++ PyStr.NL) = Some (10 ^ 400) /\
  returned (get_hardware_info Runs.darwin_huge)
    = Ok [("error", VStr "Could not gather hardware info: integer division result too large for a float")] /\
  queries (get_hardware_info Runs.darwin_huge)
    = [CallRun ["sysctl"; "hw.memsize"] None].
Proof.
  assert (Hn : PyStr.parse_int (Runs.huge_number ++ PyStr.NL) = Some (10 ^ 400))
    by (vm_compute; reflexivity).
  split; [exact Hn|].
  apply (get_hardware_info_darwin_overflow Runs.darwin_huge
           (Completed 0 ("hw.memsize: " ++ Runs.huge_number ++ PyStr.NL) "")
           (Runs.huge_number ++ PyStr.NL)%string (10 ^ 400)).
  - reflexivity.
  - reflexivity.
  - reflexivity.
  - vm_compute. reflexivity.
  - exact Hn.
  - vm_compute. discriminate.
Defined.
